(** * A verified model of the Pipedrive API client (package [pipedrive])

    The development follows [pipedrive.go]:

    - [GoStrings]: the few functions of Go's [strings] package that the
      client reaches through [net/url], over byte strings;
    - [NetURL]: a model of the parts of Go's [net/url] that
      [authenticatedURL] calls ([url.Parse], [URL.Query], [Values.Add],
      [Values.Encode], [URL.String]);
    - [Pipedrive]: the client itself.  Calls through the [Requestor]
      interface are the nodes of a finite interaction tree; [run] plays a
      tree against a transport and records the calls that were issued.

    [encoding/json] is not part of the repository and no property below
    depends on the text it produces, so [json.Unmarshal] and [json.Marshal]
    are parameters of the client; [RefJSON] provides a reference decoder
    for running the scenarios of [pipedrive_test.go]. *)

From Stdlib Require Import ZArith QArith String Ascii DecimalString.
From stdpp Require Import gmap strings list fin_maps sorting.

#[local] Set Warnings "-register-all".
#[local] Open Scope string_scope.

(* ================================================================== *)
(** * Byte strings: the helpers of Go's [strings] package *)
(* ================================================================== *)

Module GoStrings.

(** Go strings are byte sequences; [string] is a list of 8-bit [ascii]. *)

Definition byte_le (a b : ascii) : bool := (N_of_ascii a <=? N_of_ascii b)%N.

(** [lo <= c && c <= hi] *)
Definition between (lo hi c : ascii) : bool := byte_le lo c && byte_le c hi.

Definition is_lower (c : ascii) : bool := between "a" "z" c.
Definition is_upper (c : ascii) : bool := between "A" "Z" c.
Definition is_digit (c : ascii) : bool := between "0" "9" c.

Fixpoint mem_byte (c : ascii) (s : string) : bool :=
  match s with
  | EmptyString => false
  | String d t => Ascii.eqb c d || mem_byte c t
  end.

(** [strings.HasPrefix] *)
Definition HasPrefix (s pre : string) : bool := String.prefix pre s.

(** The part of [s] before and after the first byte [sep], if any. *)
Fixpoint cut_byte (sep : ascii) (s : string) : option (string * string) :=
  match s with
  | EmptyString => None
  | String c t =>
      if Ascii.eqb c sep then Some (EmptyString, t)
      else match cut_byte sep t with
           | Some (before, after) => Some (String c before, after)
           | None => None
           end
  end.

(** [strings.Cut(s, sep)] for a one-byte separator. *)
Definition Cut (s : string) (sep : ascii) : string * string * bool :=
  match cut_byte sep s with
  | Some (before, after) => (before, after, true)
  | None => (s, EmptyString, false)
  end.

(** The part of [s] before and after the last byte [sep], if any:
    [s[:i]] and [s[i+1:]] for [i = strings.LastIndex(s, sep)]. *)
Fixpoint cut_last_byte (sep : ascii) (s : string) : option (string * string) :=
  match s with
  | EmptyString => None
  | String c t =>
      match cut_last_byte sep t with
      | Some (before, after) => Some (String c before, after)
      | None => if Ascii.eqb c sep then Some (EmptyString, t) else None
      end
  end.

(** The part of [s] before the first occurrence of [sub] and the part
    from that occurrence on: [s[:i]] and [s[i:]] for
    [i = strings.Index(s, sub)]. *)
Fixpoint split_at_sub (sub s : string) : option (string * string) :=
  if String.prefix sub s then Some (EmptyString, s)
  else match s with
       | EmptyString => None
       | String c t =>
           match split_at_sub sub t with
           | Some (before, from) => Some (String c before, from)
           | None => None
           end
       end.

(** The pieces of [s] between the bytes [sep] ([strings.Split]). *)
Fixpoint Split (sep : ascii) (s : string) : list string :=
  match s with
  | EmptyString => [EmptyString]
  | String c t =>
      if Ascii.eqb c sep then EmptyString :: Split sep t
      else match Split sep t with
           | piece :: rest => String c piece :: rest
           | [] => [String c EmptyString]
           end
  end.

Definition lower_byte (c : ascii) : ascii :=
  if is_upper c then ascii_of_N (N_of_ascii c + 32) else c.

(** [strings.ToLower] on ASCII input. *)
Fixpoint ToLower (s : string) : string :=
  match s with
  | EmptyString => EmptyString
  | String c t => String (lower_byte c) (ToLower t)
  end.

Definition take (n : nat) (s : string) : string := String.substring 0 n s.

Fixpoint all_bytes (p : ascii -> bool) (s : string) : bool :=
  match s with
  | EmptyString => true
  | String c t => p c && all_bytes p t
  end.

Fixpoint count_byte (c : ascii) (s : string) : nat :=
  match s with
  | EmptyString => 0
  | String d t => (if Ascii.eqb c d then 1 else 0) + count_byte c t
  end.

(** [rest[:len(rest)-1]] when [rest] ends in the byte [c]. *)
Fixpoint strip_last (c : ascii) (s : string) : option string :=
  match s with
  | EmptyString => None
  | String d EmptyString => if Ascii.eqb c d then Some EmptyString else None
  | String d t =>
      match strip_last c t with
      | Some t' => Some (String d t')
      | None => None
      end
  end.

(** [strings.Join] *)
Fixpoint join (sep : string) (l : list string) : string :=
  match l with
  | [] => EmptyString
  | [x] => x
  | x :: l' => x +:+ sep +:+ join sep l'
  end.

End GoStrings.

(* ================================================================== *)
(** * Go's [net/url], as far as [authenticatedURL] uses it *)
(* ================================================================== *)

Module NetURL.
Import GoStrings.

(** The model follows net/url of Go 1.17 to 1.22: [&] is the only
    separator of query parameters, and control bytes are rejected. *)

Inductive encoding : Type :=
| encodePath | encodePathSegment | encodeHost | encodeZone
| encodeUserPassword | encodeQueryComponent | encodeFragment.

(** The errors of the package: the [Err] field of a [*url.Error]. *)
Inductive url_err : Type :=
| ErrControlCharacter      (* invalid control character in URL *)
| ErrMissingScheme         (* missing protocol scheme *)
| ErrColonInFirstSegment   (* first path segment in URL cannot contain colon *)
| ErrMissingBracket        (* missing ']' in host *)
| ErrInvalidPort (port : string)
| ErrInvalidUserinfo
| ErrSemicolon             (* invalid semicolon separator in query *)
| EscapeError (s : string)
| InvalidHostError (s : string).

Record Userinfo : Type := mkUserinfo {
  username : string;
  password : string;
  passwordSet : bool
}.

Record URL : Type := mkURL {
  Scheme : string;
  Opaque : string;
  User : option Userinfo;
  Host : string;
  Path : string;
  RawPath : string;
  OmitHost : bool;
  ForceQuery : bool;
  RawQuery : string;
  Fragment : string;
  RawFragment : string
}.

(** [url.Values] is [map[string][]string]. *)
Abbreviation Values := (gmap string (list string)).

Definition dquote : ascii := ascii_of_N 34.
Definition is_empty (s : string) : bool := String.eqb s EmptyString.

Definition ishex (c : ascii) : bool :=
  is_digit c || between "a" "f" c || between "A" "F" c.

Definition unhex (c : ascii) : N :=
  if is_digit c then N_of_ascii c - N_of_ascii "0"
  else if between "a" "f" c then N_of_ascii c - N_of_ascii "a" + 10
  else if between "A" "F" c then N_of_ascii c - N_of_ascii "A" + 10
  else 0.

(** [upperhex[n]] for [n < 16]. *)
Definition upperhex (n : N) : ascii :=
  if (n <? 10)%N then ascii_of_N (N_of_ascii "0" + n)
  else ascii_of_N (N_of_ascii "A" + (n - 10)).

(** [unhex(a)<<4 | unhex(b)] *)
Definition unhex2 (a b : ascii) : ascii := ascii_of_N (unhex a * 16 + unhex b).

Definition host_mode (mode : encoding) : bool :=
  match mode with encodeHost | encodeZone => true | _ => false end.

Definition shouldEscape (c : ascii) (mode : encoding) : bool :=
  if is_lower c || is_upper c || is_digit c then false
  else if host_mode mode && (mem_byte c "!$&'()*+,;=:[]<>" || Ascii.eqb c dquote)
  then false
  else if mem_byte c "-_.~" then false
  else if mem_byte c "$&+,/:;=?@" then
    match mode with
    | encodePath => Ascii.eqb c "?"
    | encodePathSegment => mem_byte c "/;,?"
    | encodeUserPassword => mem_byte c "@/?:"
    | encodeQueryComponent => true
    | encodeFragment => false
    | encodeHost | encodeZone => true
    end
  else match mode with
       | encodeFragment => negb (mem_byte c "!()*")
       | _ => true
       end.

Definition is_query (mode : encoding) : bool :=
  match mode with encodeQueryComponent => true | _ => false end.

Fixpoint escape (s : string) (mode : encoding) : string :=
  match s with
  | EmptyString => EmptyString
  | String c t =>
      if Ascii.eqb c " " && is_query mode then String "+" (escape t mode)
      else if shouldEscape c mode then
        String "%" (String (upperhex (N_of_ascii c / 16))
                     (String (upperhex (N_of_ascii c mod 16)) (escape t mode)))
      else String c (escape t mode)
  end.

Definition QueryEscape (s : string) : string := escape s encodeQueryComponent.

(** First pass of [unescape]: the escapes are well formed. *)
Fixpoint unescape_check (s : string) (mode : encoding) : option url_err :=
  match s with
  | EmptyString => None
  | String c t =>
      if Ascii.eqb c "%" then
        match t with
        | String a (String b t') =>
            if ishex a && ishex b then
              let esc := String c (String a (String b EmptyString)) in
              match mode with
              | encodeHost =>
                  if (unhex a <? 8)%N && negb (String.eqb esc "%25")
                  then Some (EscapeError esc) else unescape_check t' mode
              | encodeZone =>
                  let v := unhex2 a b in
                  if negb (String.eqb esc "%25") && negb (Ascii.eqb v " ")
                     && shouldEscape v encodeHost
                  then Some (EscapeError esc) else unescape_check t' mode
              | _ => unescape_check t' mode
              end
            else Some (EscapeError (take 3 s))
        | _ => Some (EscapeError (take 3 s))
        end
      else if Ascii.eqb c "+" then unescape_check t mode
      else if host_mode mode && (N_of_ascii c <? 128)%N && shouldEscape c encodeHost
      then Some (InvalidHostError (String c EmptyString))
      else unescape_check t mode
  end.

(** Second pass of [unescape]: the escapes are replaced. *)
Fixpoint unescape_bytes (s : string) (mode : encoding) : string :=
  match s with
  | EmptyString => EmptyString
  | String c t =>
      if Ascii.eqb c "%" then
        match t with
        | String a (String b t') => String (unhex2 a b) (unescape_bytes t' mode)
        | _ => String c (unescape_bytes t mode)
        end
      else if Ascii.eqb c "+" && is_query mode then String " " (unescape_bytes t mode)
      else String c (unescape_bytes t mode)
  end.

Definition unescape (s : string) (mode : encoding) : url_err + string :=
  match unescape_check s mode with
  | Some e => inl e
  | None => inr (unescape_bytes s mode)
  end.

Definition QueryUnescape (s : string) : url_err + string :=
  unescape s encodeQueryComponent.

(** ** Query parameters *)

(** [m[key] = append(m[key], value)] *)
Definition Values_Add (v : Values) (key value : string) : Values :=
  <[key := (default [] (v !! key) ++ [value])%list]> v.

(** One turn of the loop of [parseQuery], on the piece [key] cut off
    at the next [&]. *)
Definition parseQuery_step (acc : Values * option url_err) (key : string)
  : Values * option url_err :=
  let '(m, err) := acc in
  if mem_byte ";" key then (m, Some ErrSemicolon)
  else if is_empty key then (m, err)
  else
    let '(key, value, _) := Cut key "=" in
    match QueryUnescape key with
    | inl err1 => (m, Some (default err1 err))
    | inr key =>
        match QueryUnescape value with
        | inl err1 => (m, Some (default err1 err))
        | inr value => (Values_Add m key value, err)
        end
    end.

(** [url.ParseQuery]: the loop cuts the query at each [&], so it runs
    over the pieces of [Split]. *)
Definition ParseQuery (query : string) : Values * option url_err :=
  fold_left parseQuery_step (Split "&" query) (∅, None).

(** [u.Query()] drops the error of [ParseQuery]. *)
Definition URL_Query (u : URL) : Values := (ParseQuery (RawQuery u)).1.

Definition write_param (keyEscaped : string) (buf v : string) : string :=
  (if is_empty buf then buf else buf +:+ "&") +:+ keyEscaped +:+ "=" +:+ QueryEscape v.

Definition write_key (v : Values) (buf k : string) : string :=
  fold_left (write_param (QueryEscape k)) (default [] (v !! k)) buf.

(** [v.Encode()], where [range v] yields the keys in the order [ks]:
    Go leaves the order of a map iteration unspecified.  [String.le] is
    Go's order on strings, bytewise lexicographic. *)
Definition Values_Encode_from (ks : list string) (v : Values) : string :=
  if decide (v = ∅) then EmptyString
  else fold_left (write_key v) (merge_sort String.le ks) EmptyString.

Definition Values_Encode (v : Values) : string :=
  Values_Encode_from (map_to_list v).*1 v.

(** The parameters [Encode] writes when it visits the keys [ks] in
    that order, and the text of one of them. *)
Definition params (ks : list string) (v : Values) : list (string * string) :=
  concat ((fun k => pair k <$> default [] (v !! k)) <$> ks).

Definition render (kv : string * string) : string :=
  QueryEscape kv.1 +:+ "=" +:+ QueryEscape kv.2.

(** [Encode] appends a parameter to its buffer, after a [&] unless
    the buffer is empty. *)
Definition push (buf seg : string) : string :=
  (if is_empty buf then buf else buf +:+ "&") +:+ seg.

Definition add_param (m : Values) (kv : string * string) : Values :=
  Values_Add m kv.1 kv.2.

(** No key is bound to an empty list: so it is of what [ParseQuery]
    and [Add] build. *)
Definition no_empty_list (m : Values) : Prop :=
  forall k vs, m !! k = Some vs -> vs <> [].

(** ** Parsing and printing URLs *)

Definition stringContainsCTLByte (s : string) : bool :=
  negb (all_bytes (fun b => negb ((N_of_ascii b <? 32)%N || (N_of_ascii b =? 127)%N)) s).

(** [getScheme]: the scheme and what follows its colon. *)
Fixpoint getScheme_from (i : nat) (rawURL s : string) : url_err + (string * string) :=
  match s with
  | EmptyString => inr (EmptyString, rawURL)
  | String c t =>
      if is_lower c || is_upper c then getScheme_from (S i) rawURL t
      else if is_digit c || mem_byte c "+-." then
        match i with
        | O => inr (EmptyString, rawURL)
        | _ => getScheme_from (S i) rawURL t
        end
      else if Ascii.eqb c ":" then
        match i with
        | O => inl ErrMissingScheme
        | _ => inr (take i rawURL, t)
        end
      else inr (EmptyString, rawURL)
  end.

Definition getScheme (rawURL : string) : url_err + (string * string) :=
  getScheme_from 0 rawURL rawURL.

Definition validOptionalPort (port : string) : bool :=
  match port with
  | EmptyString => true
  | String c digits => Ascii.eqb c ":" && all_bytes is_digit digits
  end.

Definition validUserinfo (s : string) : bool :=
  all_bytes (fun r => is_upper r || is_lower r || is_digit r
                      || mem_byte r "-._:~!$&'()*+,;=%@") s.

Definition parseHost (host : string) : url_err + string :=
  let plain := unescape host encodeHost in
  if HasPrefix host "[" then
    match cut_last_byte "]" host with
    | None => inl ErrMissingBracket
    | Some (upto, colonPort) =>
        if negb (validOptionalPort colonPort) then inl (ErrInvalidPort colonPort)
        else
          match split_at_sub "%25" upto with
          | Some (h1, zone) =>
              match unescape h1 encodeHost with
              | inl e => inl e
              | inr host1 =>
                  match unescape zone encodeZone with
                  | inl e => inl e
                  | inr host2 =>
                      match unescape (String "]" colonPort) encodeHost with
                      | inl e => inl e
                      | inr host3 => inr (host1 +:+ host2 +:+ host3)
                      end
                  end
              end
          | None => plain
          end
    end
  else
    match cut_last_byte ":" host with
    | Some (_, port) =>
        if negb (validOptionalPort (String ":" port))
        then inl (ErrInvalidPort (String ":" port)) else plain
    | None => plain
    end.

Definition parseAuthority (authority : string) : url_err + (option Userinfo * string) :=
  match cut_last_byte "@" authority with
  | None =>
      match parseHost authority with
      | inl e => inl e
      | inr host => inr (None, host)
      end
  | Some (userinfo, hostpart) =>
      match parseHost hostpart with
      | inl e => inl e
      | inr host =>
          if negb (validUserinfo userinfo) then inl ErrInvalidUserinfo
          else if negb (mem_byte ":" userinfo) then
            match unescape userinfo encodeUserPassword with
            | inl e => inl e
            | inr name => inr (Some (mkUserinfo name EmptyString false), host)
            end
          else
            let '(name, pass, _) := Cut userinfo ":" in
            match unescape name encodeUserPassword with
            | inl e => inl e
            | inr name =>
                match unescape pass encodeUserPassword with
                | inl e => inl e
                | inr pass => inr (Some (mkUserinfo name pass true), host)
                end
            end
      end
  end.

Definition emptyURL : URL :=
  mkURL EmptyString EmptyString None EmptyString EmptyString EmptyString
        false false EmptyString EmptyString EmptyString.

Definition with_query (u : URL) (force : bool) (rawQuery : string) : URL :=
  mkURL (Scheme u) (Opaque u) (User u) (Host u) (Path u) (RawPath u)
        (OmitHost u) force rawQuery (Fragment u) (RawFragment u).

(** [u.RawQuery = q] *)
Definition set_RawQuery (u : URL) (q : string) : URL :=
  with_query u (ForceQuery u) q.

(** [u.setPath(p)] *)
Definition setPath (u : URL) (p : string) : url_err + URL :=
  match unescape p encodePath with
  | inl e => inl e
  | inr path =>
      let raw := if String.eqb p (escape path encodePath) then EmptyString else p in
      inr (mkURL (Scheme u) (Opaque u) (User u) (Host u) path raw
                 (OmitHost u) (ForceQuery u) (RawQuery u) (Fragment u) (RawFragment u))
  end.

(** [u.setFragment(f)] *)
Definition setFragment (u : URL) (f : string) : url_err + URL :=
  match unescape f encodeFragment with
  | inl e => inl e
  | inr frag =>
      let raw := if String.eqb f (escape frag encodeFragment) then EmptyString else f in
      inr (mkURL (Scheme u) (Opaque u) (User u) (Host u) (Path u) (RawPath u)
                 (OmitHost u) (ForceQuery u) (RawQuery u) frag raw)
  end.

(** The query is split off first: a lone trailing [?] forces an empty
    query, otherwise the query is what follows the first [?]. *)
Definition split_query (rest : string) : string * string * bool :=
  match strip_last "?" rest with
  | Some rest' =>
      if Nat.eqb (count_byte "?" rest) 1 then (rest', EmptyString, true)
      else let '(r, q, _) := Cut rest "?" in (r, q, false)
  | None => let '(r, q, _) := Cut rest "?" in (r, q, false)
  end.

(** [parse(rawURL, false)] *)
Definition parse (rawURL : string) : url_err + URL :=
  if stringContainsCTLByte rawURL then inl ErrControlCharacter
  else if String.eqb rawURL "*" then
    inr (mkURL EmptyString EmptyString None EmptyString "*" EmptyString
               false false EmptyString EmptyString EmptyString)
  else
    match getScheme rawURL with
    | inl e => inl e
    | inr (scheme, rest) =>
        let scheme := ToLower scheme in
        let '(rest, rawQuery, force) := split_query rest in
        let u0 := mkURL scheme EmptyString None EmptyString EmptyString EmptyString
                        false force rawQuery EmptyString EmptyString in
        if negb (HasPrefix rest "/") && negb (is_empty scheme) then
          (* rootless paths are opaque *)
          inr (mkURL scheme rest None EmptyString EmptyString EmptyString
                     false force rawQuery EmptyString EmptyString)
        else if negb (HasPrefix rest "/") && mem_byte ":" (Cut rest "/").1.1 then
          inl ErrColonInFirstSegment
        else if (negb (is_empty scheme) || negb (HasPrefix rest "///"))
                && HasPrefix rest "//" then
          let after := String.substring 2 (String.length rest - 2) rest in
          let '(authority, rest) :=
            match split_at_sub "/" after with
            | Some (a, r) => (a, r)
            | None => (after, EmptyString)
            end in
          match parseAuthority authority with
          | inl e => inl e
          | inr (user, host) =>
              setPath (mkURL scheme EmptyString user host EmptyString EmptyString
                             false force rawQuery EmptyString EmptyString) rest
          end
        else if negb (is_empty scheme) && HasPrefix rest "/" then
          setPath (mkURL scheme EmptyString None EmptyString EmptyString EmptyString
                         true force rawQuery EmptyString EmptyString) rest
        else setPath u0 rest
    end.

(** A [*url.Error]: the operation, the URL and the cause. *)
Record Error : Type := mkError { Op : string; ErrURL : string; Err : url_err }.

(** [url.Parse] *)
Definition Parse (rawURL : string) : Error + URL :=
  let '(u, frag, _) := Cut rawURL "#" in
  match parse u with
  | inl e => inl (mkError "parse" u e)
  | inr url =>
      if is_empty frag then inr url
      else match setFragment url frag with
           | inl e => inl (mkError "parse" rawURL e)
           | inr url => inr url
           end
  end.

Definition validEncoded (s : string) (mode : encoding) : bool :=
  all_bytes (fun c => mem_byte c "!$&'()*+,;=:@[]%" || negb (shouldEscape c mode)) s.

Definition EscapedPath (u : URL) : string :=
  let fallback :=
    if String.eqb (Path u) "*" then "*" else escape (Path u) encodePath in
  if negb (is_empty (RawPath u)) && validEncoded (RawPath u) encodePath then
    match unescape (RawPath u) encodePath with
    | inr p => if String.eqb p (Path u) then RawPath u else fallback
    | inl _ => fallback
    end
  else fallback.

Definition EscapedFragment (u : URL) : string :=
  let fallback := escape (Fragment u) encodeFragment in
  if negb (is_empty (RawFragment u)) && validEncoded (RawFragment u) encodeFragment then
    match unescape (RawFragment u) encodeFragment with
    | inr f => if String.eqb f (Fragment u) then RawFragment u else fallback
    | inl _ => fallback
    end
  else fallback.

Definition Userinfo_String (ui : Userinfo) : string :=
  escape (username ui) encodeUserPassword
  +:+ (if passwordSet ui then ":" +:+ escape (password ui) encodeUserPassword
       else EmptyString).

Definition is_some {A} (o : option A) : bool :=
  match o with Some _ => true | None => false end.

(** What [u.String()] writes before the query. *)
Definition String_head (u : URL) : string :=
  let buf := if is_empty (Scheme u) then EmptyString else Scheme u +:+ ":" in
  if negb (is_empty (Opaque u)) then buf +:+ Opaque u
  else
    let buf :=
      if negb (is_empty (Scheme u)) || negb (is_empty (Host u)) || is_some (User u) then
        if OmitHost u && is_empty (Host u) && negb (is_some (User u)) then buf
        else
          let buf :=
            if negb (is_empty (Host u)) || negb (is_empty (Path u)) || is_some (User u)
            then buf +:+ "//" else buf in
          let buf :=
            match User u with
            | Some ui => buf +:+ Userinfo_String ui +:+ "@"
            | None => buf
            end in
          if negb (is_empty (Host u)) then buf +:+ escape (Host u) encodeHost else buf
      else buf in
    let path := EscapedPath u in
    let buf :=
      if negb (is_empty path) && negb (HasPrefix path "/") && negb (is_empty (Host u))
      then buf +:+ "/" else buf in
    let buf :=
      if is_empty buf && mem_byte ":" (Cut path "/").1.1 then buf +:+ "./" else buf in
    buf +:+ path.

(** [u.String()] *)
Definition URL_String (u : URL) : string :=
  String_head u
  +:+ (if ForceQuery u || negb (is_empty (RawQuery u)) then "?" +:+ RawQuery u
       else EmptyString)
  +:+ (if negb (is_empty (Fragment u)) then "#" +:+ EscapedFragment u
       else EmptyString).

End NetURL.

(* ================================================================== *)
(** * The client: [pipedrive.go] *)
(* ================================================================== *)

Module Pipedrive.
Import GoStrings NetURL.

(** ** Values, errors and panics *)

(** The dynamic values [interface{}] holds in this package: what
    [json.Unmarshal] stores in a [map[string]interface{}] ([nil], [bool],
    [float64], [string], [[]interface{}], [map[string]interface{}]) and
    what the client puts in a request ([int], [string], [[]string]).
    A finite [float64] is the rational it denotes. *)
Inductive value : Type :=
| VNil
| VBool (b : bool)
| VFloat64 (f : Q)
| VInt (n : Z)
| VString (s : string)
| VStrings (l : list string)
| VSlice (l : list value)
| VMap (m : gmap string value).

Abbreviation fields := (gmap string value).

(** The values of Go's [error] that reach the caller. *)
Inductive error : Type :=
| errors_New (text : string)
| fmt_Errorf (format : string) (operands : list value)
| url_Error (e : NetURL.Error)
| foreign_error (description : string).
    (* from the transport, from reading a body, from encoding/json *)

Inductive panic : Type :=
| NilDereference       (* a nil response pointer *)
| TypeAssertion        (* x.(T) on a value that is not a T *)
| IndexOutOfRange.     (* l[0] on an empty slice *)

(** How a call of one of the three operations ends. *)
Inductive Outcome : Type :=
| Returns (err : option error)
| Panics (p : panic).

(** [encoding/json], as the client uses it: [json.Unmarshal(b, &data)]
    for [var data map[string]interface{}], and [json.Marshal] of a
    field mapping. *)
Class JSON : Type := {
  json_Unmarshal : string -> error + fields;
  json_Marshal : fields -> error + string
}.

(** [m[k]]: the zero value [nil] when the key is missing. *)
Definition index (m : fields) (k : string) : value := default VNil (m !! k).

Definition is_nil (v : value) : bool :=
  match v with VNil => true | _ => false end.

Definition minInt : Z := - 2 ^ 63.
Definition maxInt : Z := 2 ^ 63 - 1.

(** [int(f)]: the fraction is discarded.  Outside the range of [int]
    the result is implementation-dependent; amd64 yields [minInt]. *)
Definition int_of_float64 (f : Q) : Z :=
  let t := Z.quot (Qnum f) (Z.pos (Qden f)) in
  if ((minInt <=? t) && (t <=? maxInt))%Z then t else minInt.

(** [v.(map[string]interface{})["id"].(float64)], converted to [int]. *)
Definition object_id (v : value) : panic + Z :=
  match v with
  | VMap m =>
      match index m "id" with
      | VFloat64 f => inr (int_of_float64 f)
      | _ => inl TypeAssertion
      end
  | _ => inl TypeAssertion
  end.

(** [int(v.([]interface{})[0].(map[string]interface{})["id"].(float64))] *)
Definition first_id (v : value) : panic + Z :=
  match v with
  | VSlice [] => inl IndexOutOfRange
  | VSlice (x :: _) => object_id x
  | _ => inl TypeAssertion
  end.

(** ** The transport and the interaction tree of an operation *)

(** A response, by what reading its body to the end yields
    ([buf.ReadFrom(resp.Body)]): the bytes read and the error, if any. *)
Record Response : Type := mkResponse {
  Body : string;
  ReadErr : option error
}.

(** What [Get] and [Post] return: a response pointer and an error. *)
Abbreviation reply := (option Response * option error)%type.

(** A computation that calls [Get] and [Post] of the [Requestor]. *)
Inductive Prog (A : Type) : Type :=
| Ret (a : A)
| DoGet (url : string) (k : reply -> Prog A)
| DoPost (url contentType body : string) (k : reply -> Prog A).
Arguments Ret {A} a.
Arguments DoGet {A} url k.
Arguments DoPost {A} url contentType body k.

Fixpoint bind {A B} (p : Prog A) (f : A -> Prog B) : Prog B :=
  match p with
  | Ret a => f a
  | DoGet url k => DoGet url (fun r => bind (k r) f)
  | DoPost url ct body k => DoPost url ct body (fun r => bind (k r) f)
  end.

(** The [Requestor] interface, implemented over a state [W] of the
    world it talks to. *)
Record Requestor (W : Type) : Type := mkRequestor {
  Get : string -> W -> reply * W;
  Post : string -> string -> string -> W -> reply * W
}.
Arguments Get {W} r url w.
Arguments Post {W} r url contentType body w.

Inductive Call : Type :=
| GET (url : string)
| POST (url contentType body : string).

(** Playing a computation against a transport: the result, the calls
    issued in order, and the state the world is left in. *)
Fixpoint run {W A} (h : Requestor W) (p : Prog A) (w : W) : A * list Call * W :=
  match p with
  | Ret a => (a, [], w)
  | DoGet url k =>
      let '(r, w1) := Get h url w in
      let '(a, calls, w2) := run h (k r) w1 in
      (a, GET url :: calls, w2)
  | DoPost url ct body k =>
      let '(r, w1) := Post h url ct body w in
      let '(a, calls, w2) := run h (k r) w1 in
      (a, POST url ct body :: calls, w2)
  end.

Definition is_POST (c : Call) : bool :=
  match c with POST _ _ _ => true | GET _ => false end.

(** The number of [Post] calls among [calls]. *)
Definition count_POST (calls : list Call) : nat := length (filter is_POST calls).

(** [P] holds of every result the computation can end with, and [C]
    of every call it can issue, whatever the transport answers. *)
Fixpoint all_leaves {A} (P : A -> Prop) (p : Prog A) : Prop :=
  match p with
  | Ret a => P a
  | DoGet _ k => forall r, all_leaves P (k r)
  | DoPost _ _ _ k => forall r, all_leaves P (k r)
  end.

Fixpoint all_calls {A} (C : Call -> Prop) (p : Prog A) : Prop :=
  match p with
  | Ret _ => True
  | DoGet url k => C (GET url) /\ forall r, all_calls C (k r)
  | DoPost url ct body k => C (POST url ct body) /\ forall r, all_calls C (k r)
  end.

(** The names the specification gives the errors, by how the client
    makes them: [errors.New] only for a violated precondition,
    [fmt.Errorf] only for a create response without data. *)
Inductive ErrorKind : Type :=
| InvalidArgument | MalformedURL | CreationFailed | FromCollaborator.

Definition kind_of (e : error) : ErrorKind :=
  match e with
  | errors_New _ => InvalidArgument
  | url_Error _ => MalformedURL
  | fmt_Errorf _ _ => CreationFailed
  | foreign_error _ => FromCollaborator
  end.

(** ** The structs *)

Record ClientOptions : Type := mkClientOptions {
  Options_DefaultUserID : Z
}.

Record Client : Type := mkClient {
  APIToken : string;
  BaseURL : string;
  DefaultUserID : Z
}.

Record Person : Type := mkPerson {
  Person_ID : Z;
  Person_OwnerID : Z;
  Person_OrganizationID : Z;
  Person_Name : string;
  Person_Email : list string;
  Person_Phone : list string
}.

Record Organization : Type := mkOrganization {
  Organization_ID : Z;
  Organization_Name : string;
  Organization_OwnerID : Z;
  Organization_Fields : fields
}.

Record Deal : Type := mkDeal {
  Deal_ID : Z;
  Deal_Title : string;
  Deal_Value : Z;
  Deal_UserID : Z;
  Deal_PersonID : Z;
  Deal_OrganizationID : Z;
  Deal_Fields : fields
}.

(** [org.ID = id] *)
Definition set_Organization_ID (org : Organization) (id : Z) : Organization :=
  mkOrganization id (Organization_Name org) (Organization_OwnerID org)
                 (Organization_Fields org).

(** [newPerson.ID = id] *)
Definition set_Person_ID (p : Person) (id : Z) : Person :=
  mkPerson id (Person_OwnerID p) (Person_OrganizationID p) (Person_Name p)
           (Person_Email p) (Person_Phone p).

(** [newDeal.ID = id] *)
Definition set_Deal_ID (d : Deal) (id : Z) : Deal :=
  mkDeal id (Deal_Title d) (Deal_Value d) (Deal_UserID d) (Deal_PersonID d)
         (Deal_OrganizationID d) (Deal_Fields d).

(** [newDeal.UserID = id] *)
Definition set_Deal_UserID (d : Deal) (id : Z) : Deal :=
  mkDeal (Deal_ID d) (Deal_Title d) (Deal_Value d) id (Deal_PersonID d)
         (Deal_OrganizationID d) (Deal_Fields d).

(** [NewClient]; the transport is whoever plays the tree. *)
Definition NewClient (baseURL apiToken : string) (opts : ClientOptions) : Client :=
  mkClient apiToken baseURL (Options_DefaultUserID opts).

(** ** [authenticatedURL] *)

Definition authenticatedURL (c : Client) (path : string) : error + URL :=
  match Parse (BaseURL c +:+ path) with
  | inl err => inl (url_Error err)
  | inr authedURL =>
      let query := URL_Query authedURL in
      let query := Values_Add query "api_token" (APIToken c) in
      inr (set_RawQuery authedURL (Values_Encode query))
  end.

(** ** The field mappings of the create requests *)

(** [for name, value := range extra { postStruct[name] = value }] *)
Definition merge_fields (postStruct extra : fields) : fields :=
  map_fold (fun name value acc => <[name := value]> acc) postStruct extra.

(** [postStruct] of [FindOrCreateOrganization] *)
Definition organization_postStruct (c : Client) (org : Organization) : fields :=
  let postStruct : fields := {[ "name" := VString (Organization_Name org) ]} in
  let postStruct := merge_fields postStruct (Organization_Fields org) in
  if Z.eqb (DefaultUserID c) 0 then postStruct
  else <["owner_id" := VInt (DefaultUserID c)]> postStruct.

(** [postStruct] of [FindOrCreatePerson] *)
Definition person_postStruct (c : Client) (newPerson : Person) : fields :=
  let postStruct : fields :=
    <["name" := VString (Person_Name newPerson)]>
    (<["email" := VStrings (Person_Email newPerson)]>
     (<["org_id" := VInt (Person_OrganizationID newPerson)]> ∅)) in
  if Z.eqb (DefaultUserID c) 0 then postStruct
  else <["owner_id" := VInt (DefaultUserID c)]> postStruct.

(** The first statement of [CreateDeal]: the default user id is
    stored in the deal. *)
Definition default_UserID (c : Client) (newDeal : Deal) : Deal :=
  if negb (Z.eqb (DefaultUserID c) 0) && Z.eqb (Deal_UserID newDeal) 0
  then set_Deal_UserID newDeal (DefaultUserID c) else newDeal.

(** [bodyData] of [CreateDeal], for the deal as its first statement
    left it. *)
Definition deal_bodyData (newDeal : Deal) : fields :=
  let bodyData : fields :=
    <["title" := VString (Deal_Title newDeal)]>
    (<["value" := VInt (Deal_Value newDeal)]>
     (<["user_id" := VInt (Deal_UserID newDeal)]>
      (<["person_id" := VInt (Deal_PersonID newDeal)]>
       (<["org_id" := VInt (Deal_OrganizationID newDeal)]> ∅)))) in
  merge_fields bodyData (Deal_Fields newDeal).

(** ** The operations *)

Section Operations.
Context `{JSON}.

(** [createEntitiy]: the decoded response and the error, or a panic.
    On an error the callers do not look at the mapping. *)
Definition createEntitiy (c : Client) (path : string) (bodyData : fields)
  : Prog (panic + fields * option error) :=
  match json_Marshal bodyData with
  | inl err => Ret (inr (∅, Some err))
  | inr postBody =>
      match authenticatedURL c path with
      | inl err => Ret (inr (∅, Some err))
      | inr postURL =>
          DoPost (URL_String postURL) "application/json" postBody
            (fun '(postResp, err) =>
               match err with
               | Some err => Ret (inr (∅, Some err))
               | None =>
                   match postResp with
                   | None => Ret (inl NilDereference)
                   | Some postResp =>
                       match ReadErr postResp with
                       | Some err => Ret (inr (∅, Some err))
                       | None =>
                           match json_Unmarshal (Body postResp) with
                           | inl err => Ret (inr (∅, Some err))
                           | inr data => Ret (inr (data, None))
                           end
                       end
                   end
               end)
      end
  end.

Definition FindOrCreateOrganization (c : Client) (org : Organization)
  : Prog (Organization * Outcome) :=
  match authenticatedURL c ("/organizations/find?term=" +:+ Organization_Name org) with
  | inl err => Ret (org, Returns (Some err))
  | inr authedURL =>
      DoGet (URL_String authedURL)
        (fun '(resp, err) =>
           match err with
           | Some err => Ret (org, Returns (Some err))
           | None =>
               match resp with
               | None => Ret (org, Panics NilDereference)
               | Some resp =>
                   let buf := Body resp in
                   match ReadErr resp with
                   | Some err => Ret (org, Returns (Some err))
                   | None =>
                       match json_Unmarshal buf with
                       | inl err => Ret (org, Returns (Some err))
                       | inr data =>
                           if negb (is_nil (index data "data")) then
                             (* This will likely crash us... *)
                             match first_id (index data "data") with
                             | inl p => Ret (org, Panics p)
                             | inr id => Ret (set_Organization_ID org id, Returns None)
                             end
                           else
                             bind (createEntitiy c "/organizations"
                                     (organization_postStruct c org))
                               (fun r =>
                                  match r with
                                  | inl p => Ret (org, Panics p)
                                  | inr (_, Some err) => Ret (org, Returns (Some err))
                                  | inr (data, None) =>
                                      if negb (is_nil (index data "data")) then
                                        match object_id (index data "data") with
                                        | inl p => Ret (org, Panics p)
                                        | inr id =>
                                            Ret (set_Organization_ID org id, Returns None)
                                        end
                                      else
                                        Ret (org, Returns (Some
                                          (fmt_Errorf "Error creating Pipedrive org: %s"
                                                      [VString buf])))
                                  end)
                       end
                   end
               end
           end)
  end.

Definition FindOrCreatePerson (c : Client) (newPerson : Person)
  : Prog (Person * Outcome) :=
  match Person_Email newPerson with
  | [] => Ret (newPerson, Returns (Some (errors_New "Must have at least one email")))
  | email0 :: _ =>
      match authenticatedURL c ("/persons/find?search_by_email=1&term=" +:+ email0) with
      | inl err => Ret (newPerson, Returns (Some err))
      | inr authedURL =>
          DoGet (URL_String authedURL)
            (fun '(resp, err) =>
               match err with
               | Some err => Ret (newPerson, Returns (Some err))
               | None =>
                   match resp with
                   | None => Ret (newPerson, Panics NilDereference)
                   | Some resp =>
                       let buf := Body resp in
                       match ReadErr resp with
                       | Some err => Ret (newPerson, Returns (Some err))
                       | None =>
                           match json_Unmarshal buf with
                           | inl err => Ret (newPerson, Returns (Some err))
                           | inr data =>
                               if negb (is_nil (index data "data")) then
                                 (* This will likely crash us... *)
                                 match first_id (index data "data") with
                                 | inl p => Ret (newPerson, Panics p)
                                 | inr id => Ret (set_Person_ID newPerson id, Returns None)
                                 end
                               else
                                 bind (createEntitiy c "/persons"
                                         (person_postStruct c newPerson))
                                   (fun r =>
                                      match r with
                                      | inl p => Ret (newPerson, Panics p)
                                      | inr (_, Some err) =>
                                          Ret (newPerson, Returns (Some err))
                                      | inr (data, None) =>
                                          (* This will likely crash us similarly... *)
                                          if negb (is_nil (index data "data")) then
                                            match object_id (index data "data") with
                                            | inl p => Ret (newPerson, Panics p)
                                            | inr id =>
                                                Ret (set_Person_ID newPerson id,
                                                     Returns None)
                                            end
                                          else
                                            Ret (newPerson, Returns (Some
                                              (fmt_Errorf
                                                 "Error creating Pipedrive person: %s"
                                                 [VString buf])))
                                      end)
                           end
                       end
                   end
               end)
      end
  end.

Definition CreateDeal (c : Client) (newDeal : Deal) : Prog (Deal * Outcome) :=
  let newDeal := default_UserID c newDeal in
  bind (createEntitiy c "/deals" (deal_bodyData newDeal))
    (fun r =>
       match r with
       | inl p => Ret (newDeal, Panics p)
       | inr (_, Some err) => Ret (newDeal, Returns (Some err))
       | inr (data, None) =>
           (* Also crashing *)
           if negb (is_nil (index data "data")) then
             match object_id (index data "data") with
             | inl p => Ret (newDeal, Panics p)
             | inr id => Ret (set_Deal_ID newDeal id, Returns None)
             end
           else
             Ret (newDeal, Returns (Some
               (fmt_Errorf "Error creating Pipedrive deal: %+v" [VMap data])))
       end).

(** The call, if it is a [Post], carries the encoding of [payload] as
    [application/json]. *)
Definition posts_payload (payload : fields) (call : Call) : Prop :=
  match call with
  | POST _ contentType body =>
      contentType = "application/json" /\ json_Marshal payload = inr body
  | GET _ => True
  end.

End Operations.

End Pipedrive.

(* ================================================================== *)
(** * A reference JSON codec *)
(* ================================================================== *)

(** An instance of [Pipedrive.JSON] for running scenarios: a decoder for
    JSON texts without surrogate escapes, and a compact encoder with
    sorted keys for mappings of integers, booleans, strings and the
    numbers [json.Marshal] writes digit by digit. *)
Module RefJSON.
Import GoStrings NetURL Pipedrive.

Definition is_ws (c : ascii) : bool := mem_byte c (String " " (String (ascii_of_N 9)
  (String (ascii_of_N 10) (String (ascii_of_N 13) EmptyString)))).

Fixpoint skip_ws (s : string) : string :=
  match s with
  | String c t => if is_ws c then skip_ws t else s
  | EmptyString => s
  end.

(** UTF-8 of a code point below the surrogates or in the rest of the
    basic plane. *)
Definition utf8 (n : N) : string :=
  if (n <? 128)%N then String (ascii_of_N n) EmptyString
  else if (n <? 2048)%N then
    String (ascii_of_N (192 + n / 64)) (String (ascii_of_N (128 + n mod 64)) EmptyString)
  else
    String (ascii_of_N (224 + n / 4096))
      (String (ascii_of_N (128 + (n / 64) mod 64))
         (String (ascii_of_N (128 + n mod 64)) EmptyString)).

(** The characters of a string literal, after its opening quote. *)
Fixpoint parse_string (s : string) : option (string * string) :=
  match s with
  | EmptyString => None
  | String c t =>
      if Ascii.eqb c dquote then Some (EmptyString, t)
      else if (N_of_ascii c <? 32)%N then None
      else if Ascii.eqb c "\" then
        match t with
        | String e t' =>
            let simple (b : ascii) :=
              match parse_string t' with
              | Some (r, rest) => Some (String b r, rest)
              | None => None
              end in
            if Ascii.eqb e "u" then
              match t' with
              | String h1 (String h2 (String h3 (String h4 t''))) =>
                  let n := (((unhex h1 * 16 + unhex h2) * 16 + unhex h3) * 16 + unhex h4)%N in
                  if ishex h1 && ishex h2 && ishex h3 && ishex h4
                     && negb ((55296 <=? n)%N && (n <? 57344)%N) then
                    match parse_string t'' with
                    | Some (r, rest) => Some (utf8 n +:+ r, rest)
                    | None => None
                    end
                  else None
              | _ => None
              end
            else if Ascii.eqb e dquote then simple dquote
            else if Ascii.eqb e "\" then simple "\"%char
            else if Ascii.eqb e "/" then simple "/"%char
            else if Ascii.eqb e "b" then simple (ascii_of_N 8)
            else if Ascii.eqb e "f" then simple (ascii_of_N 12)
            else if Ascii.eqb e "n" then simple (ascii_of_N 10)
            else if Ascii.eqb e "r" then simple (ascii_of_N 13)
            else if Ascii.eqb e "t" then simple (ascii_of_N 9)
            else None
        | EmptyString => None
        end
      else
        match parse_string t with
        | Some (r, rest) => Some (String c r, rest)
        | None => None
        end
  end.

(** The digits at the head of [s]: their value, their number, the rest. *)
Fixpoint parse_digits (acc : Z) (n : nat) (s : string) : Z * nat * string :=
  match s with
  | String c t =>
      if is_digit c
      then parse_digits (acc * 10 + Z.of_N (N_of_ascii c - N_of_ascii "0")) (S n) t
      else (acc, n, s)
  | EmptyString => (acc, n, s)
  end.

Definition pow10 (e : Z) : Q :=
  if (0 <=? e)%Z then inject_Z (10 ^ e) else Qinv (inject_Z (10 ^ (- e))).

(** A number: the rational its decimal notation denotes. *)
Definition parse_number (s : string) : option (Q * string) :=
  let '(neg, s) :=
    match s with
    | String "-" t => (true, t)
    | _ => (false, s)
    end in
  let '(int, n, rest) := parse_digits 0 0 s in
  let leading_zero :=
    match s with String "0" _ => Nat.ltb 1 n | _ => false end in
  if Nat.eqb n 0 || leading_zero then None
  else
    let frac_part :=
      match rest with
      | String "." t =>
          let '(f, k, rest') := parse_digits 0 0 t in
          if Nat.eqb k 0 then None
          else Some (Qmult (inject_Z f) (pow10 (- Z.of_nat k)), rest')
      | _ => Some (inject_Z 0, rest)
      end in
    match frac_part with
    | None => None
    | Some (frac, rest) =>
        let mant := Qplus (inject_Z int) frac in
        let mant := if neg then Qopp mant else mant in
        let exp_part :=
          match rest with
          | String c t =>
              if mem_byte c "eE" then
                let '(eneg, t) :=
                  match t with
                  | String "-" t' => (true, t')
                  | String "+" t' => (false, t')
                  | _ => (false, t)
                  end in
                let '(e, k, rest') := parse_digits 0 0 t in
                if Nat.eqb k 0 then None
                else Some (if eneg then (- e)%Z else e, rest')
              else Some (0%Z, rest)
          | EmptyString => Some (0%Z, rest)
          end in
        match exp_part with
        | None => None
        | Some (e, rest) => Some (Qred (Qmult mant (pow10 e)), rest)
        end
    end.

Inductive mode : Type :=
| AValue
| Elements (acc : list value)
| Members (acc : fields).

(** One value, or the rest of an array or of an object after its
    opening bracket or a comma. *)
Fixpoint parse_json (fuel : nat) (m : mode) (s : string) : option (value * string) :=
  match fuel with
  | O => None
  | S fuel =>
      match m with
      | AValue =>
          match skip_ws s with
          | EmptyString => None
          | String c t as s' =>
              if Ascii.eqb c "{" then
                match skip_ws t with
                | String "}" t' => Some (VMap ∅, t')
                | t' => parse_json fuel (Members ∅) t'
                end
              else if Ascii.eqb c "[" then
                match skip_ws t with
                | String "]" t' => Some (VSlice [], t')
                | t' => parse_json fuel (Elements []) t'
                end
              else if Ascii.eqb c dquote then
                match parse_string t with
                | Some (str, rest) => Some (VString str, rest)
                | None => None
                end
              else if HasPrefix s' "null" then Some (VNil, String.substring 4 (String.length s') s')
              else if HasPrefix s' "true" then
                Some (VBool true, String.substring 4 (String.length s') s')
              else if HasPrefix s' "false" then
                Some (VBool false, String.substring 5 (String.length s') s')
              else
                match parse_number s' with
                | Some (f, rest) => Some (VFloat64 f, rest)
                | None => None
                end
          end
      | Elements acc =>
          match parse_json fuel AValue s with
          | Some (v, rest) =>
              match skip_ws rest with
              | String "," t => parse_json fuel (Elements (v :: acc)) t
              | String "]" t => Some (VSlice (rev (v :: acc)), t)
              | _ => None
              end
          | None => None
          end
      | Members acc =>
          match skip_ws s with
          | String c t =>
              if Ascii.eqb c dquote then
                match parse_string t with
                | Some (key, rest) =>
                    match skip_ws rest with
                    | String ":" t =>
                        match parse_json fuel AValue t with
                        | Some (v, rest) =>
                            match skip_ws rest with
                            | String "," t => parse_json fuel (Members (<[key := v]> acc)) t
                            | String "}" t => Some (VMap (<[key := v]> acc), t)
                            | _ => None
                            end
                        | None => None
                        end
                    | _ => None
                    end
                | None => None
                end
              else None
          | EmptyString => None
          end
      end
  end.

Definition syntax_error : error := foreign_error "json: syntax error".
Definition type_error : error :=
  foreign_error "json: cannot unmarshal into Go value of type map[string]interface {}".

(** [json.Unmarshal(b, &data)] for a nil [data]: [null] leaves it nil. *)
Definition Unmarshal (b : string) : error + fields :=
  match parse_json (2 * String.length b + 2) AValue b with
  | Some (v, rest) =>
      if is_empty (skip_ws rest) then
        match v with
        | VMap m => inr m
        | VNil => inr ∅
        | _ => inl type_error
        end
      else inl syntax_error
  | None => inl syntax_error
  end.

Definition hex_digit (n : N) : ascii :=
  if (n <? 10)%N then ascii_of_N (N_of_ascii "0" + n)
  else ascii_of_N (N_of_ascii "a" + (n - 10)).

Definition u00 (c : ascii) : string :=
  "\u00" +:+ String (hex_digit (N_of_ascii c / 16))
               (String (hex_digit (N_of_ascii c mod 16)) EmptyString).

(** The characters of a string literal, as [json.Marshal] escapes them. *)
Fixpoint encode_chars (s : string) : string :=
  match s with
  | EmptyString => EmptyString
  | String c t =>
      (if Ascii.eqb c dquote then String "\" (String dquote EmptyString)
       else if Ascii.eqb c "\" then "\\"
       else if Ascii.eqb c (ascii_of_N 10) then "\n"
       else if Ascii.eqb c (ascii_of_N 13) then "\r"
       else if Ascii.eqb c (ascii_of_N 9) then "\t"
       else if (N_of_ascii c <? 32)%N || mem_byte c "<>&" then u00 c
       else String c EmptyString) +:+ encode_chars t
  end.

Definition encode_string (s : string) : string :=
  String dquote (encode_chars s) +:+ String dquote EmptyString.

Definition decimal (n : Z) : string := DecimalString.NilZero.string_of_int (Z.to_int n).

(** The exponent [k] of a denominator [2 ^ k]: a [float64] is a dyadic
    rational. *)
Fixpoint pow2_exponent (d : positive) : option nat :=
  match d with
  | xH => Some 0
  | xO d' => match pow2_exponent d' with Some k => Some (S k) | None => None end
  | xI _ => None
  end.

Fixpoint zeros (n : nat) : string :=
  match n with
  | O => EmptyString
  | S n' => String "0" (zeros n')
  end.

(** A [float64] as [json.Marshal] writes it, for the numbers whose
    decimal notation has at most 15 digits and is written without an
    exponent (zero, or from [1e-6] on): there the shortest notation
    that reads back as the number is the notation itself, so [0.5] is
    written [0.5] and [3] is written [3].  Other numbers are outside
    the codec. *)
Definition encode_float64 (f : Q) : option string :=
  let q := Qred f in
  match pow2_exponent (Qden q) with
  | None => None
  | Some k =>
      let scale := (10 ^ Z.of_nat k)%Z in
      let N := (Z.abs (Qnum q) * 5 ^ Z.of_nat k)%Z in
      let sign := if (Qnum q <? 0)%Z then "-" else EmptyString in
      if negb (String.length (decimal N) <=? 15)%nat then None
      else if Nat.eqb k 0 then Some (sign +:+ decimal N)
      else if (N * 10 ^ 6 <? scale)%Z then None
      else
        let fraction := decimal (N mod scale) in
        Some (sign +:+ decimal (N / scale) +:+ "."
              +:+ zeros (k - String.length fraction) +:+ fraction)
  end.

Fixpoint all_some {A} (l : list (option A)) : option (list A) :=
  match l with
  | [] => Some []
  | Some x :: l' => match all_some l' with Some r => Some (x :: r) | None => None end
  | None :: _ => None
  end.

(** The compact encoding of a value nested no deeper than [fuel];
    a value outside the codec (see [encode_float64]) has none. *)
Fixpoint encode (fuel : nat) (v : value) : option string :=
  match fuel with
  | O => None
  | S fuel =>
      match v with
      | VNil => Some "null"
      | VBool b => Some (if b then "true" else "false")
      | VInt n => Some (decimal n)
      | VFloat64 f => encode_float64 f
      | VString s => Some (encode_string s)
      | VStrings l => Some ("[" +:+ join "," (encode_string <$> l) +:+ "]")
      | VSlice l =>
          match all_some (encode fuel <$> l) with
          | Some parts => Some ("[" +:+ join "," parts +:+ "]")
          | None => None
          end
      | VMap m =>
          let member (k : string) :=
            match encode fuel (index m k) with
            | Some e => Some (encode_string k +:+ ":" +:+ e)
            | None => None
            end in
          match all_some (member <$> merge_sort String.le (map_to_list m).*1) with
          | Some parts => Some ("{" +:+ join "," parts +:+ "}")
          | None => None
          end
      end
  end.

Definition Marshal (m : fields) : error + string :=
  match encode 32 (VMap m) with
  | Some b => inr b
  | None => inl (foreign_error "RefJSON: value outside the reference codec")
  end.

Definition codec : JSON := {| json_Unmarshal := Unmarshal; json_Marshal := Marshal |}.

End RefJSON.

(* ================================================================== *)
(** * The test double and the fixtures of [pipedrive_test.go] *)
(* ================================================================== *)

Module Fixtures.
Import GoStrings NetURL Pipedrive.

(** JSON texts are written with ['] for the double quote. *)
Fixpoint json (s : string) : string :=
  match s with
  | EmptyString => EmptyString
  | String c t => String (if Ascii.eqb c "'" then dquote else c) (json t)
  end.

(** [fakeClient]: canned bodies by URL, for [Get] and [Post] alike. *)
Definition fakeClient (reqs : gmap string string) : Requestor unit :=
  let answer (url : string) (w : unit) : reply * unit :=
    match reqs !! url with
    | Some body => ((Some (mkResponse body None), None), w)
    | None => ((None, Some (foreign_error ("URL not mocked out: " +:+ url))), w)
    end in
  mkRequestor unit answer (fun url _ _ => answer url).

Definition pagination : string :=
  "'pagination': { 'start': 0, 'limit': 100, 'more_items_in_collection': false }".

Definition orgFindResp (id : Z) (name : string) : string :=
  json ("{ 'success': true, 'data': [ { 'id': " +:+ RefJSON.decimal id
        +:+ ", 'name': '" +:+ name +:+ "', 'visible_to': '3' } ],
          'additional_data': { " +:+ pagination +:+ " } }").

Definition orgNoFindResp : string :=
  json ("{ 'success': true, 'data': null, 'additional_data': { " +:+ pagination +:+ " } }").

(** The create responses, abridged. *)
Definition orgCreateResp (id : Z) (name : string) : string :=
  json ("{ 'success': true,
          'data': { 'id': " +:+ RefJSON.decimal id +:+ ", 'company_id': 2178381,
                    'owner_id': { 'id': 3219426, 'name': 'Chris Marshall',
                                  'has_pic': true, 'value': 3219426 },
                    'name': '" +:+ name +:+ "', 'open_deals_count': 0,
                    'category_id': null, 'first_char': 'v',
                    'update_time': '2017-11-14 17:19:21', 'edit_name': true },
          'related_objects': { 'user': { '3219426': { 'id': 3219426 } } } }").

Definition personFindResp (id : Z) (email : string) : string :=
  json ("{ 'success': true,
          'data': [ { 'id': " +:+ RefJSON.decimal id +:+ ", 'name': 'Some Name',
                      'email': '" +:+ email +:+ "', 'phone': null, 'org_id': null,
                      'org_name': '', 'visible_to': '3' } ],
          'additional_data': { 'search_method': 'search_by_email', "
        +:+ pagination +:+ " } }").

Definition personNoFindResp : string :=
  json ("{ 'success': true, 'data': null,
          'additional_data': { 'search_method': 'search_by_email', "
        +:+ pagination +:+ " } }").

Definition personCreateResp (id : Z) (email : string) : string :=
  json ("{ 'success': true,
          'data': { 'id': " +:+ RefJSON.decimal id +:+ ", 'company_id': 2178381,
                    'org_id': { 'name': 'Videofruit', 'people_count': 0, 'value': 1 },
                    'name': 'Tester McTest',
                    'phone': [ { 'value': '', 'primary': true } ],
                    'email': [ { 'label': '', 'value': '" +:+ email +:+ "',
                                 'primary': true } ],
                    'picture_id': null, 'owner_name': 'Chris Marshall' },
          'related_objects': { 'organization': { '1': { 'id': 1 } } } }").

(** A response that reports a failed creation. *)
Definition createFailedResp : string :=
  json "{ 'success': false, 'data': null, 'error': 'Name must be given.' }".

Definition client : Client := NewClient "http://base" "abc123" (mkClientOptions 0).
Definition client7 : Client := NewClient "http://base" "abc123" (mkClientOptions 7).

(** The entities of the tests, and the URLs their searches go to. *)
Definition sampleOrganization : Organization := mkOrganization 0 "Videofruit" 0 ∅.
Definition samplePerson : Person := mkPerson 0 0 0 "Tester" ["t@x.org"] [].
Definition sampleDeal : Deal := mkDeal 0 "Close this deal!" 1000 0 1 2 ∅.
Definition organizationSearch : string :=
  "http://base/organizations/find?api_token=abc123&term=Videofruit".
Definition personSearch : string :=
  "http://base/persons/find?api_token=abc123&search_by_email=1&term=t%40x.org".

End Fixtures.

(* ================================================================== *)
(** * Vocabulary for the behaviour of the operations *)
(* ================================================================== *)

Module Views.
Import GoStrings NetURL Pipedrive.

(** [strings.ReplaceAll(s, old, new)] for single bytes. *)
Fixpoint ReplaceByte (old new : ascii) (s : string) : string :=
  match s with
  | EmptyString => EmptyString
  | String c t => String (if Ascii.eqb c old then new else c) (ReplaceByte old new t)
  end.

(** A search key without the bytes that structure a URL or its query:
    none of [#], [&], [;] and [%]. *)
Definition query_safe (s : string) : bool :=
  all_bytes (fun b => negb (mem_byte b "#&;%")) s.

(** The parameter that a piece of a raw query (what stands between two
    [&]) contributes, as [url.ParseQuery] reads it: none for an empty
    piece, for a piece with a [;] and for a key or a value with a bad
    [%] escape. *)
Definition accepted_pair (piece : string) : option (string * string) :=
  if mem_byte ";" piece || is_empty piece then None
  else
    let '(key, value, _) := Cut piece "=" in
    match QueryUnescape key, QueryUnescape value with
    | inr key, inr value => Some (key, value)
    | _, _ => None
    end.

Definition accepted_pairs (rawQuery : string) : list (string * string) :=
  omap accepted_pair (Split "&" rawQuery).

(** The values of [key] among [pairs], in their order. *)
Definition values_of (key : string) (pairs : list (string * string)) : list string :=
  (filter (fun kv => kv.1 = key) pairs).*2.

(** The range loop [for name, value := range extra { postStruct[name] =
    value }] when the map yields its entries in the order [entries]. *)
Definition merge_fields_in (entries : list (string * value)) (postStruct : fields) : fields :=
  fold_left (fun acc kv => <[kv.1 := kv.2]> acc) entries postStruct.

(** Call lists of the find-or-create operations: nothing, the search,
    or the search followed by the creation. *)
Definition search_then_create (calls : list Call) : Prop :=
  calls = []
  \/ (exists url, calls = [GET url])
  \/ (exists url url2 body, calls = [GET url; POST url2 "application/json" body]).

(** Call lists of [CreateDeal]: nothing, or the creation. *)
Definition create_only (calls : list Call) : Prop :=
  calls = [] \/ (exists url body, calls = [POST url "application/json" body]).

(** Entities that differ from [org], [newPerson] in the fields the
    operations never read. *)
Definition with_Organization_OwnerID (org : Organization) (owner : Z) : Organization :=
  mkOrganization (Organization_ID org) (Organization_Name org) owner
                 (Organization_Fields org).

Definition with_Person_unread (newPerson : Person) (owner : Z) (phones : list string)
  : Person :=
  mkPerson (Person_ID newPerson) owner (Person_OrganizationID newPerson)
           (Person_Name newPerson) (Person_Email newPerson) phones.

(** [l[0]] panics on this value, where the assertion [v.([]interface{})]
    holds. *)
Definition is_empty_slice (v : value) : bool :=
  match v with VSlice [] => true | _ => false end.

Section Answers.
Context `{JSON} {W : Type} (h : Requestor W).

(** The answer to a call yields the error [err]: the transport returns
    it (with whatever response), or reading the body to its end does,
    or [json.Unmarshal] refuses the body with it. *)
Definition answer_fails (answer : reply) (err : error) : Prop :=
  (exists resp, answer = (resp, Some err))
  \/ (exists resp, answer = (Some resp, None)
        /\ (ReadErr resp = Some err
            \/ (ReadErr resp = None /\ json_Unmarshal (Body resp) = inl err))).

(** In the state [w] the search for [path] goes to [url] and is answered
    with a body that decodes to [data]; the state after is [w']. *)
Definition search_answered (c : Client) (path url : string) (w w' : W) (data : fields)
  : Prop :=
  exists u resp,
    authenticatedURL c path = inr u /\ url = URL_String u
    /\ Get h url w = ((Some resp, None), w')
    /\ ReadErr resp = None
    /\ json_Unmarshal (Body resp) = inr data.

(** In the state [w] the creation at [path] posts the encoding [body] of
    [payload] to [url] and is answered with a body that decodes to
    [data]; the state after is [w']. *)
Definition create_answered (c : Client) (path : string) (payload : fields)
           (url body : string) (w w' : W) (data : fields) : Prop :=
  exists u resp,
    json_Marshal payload = inr body
    /\ authenticatedURL c path = inr u /\ url = URL_String u
    /\ Post h url "application/json" body w = ((Some resp, None), w')
    /\ ReadErr resp = None
    /\ json_Unmarshal (Body resp) = inr data.

End Answers.

End Views.

(* ================================================================== *)
(** * Properties *)
(* ================================================================== *)

Module StringFacts.
Import GoStrings.

Lemma append_cons (c : ascii) (s t : string) : String c s +:+ t = String c (s +:+ t).
Proof. reflexivity. Qed.

Lemma append_nil_l (s : string) : EmptyString +:+ s = s.
Proof. reflexivity. Qed.

Lemma append_nil_r (s : string) : s +:+ EmptyString = s.
Proof. induction s as [|c s IH]; [done |]. by rewrite append_cons, IH. Qed.

Lemma append_assoc (a b c : string) : (a +:+ b) +:+ c = a +:+ (b +:+ c).
Proof. induction a as [|x a IH]; [done |]. by rewrite !append_cons, IH. Qed.

Lemma mem_byte_app (c : ascii) (a b : string) :
  mem_byte c (a +:+ b) = mem_byte c a || mem_byte c b.
Proof.
  induction a as [|x a IH]; [done |].
  rewrite append_cons. simpl. rewrite IH. by destruct (Ascii.eqb c x).
Qed.

Lemma cut_byte_app (sep : ascii) (a b : string) :
  mem_byte sep a = false -> cut_byte sep (a +:+ String sep b) = Some (a, b).
Proof.
  induction a as [|x a IH]; rewrite ?append_cons, ?append_nil_l; simpl.
  - by rewrite Ascii.eqb_refl.
  - intros [Hx Ha]%orb_false_elim.
    rewrite Ascii.eqb_sym, Hx. by rewrite IH.
Qed.

Lemma cut_byte_none (sep : ascii) (a : string) :
  mem_byte sep a = false -> cut_byte sep a = None.
Proof.
  induction a as [|x a IH]; simpl; [done |].
  intros [Hx Ha]%orb_false_elim.
  rewrite Ascii.eqb_sym, Hx. by rewrite IH.
Qed.

Lemma Split_no_sep (sep : ascii) (a : string) :
  mem_byte sep a = false -> Split sep a = [a].
Proof.
  induction a as [|x a IH]; simpl; [done |].
  intros [Hx Ha]%orb_false_elim.
  rewrite Ascii.eqb_sym, Hx. by rewrite IH.
Qed.

Lemma Split_app (sep : ascii) (a b : string) :
  mem_byte sep a = false -> Split sep (a +:+ String sep b) = a :: Split sep b.
Proof.
  induction a as [|x a IH]; rewrite ?append_cons, ?append_nil_l; simpl.
  - by rewrite Ascii.eqb_refl.
  - intros [Hx Ha]%orb_false_elim.
    rewrite Ascii.eqb_sym, Hx. by rewrite IH.
Qed.

Lemma join_cons (sep x y : string) (l : list string) :
  join sep (x :: y :: l) = x +:+ sep +:+ join sep (y :: l).
Proof. reflexivity. Qed.

(** Splitting undoes joining, for pieces free of the separator. *)
Lemma Split_join (sep : ascii) (l : list string) :
  l <> [] -> Forall (fun s => mem_byte sep s = false) l ->
  Split sep (join (String sep EmptyString) l) = l.
Proof.
  induction l as [|x l IH]; [done |].
  intros _ Hall. apply Forall_cons in Hall as [Hx Hl].
  destruct l as [|y l].
  - simpl. by apply Split_no_sep.
  - rewrite join_cons, append_cons, append_nil_l, Split_app by done.
    by rewrite IH.
Qed.
End StringFacts.

Module EscapeFacts.
Import GoStrings NetURL.

Ltac each_byte c := destruct c as [[|] [|] [|] [|] [|] [|] [|] [|]].

Lemma escape_cons (c : ascii) (t : string) (mode : encoding) :
  escape (String c t) mode = escape (String c EmptyString) mode +:+ escape t mode.
Proof.
  simpl. destruct (Ascii.eqb c " " && is_query mode); [done |].
  by destruct (shouldEscape c mode).
Qed.

Lemma QueryEscape_byte_clean (c sep : ascii) :
  sep = "&"%char \/ sep = "="%char \/ sep = ";"%char ->
  mem_byte sep (QueryEscape (String c EmptyString)) = false.
Proof. intros [-> | [-> | ->]]; each_byte c; reflexivity. Qed.

Lemma unescape_check_byte (c : ascii) (rest : string) :
  unescape_check (QueryEscape (String c EmptyString) +:+ rest) encodeQueryComponent
  = unescape_check rest encodeQueryComponent.
Proof. each_byte c; reflexivity. Qed.

Lemma unescape_bytes_byte (c : ascii) (rest : string) :
  unescape_bytes (QueryEscape (String c EmptyString) +:+ rest) encodeQueryComponent
  = String c (unescape_bytes rest encodeQueryComponent).
Proof. each_byte c; reflexivity. Qed.
End EscapeFacts.

Module QueryFacts.
Import GoStrings NetURL StringFacts EscapeFacts.

Lemma QueryEscape_cons (c : ascii) (t : string) :
  QueryEscape (String c t) = QueryEscape (String c EmptyString) +:+ QueryEscape t.
Proof. apply escape_cons. Qed.

(** An escaped component contains none of the separators of a query. *)
Lemma QueryEscape_clean (s : string) (sep : ascii) :
  sep = "&"%char \/ sep = "="%char \/ sep = ";"%char ->
  mem_byte sep (QueryEscape s) = false.
Proof.
  intros Hsep. induction s as [|c s IH]; [done |].
  rewrite QueryEscape_cons, mem_byte_app, IH, QueryEscape_byte_clean; done.
Qed.

(** Unescaping undoes escaping. *)
Lemma QueryUnescape_QueryEscape (s : string) : QueryUnescape (QueryEscape s) = inr s.
Proof.
  assert (unescape_check (QueryEscape s) encodeQueryComponent = None
          /\ unescape_bytes (QueryEscape s) encodeQueryComponent = s) as [Hc Hb].
  { induction s as [|c s [IHc IHb]]; [done |].
    rewrite QueryEscape_cons, unescape_check_byte, unescape_bytes_byte.
    by rewrite IHc, IHb. }
  unfold QueryUnescape, unescape. by rewrite Hc, Hb.
Qed.

(** *** [Encode] writes the joined parameters *)

Lemma is_empty_true (s : string) : is_empty s = true -> s = EmptyString.
Proof. by destruct s. Qed.

Lemma is_empty_app (a b : string) : is_empty (a +:+ b) = is_empty a && is_empty b.
Proof. by destruct a. Qed.

Lemma fold_push (segs : list string) (buf : string) :
  Forall (fun s => is_empty s = false) segs ->
  fold_left push segs buf = join "&" (if is_empty buf then segs else buf :: segs).
Proof.
  revert buf. induction segs as [|s segs IH]; intros buf Hall.
  - simpl. destruct (is_empty buf) eqn:E; [by apply is_empty_true in E | done].
  - apply Forall_cons in Hall as [Hs Hall]. simpl fold_left. rewrite IH by done.
    assert (is_empty (push buf s) = false) as ->.
    { unfold push. rewrite is_empty_app, Hs. apply andb_false_r. }
    unfold push. destruct (is_empty buf) eqn:E.
    + apply is_empty_true in E as ->. by rewrite append_nil_l.
    + rewrite (join_cons _ buf). destruct segs as [|y l].
      * simpl. by rewrite append_assoc.
      * rewrite !join_cons. by rewrite !append_assoc.
Qed.

Lemma params_cons (k : string) (ks : list string) (v : Values) :
  params (k :: ks) v = ((pair k <$> default [] (v !! k)) ++ params ks v)%list.
Proof. reflexivity. Qed.

Lemma write_key_push (v : Values) (buf k : string) :
  write_key v buf k = fold_left push (render <$> (pair k <$> default [] (v !! k))) buf.
Proof.
  unfold write_key. generalize (default [] (v !! k)) as vs. intros vs. revert buf.
  induction vs as [|x vs IH]; intros buf; [done |]. simpl. by rewrite IH.
Qed.

Lemma fold_write_key (v : Values) (ks : list string) (buf : string) :
  fold_left (write_key v) ks buf = fold_left push (render <$> params ks v) buf.
Proof.
  revert buf. induction ks as [|k ks IH]; intros buf; [done |].
  rewrite params_cons, fmap_app, fold_left_app. simpl fold_left at 1.
  by rewrite IH, write_key_push.
Qed.

Lemma render_not_empty (kv : string * string) : is_empty (render kv) = false.
Proof.
  unfold render. rewrite is_empty_app. apply andb_false_iff. right.
  reflexivity.
Qed.

Lemma params_empty (ks : list string) : params ks ∅ = [].
Proof.
  induction ks as [|k ks IH]; [done |].
  by rewrite params_cons, IH, lookup_empty.
Qed.

(** [Encode] joins the parameters of the sorted keys with [&]. *)
Lemma Values_Encode_from_join (ks : list string) (v : Values) :
  Values_Encode_from ks v = join "&" (render <$> params (merge_sort String.le ks) v).
Proof.
  unfold Values_Encode_from. case_decide as Hv.
  - subst v. by rewrite params_empty.
  - rewrite fold_write_key, fold_push; [done |].
    apply Forall_fmap, Forall_forall. intros kv _. apply render_not_empty.
Qed.

(** The order in which the map yields its keys does not matter. *)
Lemma Values_Encode_from_Permutation (ks1 ks2 : list string) (v : Values) :
  ks1 ≡ₚ ks2 -> Values_Encode_from ks1 v = Values_Encode_from ks2 v.
Proof.
  intros Hp. rewrite !Values_Encode_from_join. do 3 f_equal.
  apply (StronglySorted_unique String.le).
  - apply StronglySorted_merge_sort; apply _.
  - apply StronglySorted_merge_sort; apply _.
  - by rewrite !merge_sort_Permutation.
Qed.

(** The keys of the written parameters are in order. *)
Lemma params_keys_sorted (ks : list string) (v : Values) :
  StronglySorted String.le ks -> StronglySorted String.le (params ks v).*1.
Proof.
  induction ks as [|k ks IH]; intros Hs; [constructor |].
  apply StronglySorted_inv in Hs as [Hs Hk].
  rewrite params_cons, fmap_app. apply StronglySorted_app_2.
  - intros x1 x2 Hx1 Hx2.
    apply list_elem_of_fmap in Hx1 as [[k1 v1] [-> Hx1]].
    apply list_elem_of_fmap in Hx1 as [v1' [[= -> ->] _]]. simpl.
    apply list_elem_of_fmap in Hx2 as [[k2 v2] [-> Hx2]]. simpl.
    unfold params in Hx2. apply list_elem_of_In, in_concat in Hx2 as [l [Hin Hl]].
    apply list_elem_of_In, list_elem_of_fmap in Hin as [k' [-> Hk']].
    apply list_elem_of_In in Hl.
    apply list_elem_of_fmap in Hl as [? [[= -> ->] _]].
    rewrite Forall_forall in Hk. by apply Hk.
  - generalize (default [] (v !! k)). intros vs.
    induction vs as [|x vs IHvs]; simpl; [constructor |].
    constructor; [done |]. apply Forall_forall. intros y Hy.
    apply list_elem_of_fmap in Hy as [[k1 v1] [-> Hy]].
    apply list_elem_of_fmap in Hy as [? [[= -> ->] _]]. done.
  - by apply IH.
Qed.
End QueryFacts.

Module ParseFacts.
Import GoStrings NetURL StringFacts EscapeFacts QueryFacts.

Lemma no_empty_list_empty : no_empty_list ∅.
Proof. intros k vs. by rewrite lookup_empty. Qed.

Lemma no_empty_list_Add (m : Values) (k x : string) :
  no_empty_list m -> no_empty_list (Values_Add m k x).
Proof.
  intros Hm k' vs. unfold Values_Add. rewrite lookup_insert.
  case_decide; [| by apply Hm].
  intros [= <-]. by destruct (default [] (m !! k)).
Qed.

Lemma parseQuery_step_no_empty_list (acc : Values * option url_err) (key : string) :
  no_empty_list acc.1 -> no_empty_list (parseQuery_step acc key).1.
Proof.
  destruct acc as [m err]. unfold parseQuery_step. intros Hm.
  repeat case_match; simpl; try done. by apply no_empty_list_Add.
Qed.

Lemma ParseQuery_no_empty_list (query : string) : no_empty_list (ParseQuery query).1.
Proof.
  unfold ParseQuery.
  assert (forall l acc, no_empty_list acc.1 ->
                        no_empty_list (fold_left parseQuery_step l acc).1) as Hfold.
  { induction l as [|x l IH]; intros acc Hacc; [done |].
    simpl. by apply IH, parseQuery_step_no_empty_list. }
  apply Hfold, no_empty_list_empty.
Qed.

(** One written parameter is read back as one [Add]. *)
Lemma parseQuery_step_render (m : Values) (err : option url_err) (kv : string * string) :
  parseQuery_step (m, err) (render kv) = (add_param m kv, err).
Proof.
  destruct kv as [k x]. unfold parseQuery_step, render. simpl fst. simpl snd.
  rewrite !mem_byte_app, !QueryEscape_clean by auto. simpl orb.
  assert (is_empty (QueryEscape k +:+ "=" +:+ QueryEscape x) = false) as ->
    by apply (render_not_empty (k, x)).
  unfold Cut.
  change (QueryEscape k +:+ "=" +:+ QueryEscape x)
    with (QueryEscape k +:+ String "=" (QueryEscape x)).
  rewrite cut_byte_app by (apply QueryEscape_clean; auto).
  by rewrite !QueryUnescape_QueryEscape.
Qed.

Lemma fold_parseQuery_step_render (l : list (string * string)) (m : Values)
      (err : option url_err) :
  fold_left parseQuery_step (render <$> l) (m, err) = (fold_left add_param l m, err).
Proof.
  revert m. induction l as [|kv l IH]; intros m; [done |].
  rewrite fmap_cons. cbn [fold_left]. by rewrite parseQuery_step_render, IH.
Qed.

Lemma render_clean (kv : string * string) : mem_byte "&" (render kv) = false.
Proof.
  unfold render. rewrite !mem_byte_app, !QueryEscape_clean by auto. done.
Qed.

(** Reading a written query adds its parameters one by one. *)
Lemma ParseQuery_join (l : list (string * string)) :
  ParseQuery (join "&" (render <$> l)) = (fold_left add_param l ∅, None).
Proof.
  unfold ParseQuery. destruct l as [|kv l]; [done |].
  rewrite (Split_join "&"); [apply fold_parseQuery_step_render | done |].
  apply Forall_fmap, Forall_forall. intros x _. apply render_clean.
Qed.

Lemma fold_add_param_key (k : string) (vs : list string) (m : Values) :
  fold_left add_param (pair k <$> vs) m
  = match vs with
    | [] => m
    | _ => <[k := (default [] (m !! k) ++ vs)%list]> m
    end.
Proof.
  revert m. induction vs as [|x vs IH]; intros m; [done |].
  simpl fold_left. rewrite IH. unfold add_param, Values_Add. simpl fst. simpl snd.
  destruct vs as [|y vs]; [done |].
  rewrite lookup_insert_eq, insert_insert_eq. simpl default.
  by rewrite <- app_assoc.
Qed.

(** Adding the parameters of distinct keys [ks], fresh in [m], stores
    under each key its non-empty list of [v]. *)
Lemma fold_add_param_params (ks : list string) (v m : Values) (k' : string) :
  NoDup ks -> (forall k, k ∈ ks -> m !! k = None) ->
  fold_left add_param (params ks v) m !! k'
  = match (if decide (k' ∈ ks) then v !! k' else None) with
    | Some (x :: vs) => Some (x :: vs)
    | _ => m !! k'
    end.
Proof.
  revert m. induction ks as [|k ks IH]; intros m Hnd Hfresh.
  - change (params [] v) with (@nil (string * string)). cbn [fold_left].
    case_decide as Hin; [by apply not_elem_of_nil in Hin | done].
  - apply NoDup_cons in Hnd as [Hk Hnd].
    rewrite params_cons, fold_left_app, fold_add_param_key.
    rewrite (Hfresh k) by apply list_elem_of_here. simpl default.
    rewrite IH; [| done |].
    + destruct (decide (k' = k)) as [-> | Hne].
      * rewrite (decide_False (P := k ∈ ks)) by done.
        rewrite (decide_True (P := k ∈ k :: ks)) by apply list_elem_of_here.
        destruct (v !! k) as [[|x vs] |]; simpl; try done.
        by rewrite lookup_insert_eq.
      * assert ((if decide (k' ∈ k :: ks) then v !! k' else None)
                = (if decide (k' ∈ ks) then v !! k' else None)) as ->.
        { destruct (decide (k' ∈ ks)) as [Hin | Hnin].
          - by rewrite decide_True by by apply list_elem_of_further.
          - rewrite decide_False; [done |].
            intros [? | ?]%elem_of_cons; done. }
        destruct (default [] (v !! k)); [done |].
        by rewrite lookup_insert_ne.
    + intros k0 Hk0. destruct (default [] (v !! k)).
      * by apply Hfresh, list_elem_of_further.
      * rewrite lookup_insert_ne by (intros ->; done).
        by apply Hfresh, list_elem_of_further.
Qed.

(** Reading back what [Encode] wrote yields the same parameters. *)
Lemma ParseQuery_Values_Encode_from (ks : list string) (v : Values) :
  ks ≡ₚ (map_to_list v).*1 -> no_empty_list v ->
  ParseQuery (Values_Encode_from ks v) = (v, None).
Proof.
  intros Hp Hv. rewrite Values_Encode_from_join, ParseQuery_join. f_equal.
  set (sorted := merge_sort String.le ks).
  assert (sorted ≡ₚ (map_to_list v).*1) as Hs
    by (unfold sorted; by rewrite merge_sort_Permutation).
  apply map_eq. intros k. rewrite fold_add_param_params.
  - rewrite lookup_empty. destruct (decide (k ∈ sorted)) as [Hin | Hnin].
    + destruct (v !! k) as [[|x vs] |] eqn:E; try done. by apply Hv in E.
    + destruct (v !! k) as [vs |] eqn:E; [| done]. exfalso. apply Hnin.
      rewrite Hs. apply list_elem_of_fmap. exists (k, vs). split; [done |].
      by apply elem_of_map_to_list.
  - rewrite Hs. apply NoDup_fst_map_to_list.
  - intros. apply lookup_empty.
Qed.

Lemma ParseQuery_Values_Encode (v : Values) :
  no_empty_list v -> ParseQuery (Values_Encode v) = (v, None).
Proof. by apply ParseQuery_Values_Encode_from. Qed.
End ParseFacts.

Module ClientFacts.
Import GoStrings NetURL Pipedrive StringFacts QueryFacts ParseFacts.

(** *** Running computations *)

Lemma run_bind {W A B} (h : Requestor W) (p : Prog A) (f : A -> Prog B) (w : W) :
  run h (bind p f) w
  = let '(a, calls1, w1) := run h p w in
    let '(b, calls2, w2) := run h (f a) w1 in
    (b, (calls1 ++ calls2)%list, w2).
Proof.
  revert w. induction p as [a | url k IH | url ct body k IH]; intros w; simpl.
  - by destruct (run h (f a) w) as [[b calls2] w2].
  - destruct (Get h url w) as [r w1]. rewrite IH.
    destruct (run h (k r) w1) as [[a calls1] w2].
    by destruct (run h (f a) w2) as [[b calls2] w3].
  - destruct (Post h url ct body w) as [r w1]. rewrite IH.
    destruct (run h (k r) w1) as [[a calls1] w2].
    by destruct (run h (f a) w2) as [[b calls2] w3].
Qed.

Lemma run_all_leaves {W A} (P : A -> Prop) (h : Requestor W) (p : Prog A) (w : W) :
  all_leaves P p -> P (run h p w).1.1.
Proof.
  revert w. induction p as [a | url k IH | url ct body k IH]; intros w Hp; simpl.
  - done.
  - destruct (Get h url w) as [r w1]. specialize (IH r w1 (Hp r)).
    by destruct (run h (k r) w1) as [[a calls] w2].
  - destruct (Post h url ct body w) as [r w1]. specialize (IH r w1 (Hp r)).
    by destruct (run h (k r) w1) as [[a calls] w2].
Qed.

Lemma run_all_calls {W A} (C : Call -> Prop) (h : Requestor W) (p : Prog A) (w : W) :
  all_calls C p -> Forall C (run h p w).1.2.
Proof.
  revert w. induction p as [a | url k IH | url ct body k IH]; intros w Hp; simpl.
  - constructor.
  - destruct Hp as [Hc Hk]. destruct (Get h url w) as [r w1].
    specialize (IH r w1 (Hk r)).
    destruct (run h (k r) w1) as [[a calls] w2]. by constructor.
  - destruct Hp as [Hc Hk]. destruct (Post h url ct body w) as [r w1].
    specialize (IH r w1 (Hk r)).
    destruct (run h (k r) w1) as [[a calls] w2]. by constructor.
Qed.

Lemma all_leaves_bind {A B} (Q : B -> Prop) (p : Prog A) (f : A -> Prog B) :
  all_leaves (fun a => all_leaves Q (f a)) p -> all_leaves Q (bind p f).
Proof. induction p; simpl; auto. Qed.

Lemma all_calls_bind {A B} (C : Call -> Prop) (p : Prog A) (f : A -> Prog B) :
  all_calls C p -> (forall a, all_calls C (f a)) -> all_calls C (bind p f).
Proof.
  intros Hp Hf. induction p as [a | url k IH | url ct body k IH]; simpl.
  - apply Hf.
  - destruct Hp as [Hc Hk]. split; [done |]. intros r. by apply IH.
  - destruct Hp as [Hc Hk]. split; [done |]. intros r. by apply IH.
Qed.

(** *** Field mappings *)

(** The loop over the extra fields is a left-biased union. *)
Lemma merge_fields_union (postStruct extra : fields) :
  merge_fields postStruct extra = extra ∪ postStruct.
Proof.
  unfold merge_fields.
  apply (map_fold_weak_ind (fun r m => r = m ∪ postStruct)).
  - by rewrite (left_id_L ∅ (∪)).
  - intros k v m r _ ->. by rewrite insert_union_l.
Qed.

Lemma merge_fields_lookup (postStruct extra : fields) (k : string) :
  merge_fields postStruct extra !! k
  = match extra !! k with Some v => Some v | None => postStruct !! k end.
Proof.
  rewrite merge_fields_union, lookup_union.
  destruct (extra !! k), (postStruct !! k); done.
Qed.

Lemma int_of_float64_inject_Z (n : Z) :
  (minInt <= n <= maxInt)%Z -> int_of_float64 (inject_Z n) = n.
Proof.
  intros [Hlo Hhi]. unfold int_of_float64. simpl Qnum. simpl Qden.
  rewrite Z.quot_1_r.
  apply Z.leb_le in Hlo, Hhi. by rewrite Hlo, Hhi.
Qed.
End ClientFacts.

Module UpsertSpec.
Import GoStrings NetURL Pipedrive ClientFacts Fixtures.

Section WithJSON.
Context `{JSON}.

(** What [createEntitiy] does when the request can be sent and is
    answered with a body that decodes. *)
Lemma run_createEntitiy {W} (h : Requestor W) (w w' : W) (c : Client)
      (path postBody : string) (bodyData data : fields) (u : URL) (resp : Response) :
  json_Marshal bodyData = inr postBody ->
  authenticatedURL c path = inr u ->
  Post h (URL_String u) "application/json" postBody w = ((Some resp, None), w') ->
  ReadErr resp = None ->
  json_Unmarshal (Body resp) = inr data ->
  run h (createEntitiy c path bodyData) w
  = (inr (data, None), [POST (URL_String u) "application/json" postBody], w').
Proof.
  intros Hm Hu Hp Hr Hd. unfold createEntitiy. rewrite Hm, Hu. simpl.
  by rewrite Hp, Hr, Hd.
Qed.

Lemma found_organization {W} (h : Requestor W) (w w' : W) (c : Client)
      (org : Organization) (u : URL) (resp : Response) (data o : fields)
      (rest : list value) (N : Z) :
  authenticatedURL c ("/organizations/find?term=" +:+ Organization_Name org) = inr u ->
  Get h (URL_String u) w = ((Some resp, None), w') ->
  ReadErr resp = None ->
  json_Unmarshal (Body resp) = inr data ->
  index data "data" = VSlice (VMap o :: rest) ->
  index o "id" = VFloat64 (inject_Z N) ->
  (minInt <= N <= maxInt)%Z ->
  run h (FindOrCreateOrganization c org) w
  = ((set_Organization_ID org N, Returns None), [GET (URL_String u)], w').
Proof.
  intros Hu Hg Hr Hd Hdata Hid HN. unfold FindOrCreateOrganization.
  rewrite Hu. simpl. rewrite Hg, Hr, Hd, Hdata. simpl.
  by rewrite Hid, int_of_float64_inject_Z.
Qed.

Lemma found_person {W} (h : Requestor W) (w w' : W) (c : Client)
      (newPerson : Person) (email : string) (others : list string)
      (u : URL) (resp : Response) (data o : fields) (rest : list value) (N : Z) :
  Person_Email newPerson = email :: others ->
  authenticatedURL c ("/persons/find?search_by_email=1&term=" +:+ email) = inr u ->
  Get h (URL_String u) w = ((Some resp, None), w') ->
  ReadErr resp = None ->
  json_Unmarshal (Body resp) = inr data ->
  index data "data" = VSlice (VMap o :: rest) ->
  index o "id" = VFloat64 (inject_Z N) ->
  (minInt <= N <= maxInt)%Z ->
  run h (FindOrCreatePerson c newPerson) w
  = ((set_Person_ID newPerson N, Returns None), [GET (URL_String u)], w').
Proof.
  intros He Hu Hg Hr Hd Hdata Hid HN. unfold FindOrCreatePerson.
  rewrite He, Hu. simpl. rewrite Hg, Hr, Hd, Hdata. simpl.
  by rewrite Hid, int_of_float64_inject_Z.
Qed.

Lemma created_organization {W} (h : Requestor W) (w w1 w2 : W) (c : Client)
      (org : Organization) (u u2 : URL) (resp resp2 : Response)
      (data data2 o : fields) (postBody : string) (M : Z) :
  authenticatedURL c ("/organizations/find?term=" +:+ Organization_Name org) = inr u ->
  Get h (URL_String u) w = ((Some resp, None), w1) ->
  ReadErr resp = None ->
  json_Unmarshal (Body resp) = inr data ->
  index data "data" = VNil ->
  json_Marshal (organization_postStruct c org) = inr postBody ->
  authenticatedURL c "/organizations" = inr u2 ->
  Post h (URL_String u2) "application/json" postBody w1 = ((Some resp2, None), w2) ->
  ReadErr resp2 = None ->
  json_Unmarshal (Body resp2) = inr data2 ->
  index data2 "data" = VMap o ->
  index o "id" = VFloat64 (inject_Z M) ->
  (minInt <= M <= maxInt)%Z ->
  run h (FindOrCreateOrganization c org) w
  = ((set_Organization_ID org M, Returns None),
     [GET (URL_String u); POST (URL_String u2) "application/json" postBody], w2).
Proof.
  intros Hu Hg Hr Hd Hdata Hm Hu2 Hp Hr2 Hd2 Hdata2 Hid HM.
  unfold FindOrCreateOrganization.
  rewrite Hu. simpl. rewrite Hg, Hr, Hd, Hdata. simpl.
  rewrite run_bind, (run_createEntitiy h w1 w2 c _ postBody _ data2 u2 resp2) by done.
  simpl. rewrite Hdata2. simpl. by rewrite Hid, int_of_float64_inject_Z.
Qed.

Lemma created_person {W} (h : Requestor W) (w w1 w2 : W) (c : Client)
      (newPerson : Person) (email : string) (others : list string) (u u2 : URL)
      (resp resp2 : Response) (data data2 o : fields) (postBody : string) (M : Z) :
  Person_Email newPerson = email :: others ->
  authenticatedURL c ("/persons/find?search_by_email=1&term=" +:+ email) = inr u ->
  Get h (URL_String u) w = ((Some resp, None), w1) ->
  ReadErr resp = None ->
  json_Unmarshal (Body resp) = inr data ->
  index data "data" = VNil ->
  json_Marshal (person_postStruct c newPerson) = inr postBody ->
  authenticatedURL c "/persons" = inr u2 ->
  Post h (URL_String u2) "application/json" postBody w1 = ((Some resp2, None), w2) ->
  ReadErr resp2 = None ->
  json_Unmarshal (Body resp2) = inr data2 ->
  index data2 "data" = VMap o ->
  index o "id" = VFloat64 (inject_Z M) ->
  (minInt <= M <= maxInt)%Z ->
  run h (FindOrCreatePerson c newPerson) w
  = ((set_Person_ID newPerson M, Returns None),
     [GET (URL_String u); POST (URL_String u2) "application/json" postBody], w2).
Proof.
  intros He Hu Hg Hr Hd Hdata Hm Hu2 Hp Hr2 Hd2 Hdata2 Hid HM.
  unfold FindOrCreatePerson.
  rewrite He, Hu. simpl. rewrite Hg, Hr, Hd, Hdata. simpl.
  rewrite run_bind, (run_createEntitiy h w1 w2 c _ postBody _ data2 u2 resp2) by done.
  simpl. rewrite Hdata2. simpl. by rewrite Hid, int_of_float64_inject_Z.
Qed.

(** The one call of [createEntitiy] when the request can be sent,
    whatever the answer. *)
Lemma createEntitiy_posts {W} (h : Requestor W) (w : W) (c : Client)
      (path postBody : string) (bodyData : fields) (u : URL) :
  json_Marshal bodyData = inr postBody ->
  authenticatedURL c path = inr u ->
  (run h (createEntitiy c path bodyData) w).1.2
  = [POST (URL_String u) "application/json" postBody].
Proof.
  intros Hm Hu. unfold createEntitiy. rewrite Hm, Hu. simpl.
  destruct (Post h (URL_String u) "application/json" postBody w) as [[resp err] w1].
  repeat case_match; by simplify_eq/=.
Qed.

(** After [createEntitiy] an operation only inspects the result. *)
Ltac inspect := repeat (simpl; case_match); simplify_eq/=.

Lemma CreateDeal_posts {W} (h : Requestor W) (w : W) (c : Client) (newDeal : Deal)
      (u : URL) (postBody : string) :
  json_Marshal (deal_bodyData (default_UserID c newDeal)) = inr postBody ->
  authenticatedURL c "/deals" = inr u ->
  (run h (CreateDeal c newDeal) w).1.2
  = [POST (URL_String u) "application/json" postBody].
Proof.
  intros Hm Hu. unfold CreateDeal. rewrite run_bind.
  pose proof (createEntitiy_posts h w c "/deals" postBody _ u Hm Hu) as Hc.
  destruct (run h (createEntitiy c "/deals" _) w) as [[r calls1] w2].
  simpl in Hc. subst calls1.
  destruct r as [p | [data2 [e |]]]; inspect; done.
Qed.

Lemma FindOrCreateOrganization_posts {W} (h : Requestor W) (w w1 : W) (c : Client)
      (org : Organization) (u u2 : URL) (resp : Response) (data : fields)
      (postBody : string) :
  authenticatedURL c ("/organizations/find?term=" +:+ Organization_Name org) = inr u ->
  Get h (URL_String u) w = ((Some resp, None), w1) ->
  ReadErr resp = None ->
  json_Unmarshal (Body resp) = inr data ->
  index data "data" = VNil ->
  json_Marshal (organization_postStruct c org) = inr postBody ->
  authenticatedURL c "/organizations" = inr u2 ->
  (run h (FindOrCreateOrganization c org) w).1.2
  = [GET (URL_String u); POST (URL_String u2) "application/json" postBody].
Proof.
  intros Hu Hg Hr Hd Hdata Hm Hu2. unfold FindOrCreateOrganization.
  rewrite Hu. simpl. rewrite Hg, Hr, Hd, Hdata. simpl. rewrite run_bind.
  pose proof (createEntitiy_posts h w1 c "/organizations" postBody _ u2 Hm Hu2) as Hc.
  destruct (run h (createEntitiy c "/organizations" _) w1) as [[r calls1] w2].
  simpl in Hc. subst calls1.
  destruct r as [p | [data2 [e |]]]; inspect; done.
Qed.
End WithJSON.
End UpsertSpec.

Module FrameSpec.
Import GoStrings NetURL Pipedrive ClientFacts Fixtures.

Section WithJSON.
Context `{JSON}.

Ltac leaves :=
  repeat first
    [ progress intros
    | progress simpl
    | apply all_leaves_bind
    | case_match ].

Lemma createEntitiy_leaves (Q : panic + fields * option error -> Prop) (c : Client)
      (path : string) (bodyData : fields) :
  (forall r, Q r) -> all_leaves Q (createEntitiy c path bodyData).
Proof. intros HQ. unfold createEntitiy. leaves; apply HQ. Qed.

Lemma createEntitiy_calls (c : Client) (path : string) (bodyData : fields) :
  all_calls (posts_payload bodyData) (createEntitiy c path bodyData).
Proof.
  unfold createEntitiy. destruct (json_Marshal bodyData) as [e | postBody] eqn:Hm; [done |].
  destruct (authenticatedURL c path) as [e | postURL]; [done |].
  simpl. split; [done |]. intros [resp err]. by repeat case_match.
Qed.

(** Only the [ID] of the organization is written, and only on success. *)
Lemma organization_frame (c : Client) (org : Organization) :
  all_leaves (fun r => r.1 = set_Organization_ID org (Organization_ID r.1)
                       /\ (r.2 <> Returns None -> r.1 = org))
             (FindOrCreateOrganization c org).
Proof.
  unfold FindOrCreateOrganization.
  leaves; try (by destruct org); apply createEntitiy_leaves; leaves; by destruct org.
Qed.

Lemma person_frame (c : Client) (newPerson : Person) :
  all_leaves (fun r => r.1 = set_Person_ID newPerson (Person_ID r.1)
                       /\ (r.2 <> Returns None -> r.1 = newPerson))
             (FindOrCreatePerson c newPerson).
Proof.
  unfold FindOrCreatePerson.
  leaves; try (by destruct newPerson); apply createEntitiy_leaves; leaves;
    by destruct newPerson.
Qed.

(** [CreateDeal] writes the [ID] on success, and before that the
    default user id. *)
Lemma deal_frame (c : Client) (newDeal : Deal) :
  all_leaves (fun r => r.1 = set_Deal_ID (default_UserID c newDeal) (Deal_ID r.1)
                       /\ (r.2 <> Returns None -> r.1 = default_UserID c newDeal))
             (CreateDeal c newDeal).
Proof.
  unfold CreateDeal. apply all_leaves_bind, createEntitiy_leaves.
  leaves; by destruct (default_UserID c newDeal).
Qed.

Lemma organization_calls (c : Client) (org : Organization) :
  all_calls (posts_payload (organization_postStruct c org)) (FindOrCreateOrganization c org).
Proof.
  unfold FindOrCreateOrganization.
  destruct (authenticatedURL c _) as [e | u]; [done |]. simpl. split; [done |].
  intros [resp err]. repeat case_match; try done.
  apply all_calls_bind; [apply createEntitiy_calls |]. intros ?. by repeat case_match.
Qed.

Lemma person_calls (c : Client) (newPerson : Person) :
  all_calls (posts_payload (person_postStruct c newPerson)) (FindOrCreatePerson c newPerson).
Proof.
  unfold FindOrCreatePerson. destruct (Person_Email newPerson) as [| email0 others]; [done |].
  destruct (authenticatedURL c _) as [e | u]; [done |]. simpl. split; [done |].
  intros [resp err]. repeat case_match; try done.
  apply all_calls_bind; [apply createEntitiy_calls |]. intros ?. by repeat case_match.
Qed.

Lemma deal_calls (c : Client) (newDeal : Deal) :
  all_calls (posts_payload (deal_bodyData (default_UserID c newDeal))) (CreateDeal c newDeal).
Proof.
  unfold CreateDeal. apply all_calls_bind; [apply createEntitiy_calls |].
  intros ?. by repeat case_match.
Qed.
End WithJSON.
End FrameSpec.

Module URLSpec.
Import GoStrings NetURL Pipedrive Views StringFacts QueryFacts ParseFacts ClientFacts.
Import Fixtures.

(** The query the builder encodes: the parameters of the parsed URL
    and the token. *)
Lemma authenticatedURL_inv (c : Client) (path : string) (u : URL) :
  authenticatedURL c path = inr u ->
  exists u0, Parse (BaseURL c +:+ path) = inr u0
    /\ u = set_RawQuery u0 (Values_Encode
                             (Values_Add (URL_Query u0) "api_token" (APIToken c))).
Proof.
  unfold authenticatedURL. destruct (Parse (BaseURL c +:+ path)) as [e | u0]; [done |].
  intros [= <-]. by exists u0.
Qed.

Lemma token_query_no_empty_list (u0 : URL) (token : string) :
  no_empty_list (Values_Add (URL_Query u0) "api_token" token).
Proof. apply no_empty_list_Add, ParseQuery_no_empty_list. Qed.

Lemma URL_Query_set_RawQuery (u0 : URL) (v : Values) :
  no_empty_list v -> URL_Query (set_RawQuery u0 (Values_Encode v)) = v.
Proof.
  intros Hv. unfold URL_Query. simpl RawQuery. by rewrite ParseQuery_Values_Encode.
Qed.

Lemma Values_Encode_not_empty (v : Values) (k : string) :
  no_empty_list v -> is_Some (v !! k) -> is_empty (Values_Encode v) = false.
Proof.
  intros Hv [vs Hk]. destruct (is_empty (Values_Encode v)) eqn:E; [| done].
  apply is_empty_true in E. pose proof (ParseQuery_Values_Encode v Hv) as Hp.
  rewrite E in Hp. injection Hp as Hp. rewrite <- Hp in Hk. by rewrite lookup_empty in Hk.
Qed.

(** *** The parameters [ParseQuery] accepts *)

Lemma parseQuery_step_accepted (m : Values) (err : option url_err) (piece : string) :
  (parseQuery_step (m, err) piece).1
  = match accepted_pair piece with Some kv => add_param m kv | None => m end.
Proof.
  unfold parseQuery_step, accepted_pair.
  destruct (mem_byte ";" piece); [done |]. simpl orb.
  destruct (is_empty piece); [done |].
  destruct (Cut piece "=") as [[key value] found].
  destruct (QueryUnescape key); [done |]. by destruct (QueryUnescape value).
Qed.

Lemma fold_parseQuery_step_accepted (pieces : list string) (acc : Values * option url_err) :
  (fold_left parseQuery_step pieces acc).1
  = fold_left add_param (omap accepted_pair pieces) acc.1.
Proof.
  revert acc. induction pieces as [| piece pieces IH]; intros [m err]; [done |].
  cbn [fold_left omap list_omap]. rewrite IH.
  pose proof (parseQuery_step_accepted m err piece) as Hs.
  destruct (accepted_pair piece) as [kv |]; cbn [fold_left fst]; by rewrite Hs.
Qed.

Lemma ParseQuery_accepted_pairs (query : string) :
  (ParseQuery query).1 = fold_left add_param (accepted_pairs query) ∅.
Proof. apply fold_parseQuery_step_accepted. Qed.

Lemma values_of_cons (key : string) (kv : string * string) (pairs : list (string * string)) :
  values_of key (kv :: pairs)
  = if decide (kv.1 = key) then kv.2 :: values_of key pairs else values_of key pairs.
Proof. unfold values_of. rewrite filter_cons. by case_decide. Qed.

Lemma fold_add_param_lookup (pairs : list (string * string)) (m : Values) (key : string) :
  fold_left add_param pairs m !! key
  = match values_of key pairs with
    | [] => m !! key
    | vs => Some (default [] (m !! key) ++ vs)%list
    end.
Proof.
  revert m. induction pairs as [| [k v] pairs IH]; intros m; [done |].
  cbn [fold_left]. rewrite IH, values_of_cons. unfold add_param, Values_Add. cbn [fst snd].
  case_decide as Hk.
  - subst k. rewrite lookup_insert_eq. cbn [default].
    destruct (values_of key pairs) as [| x vs]; [done |]. unfold id. by rewrite <- app_assoc.
  - by rewrite lookup_insert_ne.
Qed.

Lemma URL_Query_values (rawQuery token key : string) :
  Values_Add (ParseQuery rawQuery).1 "api_token" token !! key
  = match values_of key (accepted_pairs rawQuery ++ [("api_token", token)]) with
    | [] => None
    | vs => Some vs
    end.
Proof.
  rewrite ParseQuery_accepted_pairs.
  assert (Values_Add (fold_left add_param (accepted_pairs rawQuery) ∅) "api_token" token
          = fold_left add_param (accepted_pairs rawQuery ++ [("api_token", token)]) ∅)
    as -> by by rewrite fold_left_app.
  rewrite fold_add_param_lookup, lookup_empty. by destruct (values_of key _).
Qed.

(** C4, as the code has it.  For a base URL, token and path that
    [authenticatedURL] accepts: the built URL is a function of the
    inputs, and is the same whatever order the parameter map is
    iterated in; the parameters are written with their keys in
    alphabetical (bytewise) order; the parameters of the built URL are
    those [ParseQuery] finds in the path, each with its values in their
    order, and the token; the string of the URL carries that query; and
    key by key, the values in the built URL are those of the pieces of
    the given query that [ParseQuery] accepts, in their order, followed
    for [api_token] by the token: a piece with a [;] or a bad escape is
    dropped.  In particular the URL of [/organizations?term=paper]. *)
Theorem authenticatedURL_properties :
  (forall (c : Client) (path : string) (u : URL),
      authenticatedURL c path = inr u ->
      exists u0 : URL,
        Parse (BaseURL c +:+ path) = inr u0
        /\ (forall u', authenticatedURL c path = inr u' -> URL_String u' = URL_String u)
        /\ (forall ks : list string,
               ks ≡ₚ (map_to_list (Values_Add (URL_Query u0) "api_token" (APIToken c))).*1 ->
               URL_String
                 (set_RawQuery u0
                    (Values_Encode_from ks
                       (Values_Add (URL_Query u0) "api_token" (APIToken c))))
               = URL_String u)
        /\ (exists kvs : list (string * string),
               RawQuery u = join "&" (render <$> kvs)
               /\ StronglySorted String.le kvs.*1)
        /\ URL_Query u = Values_Add (URL_Query u0) "api_token" (APIToken c)
        /\ (forall k vs, URL_Query u0 !! k = Some vs ->
                         exists vs', URL_Query u !! k = Some (vs ++ vs')%list)
        /\ URL_String u
           = String_head u0 +:+ "?" +:+ RawQuery u
             +:+ (if negb (is_empty (Fragment u0)) then "#" +:+ EscapedFragment u0
                  else EmptyString)
        /\ (forall key : string,
               URL_Query u !! key
               = match values_of key (accepted_pairs (RawQuery u0)
                                      ++ [("api_token", APIToken c)]) with
                 | [] => None
                 | vs => Some vs
                 end))
  /\ (exists u : URL,
         authenticatedURL (NewClient "http://base" "abc123" (mkClientOptions 0))
                          "/organizations?term=paper" = inr u
         /\ URL_String u = "http://base/organizations?api_token=abc123&term=paper").
Proof.
  split.
  - intros c path u Hu. destruct (authenticatedURL_inv c path u Hu) as [u0 [Hp ->]].
    exists u0. set (q := Values_Add (URL_Query u0) "api_token" (APIToken c)).
    assert (no_empty_list q) as Hq by apply token_query_no_empty_list.
    split; [done |]. split; [| split; [| split; [| split; [| split; [| split]]]]].
    + intros u' Hu'. rewrite Hu in Hu'. by injection Hu' as <-.
    + intros ks Hks. unfold Values_Encode.
      by rewrite (Values_Encode_from_Permutation _ _ _ Hks).
    + exists (params (merge_sort String.le (map_to_list q).*1) q). split.
      * simpl RawQuery. apply Values_Encode_from_join.
      * apply params_keys_sorted, StronglySorted_merge_sort; apply _.
    + by apply URL_Query_set_RawQuery.
    + intros k vs Hk. rewrite URL_Query_set_RawQuery by done.
      unfold q, Values_Add. rewrite lookup_insert. case_decide as Hd.
      * subst k. rewrite Hk. by eexists.
      * exists []. by rewrite app_nil_r.
    + unfold URL_String. simpl.
      rewrite (Values_Encode_not_empty q "api_token" Hq).
      * rewrite orb_true_r. by rewrite !append_assoc.
      * unfold q, Values_Add. rewrite lookup_insert_eq. by eexists.
    + intros key. rewrite URL_Query_set_RawQuery by done. apply URL_Query_values.
  - eexists. split; [vm_compute; reflexivity | vm_compute; reflexivity].
Qed.

(** A query with a piece with a [;] between two values of [term]: the
    values of [term] are kept in their order behind the token, the
    piece is gone. *)
Lemma authenticatedURL_properties_witness :
  exists u : URL,
    authenticatedURL client "/organizations?term=paper&a;b=1&term=ink" = inr u
    /\ URL_Query u !! "term" = Some ["paper"; "ink"]
    /\ URL_Query u !! "api_token" = Some ["abc123"]
    /\ URL_Query u !! "a;b" = None
    /\ exists kvs : list (string * string),
         RawQuery u = join "&" (render <$> kvs) /\ StronglySorted String.le kvs.*1.
Proof.
  eexists. split; [reflexivity |].
  edestruct (proj1 authenticatedURL_properties client
               "/organizations?term=paper&a;b=1&term=ink")
    as [u0 [Hparse [_ [_ [Hsorted [_ [_ [_ Hvalues]]]]]]]]; [reflexivity |].
  vm_compute in Hparse. injection Hparse as <-.
  split; [exact (Hvalues "term") |]. split; [exact (Hvalues "api_token") |].
  split; [exact (Hvalues "a;b") | exact Hsorted].
Defined.

(** C4 fails: a parameter whose value has a [;] is not preserved, and
    no error is returned. *)
Lemma semicolon_parameter_is_dropped :
  exists u : URL,
    authenticatedURL client "/organizations?term=AT;T&x=1" = inr u
    /\ URL_String u = "http://base/organizations?api_token=abc123&x=1"
    /\ URL_Query u !! "term" = None.
Proof. eexists. split; [reflexivity |]. split; vm_compute; reflexivity. Qed.



End URLSpec.

Module ClientSpec.
Import GoStrings NetURL Pipedrive StringFacts QueryFacts ParseFacts ClientFacts.
Import UpsertSpec FrameSpec URLSpec Fixtures.

(** C1.  When the search response decodes to an envelope whose [data] is
    a list that starts with an object of numeric id [N], both
    [FindOrCreateOrganization] and [FindOrCreatePerson] store [N] in the
    entity's [ID], return no error, and issue the one [Get] and no
    [Post]. *)
Theorem found_sets_id_without_post `{JSON} :
  (forall W (h : Requestor W) (w w' : W) (c : Client) (org : Organization) (u : URL)
          (resp : Response) (data o : fields) (rest : list value) (N : Z),
      authenticatedURL c ("/organizations/find?term=" +:+ Organization_Name org) = inr u ->
      Get h (URL_String u) w = ((Some resp, None), w') ->
      ReadErr resp = None ->
      json_Unmarshal (Body resp) = inr data ->
      index data "data" = VSlice (VMap o :: rest) ->
      index o "id" = VFloat64 (inject_Z N) ->
      (minInt <= N <= maxInt)%Z ->
      run h (FindOrCreateOrganization c org) w
      = ((set_Organization_ID org N, Returns None), [GET (URL_String u)], w')
      /\ count_POST (run h (FindOrCreateOrganization c org) w).1.2 = 0)
  /\ (forall W (h : Requestor W) (w w' : W) (c : Client) (newPerson : Person)
             (email : string) (others : list string) (u : URL) (resp : Response)
             (data o : fields) (rest : list value) (N : Z),
         Person_Email newPerson = email :: others ->
         authenticatedURL c ("/persons/find?search_by_email=1&term=" +:+ email) = inr u ->
         Get h (URL_String u) w = ((Some resp, None), w') ->
         ReadErr resp = None ->
         json_Unmarshal (Body resp) = inr data ->
         index data "data" = VSlice (VMap o :: rest) ->
         index o "id" = VFloat64 (inject_Z N) ->
         (minInt <= N <= maxInt)%Z ->
         run h (FindOrCreatePerson c newPerson) w
         = ((set_Person_ID newPerson N, Returns None), [GET (URL_String u)], w')
         /\ count_POST (run h (FindOrCreatePerson c newPerson) w).1.2 = 0).
Proof.
  split.
  - intros. by rewrite (found_organization h w w' c org u resp data o rest N).
  - intros. by rewrite (found_person h w w' c newPerson email others u resp data o rest N).
Qed.

(** C2.  When the search response has no [data] and the create response
    decodes to an envelope whose [data] is an object of numeric id [M],
    the operation stores [M] in the entity's [ID], returns no error, and
    issues exactly one [Get] followed by exactly one [Post]. *)
Theorem not_found_creates_with_one_get_one_post `{JSON} :
  (forall W (h : Requestor W) (w w1 w2 : W) (c : Client) (org : Organization)
          (u u2 : URL) (resp resp2 : Response) (data data2 o : fields)
          (postBody : string) (M : Z),
      authenticatedURL c ("/organizations/find?term=" +:+ Organization_Name org) = inr u ->
      Get h (URL_String u) w = ((Some resp, None), w1) ->
      ReadErr resp = None ->
      json_Unmarshal (Body resp) = inr data ->
      index data "data" = VNil ->
      json_Marshal (organization_postStruct c org) = inr postBody ->
      authenticatedURL c "/organizations" = inr u2 ->
      Post h (URL_String u2) "application/json" postBody w1 = ((Some resp2, None), w2) ->
      ReadErr resp2 = None ->
      json_Unmarshal (Body resp2) = inr data2 ->
      index data2 "data" = VMap o ->
      index o "id" = VFloat64 (inject_Z M) ->
      (minInt <= M <= maxInt)%Z ->
      run h (FindOrCreateOrganization c org) w
      = ((set_Organization_ID org M, Returns None),
         [GET (URL_String u); POST (URL_String u2) "application/json" postBody], w2))
  /\ (forall W (h : Requestor W) (w w1 w2 : W) (c : Client) (newPerson : Person)
             (email : string) (others : list string) (u u2 : URL)
             (resp resp2 : Response) (data data2 o : fields) (postBody : string) (M : Z),
         Person_Email newPerson = email :: others ->
         authenticatedURL c ("/persons/find?search_by_email=1&term=" +:+ email) = inr u ->
         Get h (URL_String u) w = ((Some resp, None), w1) ->
         ReadErr resp = None ->
         json_Unmarshal (Body resp) = inr data ->
         index data "data" = VNil ->
         json_Marshal (person_postStruct c newPerson) = inr postBody ->
         authenticatedURL c "/persons" = inr u2 ->
         Post h (URL_String u2) "application/json" postBody w1 = ((Some resp2, None), w2) ->
         ReadErr resp2 = None ->
         json_Unmarshal (Body resp2) = inr data2 ->
         index data2 "data" = VMap o ->
         index o "id" = VFloat64 (inject_Z M) ->
         (minInt <= M <= maxInt)%Z ->
         run h (FindOrCreatePerson c newPerson) w
         = ((set_Person_ID newPerson M, Returns None),
            [GET (URL_String u); POST (URL_String u2) "application/json" postBody], w2)).
Proof.
  split; intros.
  - by eapply created_organization.
  - by eapply created_person.
Qed.

(** C3.  A person without an email is refused with the [errors.New]
    error of the precondition, an [InvalidArgument]; no call is issued
    and the person is as it was. *)
Theorem person_without_email_rejected `{JSON} {W} (h : Requestor W) (w : W)
        (c : Client) (newPerson : Person) :
  Person_Email newPerson = [] ->
  run h (FindOrCreatePerson c newPerson) w
  = ((newPerson, Returns (Some (errors_New "Must have at least one email"))), [], w)
  /\ kind_of (errors_New "Must have at least one email") = InvalidArgument.
Proof. intros He. unfold FindOrCreatePerson. by rewrite He. Qed.

Ltac lookup_step :=
  rewrite lookup_insert; case_decide;
  [ subst; reflexivity
  | match goal with
    | Hne : _ <> ?k |- _ =>
        apply not_eq_sym, String.eqb_neq in Hne; rewrite Hne; clear Hne
    end ].

(** The payload of [FindOrCreatePerson]. *)
Lemma person_postStruct_lookup (c : Client) (newPerson : Person) (k : string) :
  person_postStruct c newPerson !! k
  = if String.eqb k "owner_id" && negb (Z.eqb (DefaultUserID c) 0)
    then Some (VInt (DefaultUserID c))
    else if String.eqb k "name" then Some (VString (Person_Name newPerson))
    else if String.eqb k "email" then Some (VStrings (Person_Email newPerson))
    else if String.eqb k "org_id" then Some (VInt (Person_OrganizationID newPerson))
    else None.
Proof.
  unfold person_postStruct.
  destruct (Z.eqb (DefaultUserID c) 0); simpl negb; rewrite ?andb_false_r, ?andb_true_r;
    repeat lookup_step; by rewrite lookup_empty.
Qed.

(** C6.  Every [Post] of [FindOrCreatePerson] carries the encoding of one
    field mapping, which holds the name, the emails and the organization
    id of the person, and the default user id when one is configured; it
    has no other key, so none for the phones. *)
Theorem person_payload_has_no_phone `{JSON} {W} (h : Requestor W) (w : W)
        (c : Client) (newPerson : Person) :
  Forall (posts_payload (person_postStruct c newPerson))
         (run h (FindOrCreatePerson c newPerson) w).1.2
  /\ person_postStruct c newPerson !! "name" = Some (VString (Person_Name newPerson))
  /\ person_postStruct c newPerson !! "email" = Some (VStrings (Person_Email newPerson))
  /\ person_postStruct c newPerson !! "org_id"
     = Some (VInt (Person_OrganizationID newPerson))
  /\ person_postStruct c newPerson !! "owner_id"
     = (if Z.eqb (DefaultUserID c) 0 then None else Some (VInt (DefaultUserID c)))
  /\ (forall k v, person_postStruct c newPerson !! k = Some v ->
                  k ∈ ["name"; "email"; "org_id"; "owner_id"])
  /\ person_postStruct c newPerson !! "phone" = None.
Proof.
  split; [apply run_all_calls, person_calls |].
  rewrite !person_postStruct_lookup. simpl.
  repeat split; try by destruct (Z.eqb (DefaultUserID c) 0).
  intros k v. rewrite person_postStruct_lookup.
  destruct (String.eqb_spec k "owner_id") as [-> | _]; [set_solver |].
  destruct (String.eqb_spec k "name") as [-> | _]; [set_solver |].
  destruct (String.eqb_spec k "email") as [-> | _]; [set_solver |].
  destruct (String.eqb_spec k "org_id") as [-> | _]; [set_solver | done].
Qed.

Lemma organization_postStruct_lookup (c : Client) (org : Organization) (k : string) :
  organization_postStruct c org !! k
  = if String.eqb k "owner_id" && negb (Z.eqb (DefaultUserID c) 0)
    then Some (VInt (DefaultUserID c))
    else match Organization_Fields org !! k with
         | Some v => Some v
         | None => if String.eqb k "name" then Some (VString (Organization_Name org))
                   else None
         end.
Proof.
  unfold organization_postStruct.
  assert (merge_fields {["name" := VString (Organization_Name org)]}
                       (Organization_Fields org) !! k
          = match Organization_Fields org !! k with
            | Some v => Some v
            | None => if String.eqb k "name" then Some (VString (Organization_Name org))
                      else None
            end) as Hm.
  { rewrite merge_fields_lookup. destruct (Organization_Fields org !! k); [done |].
    destruct (String.eqb_spec k "name") as [-> | Hk].
    - by rewrite lookup_singleton_eq.
    - by rewrite lookup_singleton_ne. }
  destruct (Z.eqb (DefaultUserID c) 0); simpl negb; rewrite ?andb_false_r; [done |].
  simpl negb. rewrite andb_true_r. by lookup_step.
Qed.

(** C7.  With a default user id configured, the mappings that
    [FindOrCreateOrganization] and [FindOrCreatePerson] post bind
    [owner_id] to the default, whatever owner the entity carries in its
    [OwnerID] or in its extra fields. *)
Theorem default_owner_replaces_given_owner (c : Client) :
  DefaultUserID c <> 0%Z ->
  (forall org : Organization,
      organization_postStruct c org !! "owner_id" = Some (VInt (DefaultUserID c)))
  /\ (forall newPerson : Person,
         person_postStruct c newPerson !! "owner_id" = Some (VInt (DefaultUserID c))).
Proof.
  intros Hd. apply Z.eqb_neq in Hd. split; intros.
  - rewrite organization_postStruct_lookup. by rewrite Hd.
  - rewrite person_postStruct_lookup. by rewrite Hd.
Qed.

Lemma deal_bodyData_lookup (newDeal : Deal) (k : string) (v : value) :
  Deal_Fields newDeal !! k = Some v -> deal_bodyData newDeal !! k = Some v.
Proof. intros Hk. unfold deal_bodyData. by rewrite merge_fields_lookup, Hk. Qed.

Lemma default_UserID_Fields (c : Client) (newDeal : Deal) :
  Deal_Fields (default_UserID c newDeal) = Deal_Fields newDeal.
Proof. unfold default_UserID. by case_match. Qed.

(** C10.  A key of the extra fields wins over the built-in key of the
    same name in what is sent.  When the request of [CreateDeal] can be
    sent, its one call is the [Post] of the encoding of a mapping that
    has, for every key of the deal's [Fields] (so for [title], [value],
    [user_id], [person_id] and [org_id]), the value of [Fields]; and
    when the search of [FindOrCreateOrganization] finds nothing and the
    creation can be sent, the [Post] after the [Get] carries the
    encoding of a mapping that has under [name] the value of [Fields]. *)
Theorem extra_fields_override_builtin_keys `{JSON} :
  (forall W (h : Requestor W) (w : W) (c : Client) (newDeal : Deal)
          (k : string) (v : value) (u : URL) (postBody : string),
      Deal_Fields newDeal !! k = Some v ->
      json_Marshal (deal_bodyData (default_UserID c newDeal)) = inr postBody ->
      authenticatedURL c "/deals" = inr u ->
      (run h (CreateDeal c newDeal) w).1.2
      = [POST (URL_String u) "application/json" postBody]
      /\ deal_bodyData (default_UserID c newDeal) !! k = Some v)
  /\ (forall W (h : Requestor W) (w w1 : W) (c : Client) (org : Organization)
             (v : value) (u u2 : URL) (resp : Response) (data : fields)
             (postBody : string),
         Organization_Fields org !! "name" = Some v ->
         authenticatedURL c ("/organizations/find?term=" +:+ Organization_Name org) = inr u ->
         Get h (URL_String u) w = ((Some resp, None), w1) ->
         ReadErr resp = None ->
         json_Unmarshal (Body resp) = inr data ->
         index data "data" = VNil ->
         json_Marshal (organization_postStruct c org) = inr postBody ->
         authenticatedURL c "/organizations" = inr u2 ->
         (run h (FindOrCreateOrganization c org) w).1.2
         = [GET (URL_String u); POST (URL_String u2) "application/json" postBody]
         /\ organization_postStruct c org !! "name" = Some v).
Proof.
  split.
  - intros W h w c newDeal k v u postBody Hk Hm Hu. split; [by apply CreateDeal_posts |].
    apply deal_bodyData_lookup. by rewrite default_UserID_Fields.
  - intros W h w w1 c org v u u2 resp data postBody Hk Hu Hg Hr Hd Hdata Hm Hu2.
    split; [by eapply FindOrCreateOrganization_posts |].
    rewrite organization_postStruct_lookup. simpl. by rewrite Hk.
Qed.

(** C8, as the code has it.  When the create request is answered and the
    answer decodes to an envelope without [data], the operation returns
    an error made by [fmt.Errorf], a [CreationFailed], and the entity
    keeps its [ID]; the error of [CreateDeal] carries the decoded
    envelope of the create response. *)
Theorem create_without_data_fails `{JSON} :
  (forall W (h : Requestor W) (w w1 w2 : W) (c : Client) (org : Organization)
          (u u2 : URL) (resp resp2 : Response) (data data2 : fields) (postBody : string),
      authenticatedURL c ("/organizations/find?term=" +:+ Organization_Name org) = inr u ->
      Get h (URL_String u) w = ((Some resp, None), w1) ->
      ReadErr resp = None ->
      json_Unmarshal (Body resp) = inr data ->
      index data "data" = VNil ->
      json_Marshal (organization_postStruct c org) = inr postBody ->
      authenticatedURL c "/organizations" = inr u2 ->
      Post h (URL_String u2) "application/json" postBody w1 = ((Some resp2, None), w2) ->
      ReadErr resp2 = None ->
      json_Unmarshal (Body resp2) = inr data2 ->
      index data2 "data" = VNil ->
      exists operands : list value,
        run h (FindOrCreateOrganization c org) w
        = ((org, Returns (Some (fmt_Errorf "Error creating Pipedrive org: %s" operands))),
           [GET (URL_String u); POST (URL_String u2) "application/json" postBody], w2)
        /\ kind_of (fmt_Errorf "Error creating Pipedrive org: %s" operands) = CreationFailed)
  /\ (forall W (h : Requestor W) (w w1 w2 : W) (c : Client) (newPerson : Person)
             (email : string) (others : list string) (u u2 : URL)
             (resp resp2 : Response) (data data2 : fields) (postBody : string),
         Person_Email newPerson = email :: others ->
         authenticatedURL c ("/persons/find?search_by_email=1&term=" +:+ email) = inr u ->
         Get h (URL_String u) w = ((Some resp, None), w1) ->
         ReadErr resp = None ->
         json_Unmarshal (Body resp) = inr data ->
         index data "data" = VNil ->
         json_Marshal (person_postStruct c newPerson) = inr postBody ->
         authenticatedURL c "/persons" = inr u2 ->
         Post h (URL_String u2) "application/json" postBody w1 = ((Some resp2, None), w2) ->
         ReadErr resp2 = None ->
         json_Unmarshal (Body resp2) = inr data2 ->
         index data2 "data" = VNil ->
         exists operands : list value,
           run h (FindOrCreatePerson c newPerson) w
           = ((newPerson,
               Returns (Some (fmt_Errorf "Error creating Pipedrive person: %s" operands))),
              [GET (URL_String u); POST (URL_String u2) "application/json" postBody], w2)
           /\ kind_of (fmt_Errorf "Error creating Pipedrive person: %s" operands)
              = CreationFailed)
  /\ (forall W (h : Requestor W) (w w2 : W) (c : Client) (newDeal : Deal) (u2 : URL)
             (resp2 : Response) (data2 : fields) (postBody : string),
         json_Marshal (deal_bodyData (default_UserID c newDeal)) = inr postBody ->
         authenticatedURL c "/deals" = inr u2 ->
         Post h (URL_String u2) "application/json" postBody w = ((Some resp2, None), w2) ->
         ReadErr resp2 = None ->
         json_Unmarshal (Body resp2) = inr data2 ->
         index data2 "data" = VNil ->
         run h (CreateDeal c newDeal) w
         = ((default_UserID c newDeal,
             Returns (Some (fmt_Errorf "Error creating Pipedrive deal: %+v" [VMap data2]))),
            [POST (URL_String u2) "application/json" postBody], w2)
         /\ kind_of (fmt_Errorf "Error creating Pipedrive deal: %+v" [VMap data2])
            = CreationFailed
         /\ Deal_ID (default_UserID c newDeal) = Deal_ID newDeal).
Proof.
  split; [| split].
  - intros W h w w1 w2 c org u u2 resp resp2 data data2 postBody
           Hu Hg Hr Hd Hdata Hm Hu2 Hp Hr2 Hd2 Hdata2.
    eexists. split; [| reflexivity]. unfold FindOrCreateOrganization.
    rewrite Hu. simpl. rewrite Hg, Hr, Hd, Hdata. simpl.
    rewrite run_bind, (run_createEntitiy h w1 w2 c _ postBody _ data2 u2 resp2) by done.
    simpl. by rewrite Hdata2.
  - intros W h w w1 w2 c newPerson email others u u2 resp resp2 data data2 postBody
           He Hu Hg Hr Hd Hdata Hm Hu2 Hp Hr2 Hd2 Hdata2.
    eexists. split; [| reflexivity]. unfold FindOrCreatePerson.
    rewrite He, Hu. simpl. rewrite Hg, Hr, Hd, Hdata. simpl.
    rewrite run_bind, (run_createEntitiy h w1 w2 c _ postBody _ data2 u2 resp2) by done.
    simpl. by rewrite Hdata2.
  - intros W h w w2 c newDeal u2 resp2 data2 postBody Hm Hu2 Hp Hr2 Hd2 Hdata2.
    split; [| split; [reflexivity |]].
    + unfold CreateDeal.
      rewrite run_bind, (run_createEntitiy h w w2 c _ postBody _ data2 u2 resp2) by done.
      simpl. by rewrite Hdata2.
    + unfold default_UserID. by case_match.
Qed.

(** C9, as the code has it.  Whatever the transport answers, an
    operation leaves every field of the entity but [ID] as it was, and
    [ID] too unless it returns no error; except that [CreateDeal] first
    stores the client's default user id in a deal whose [UserID] is
    zero. *)
Theorem only_id_and_default_user_written `{JSON} {W} (h : Requestor W) (w : W)
        (c : Client) :
  (forall org : Organization,
      (run h (FindOrCreateOrganization c org) w).1.1.1
      = set_Organization_ID org
          (Organization_ID (run h (FindOrCreateOrganization c org) w).1.1.1)
      /\ ((run h (FindOrCreateOrganization c org) w).1.1.2 <> Returns None ->
          (run h (FindOrCreateOrganization c org) w).1.1.1 = org))
  /\ (forall newPerson : Person,
         (run h (FindOrCreatePerson c newPerson) w).1.1.1
         = set_Person_ID newPerson
             (Person_ID (run h (FindOrCreatePerson c newPerson) w).1.1.1)
         /\ ((run h (FindOrCreatePerson c newPerson) w).1.1.2 <> Returns None ->
             (run h (FindOrCreatePerson c newPerson) w).1.1.1 = newPerson))
  /\ (forall newDeal : Deal,
         (run h (CreateDeal c newDeal) w).1.1.1
         = set_Deal_ID (default_UserID c newDeal)
             (Deal_ID (run h (CreateDeal c newDeal) w).1.1.1)
         /\ ((run h (CreateDeal c newDeal) w).1.1.2 <> Returns None ->
             (run h (CreateDeal c newDeal) w).1.1.1 = default_UserID c newDeal)
         /\ default_UserID c newDeal
            = (if negb (Z.eqb (DefaultUserID c) 0) && Z.eqb (Deal_UserID newDeal) 0
               then set_Deal_UserID newDeal (DefaultUserID c) else newDeal)).
Proof.
  split; [| split].
  - intros org. apply (run_all_leaves _ h _ w (organization_frame c org)).
  - intros p. apply (run_all_leaves _ h _ w (person_frame c p)).
  - intros d. pose proof (run_all_leaves _ h _ w (deal_frame c d)) as [H1 H2]. done.
Qed.

End ClientSpec.

Module Scenarios.
Import GoStrings NetURL Pipedrive StringFacts QueryFacts ParseFacts ClientFacts.
Import UpsertSpec FrameSpec URLSpec Fixtures ClientSpec.

#[local] Existing Instance RefJSON.codec.

Ltac scenario :=
  first [ reflexivity | vm_compute; reflexivity | vm_compute; split; discriminate ].

(** The two "found" tests of [pipedrive_test.go]. *)
Lemma found_sets_id_without_post_witness :
  run (fakeClient
         {[ "http://base/organizations/find?api_token=abc123&term=Videofruit"
            := orgFindResp 1 "Videofruit" ]})
      (FindOrCreateOrganization client (mkOrganization 0 "Videofruit" 0 ∅)) tt
  = ((mkOrganization 1 "Videofruit" 0 ∅, Returns None),
     [GET "http://base/organizations/find?api_token=abc123&term=Videofruit"], tt)
  /\ run (fakeClient
            {[ "http://base/persons/find?api_token=abc123&search_by_email=1&term=test%40videofruit.com"
               := personFindResp 1 "test@videofruit.com" ]})
         (FindOrCreatePerson client (mkPerson 0 0 0 EmptyString ["test@videofruit.com"] [])) tt
     = ((mkPerson 1 0 0 EmptyString ["test@videofruit.com"] [], Returns None),
        [GET "http://base/persons/find?api_token=abc123&search_by_email=1&term=test%40videofruit.com"],
        tt).
Proof.
  split.
  - eapply eq_trans;
      [ eapply proj1, (proj1 found_sets_id_without_post); scenario
      | vm_compute; reflexivity ].
  - eapply eq_trans;
      [ eapply proj1, (proj2 found_sets_id_without_post); scenario
      | vm_compute; reflexivity ].
Defined.

(** The two "not found" tests of [pipedrive_test.go]. *)
Lemma not_found_creates_with_one_get_one_post_witness :
  run (fakeClient
         {[ "http://base/organizations/find?api_token=abc123&term=Videofruit" := orgNoFindResp;
            "http://base/organizations?api_token=abc123" := orgCreateResp 2 "Videofruit" ]})
      (FindOrCreateOrganization client (mkOrganization 0 "Videofruit" 0 ∅)) tt
  = ((mkOrganization 2 "Videofruit" 0 ∅, Returns None),
     [GET "http://base/organizations/find?api_token=abc123&term=Videofruit";
      POST "http://base/organizations?api_token=abc123" "application/json"
           (json "{'name':'Videofruit'}")], tt)
  /\ run (fakeClient
            {[ "http://base/persons/find?api_token=abc123&search_by_email=1&term=test%40videofruit.com"
               := personNoFindResp;
               "http://base/persons?api_token=abc123"
               := personCreateResp 1 "test@videofruit.com" ]})
         (FindOrCreatePerson client (mkPerson 0 0 0 EmptyString ["test@videofruit.com"] [])) tt
     = ((mkPerson 1 0 0 EmptyString ["test@videofruit.com"] [], Returns None),
        [GET "http://base/persons/find?api_token=abc123&search_by_email=1&term=test%40videofruit.com";
         POST "http://base/persons?api_token=abc123" "application/json"
              (json "{'email':['test@videofruit.com'],'name':'','org_id':0}")], tt).
Proof.
  split.
  - eapply eq_trans;
      [ eapply (proj1 not_found_creates_with_one_get_one_post); scenario
      | vm_compute; reflexivity ].
  - eapply eq_trans;
      [ eapply (proj2 not_found_creates_with_one_get_one_post); scenario
      | vm_compute; reflexivity ].
Defined.

(** A person without an email, against a transport that knows no URL. *)
Lemma person_without_email_rejected_witness :
  run (fakeClient ∅) (FindOrCreatePerson client (mkPerson 0 0 0 "Tester McTest" [] ["555"])) tt
  = ((mkPerson 0 0 0 "Tester McTest" [] ["555"],
      Returns (Some (errors_New "Must have at least one email"))), [], tt).
Proof.
  exact (proj1 (person_without_email_rejected (fakeClient ∅) tt client
                  (mkPerson 0 0 0 "Tester McTest" [] ["555"]) eq_refl)).
Defined.

(** C6 at a person with a phone: the body posted has no phone. *)
Example person_phone_is_not_posted :
  (run (fakeClient
          {[ "http://base/persons/find?api_token=abc123&search_by_email=1&term=t%40x.org"
             := personNoFindResp;
             "http://base/persons?api_token=abc123" := personCreateResp 1 "t@x.org" ]})
       (FindOrCreatePerson client (mkPerson 0 0 0 "Tester" ["t@x.org"] ["555-0100"])) tt).1.2
  = [GET "http://base/persons/find?api_token=abc123&search_by_email=1&term=t%40x.org";
     POST "http://base/persons?api_token=abc123" "application/json"
          (json "{'email':['t@x.org'],'name':'Tester','org_id':0}")].
Proof. vm_compute. reflexivity. Qed.

(** An organization that names its owner twice, with the default 7. *)
Lemma default_owner_replaces_given_owner_witness :
  Organization_Fields (mkOrganization 0 "Videofruit" 5 {[ "owner_id" := VInt 5 ]})
    !! "owner_id" = Some (VInt 5)
  /\ organization_postStruct client7
       (mkOrganization 0 "Videofruit" 5 {[ "owner_id" := VInt 5 ]}) !! "owner_id"
     = Some (VInt 7)
  /\ person_postStruct client7 (mkPerson 0 5 0 "Tester" ["t@x.org"] []) !! "owner_id"
     = Some (VInt 7).
Proof.
  split; [reflexivity |].
  assert (DefaultUserID client7 <> 0%Z) as Hd by discriminate.
  split.
  - exact (proj1 (default_owner_replaces_given_owner client7 Hd) _).
  - exact (proj2 (default_owner_replaces_given_owner client7 Hd) _).
Defined.

Example default_owner_is_posted_instead :
  (run (fakeClient
          {[ "http://base/organizations/find?api_token=abc123&term=Videofruit" := orgNoFindResp;
             "http://base/organizations?api_token=abc123" := orgCreateResp 2 "Videofruit" ]})
       (FindOrCreateOrganization client7
          (mkOrganization 0 "Videofruit" 5 {[ "owner_id" := VInt 5 ]})) tt).1.2
  = [GET "http://base/organizations/find?api_token=abc123&term=Videofruit";
     POST "http://base/organizations?api_token=abc123" "application/json"
          (json "{'name':'Videofruit','owner_id':7}")].
Proof. vm_compute. reflexivity. Qed.

(** A deal whose extra fields name a title, and an organization whose
    extra fields name a name: the bodies posted have the extra values. *)
Lemma extra_fields_override_builtin_keys_witness :
  (run (fakeClient ∅)
       (CreateDeal client7
          (mkDeal 0 "Close this deal!" 1000 0 1 2 {[ "title" := VString "Other" ]}))
       tt).1.2
  = [POST "http://base/deals?api_token=abc123" "application/json"
          (json "{'org_id':2,'person_id':1,'title':'Other','user_id':7,'value':1000}")]
  /\ (run (fakeClient
             {[ "http://base/organizations/find?api_token=abc123&term=Videofruit"
                := orgNoFindResp ]})
          (FindOrCreateOrganization client
             (mkOrganization 0 "Videofruit" 0 {[ "name" := VString "Other" ]})) tt).1.2
     = [GET "http://base/organizations/find?api_token=abc123&term=Videofruit";
        POST "http://base/organizations?api_token=abc123" "application/json"
             (json "{'name':'Other'}")].
Proof.
  split.
  - eapply eq_trans;
      [ eapply proj1,
          (proj1 extra_fields_override_builtin_keys unit (fakeClient ∅) tt client7
             (mkDeal 0 "Close this deal!" 1000 0 1 2 {[ "title" := VString "Other" ]})
             "title" (VString "Other")); scenario
      | vm_compute; reflexivity ].
  - eapply eq_trans;
      [ eapply proj1,
          (proj2 extra_fields_override_builtin_keys unit
             (fakeClient
                {[ "http://base/organizations/find?api_token=abc123&term=Videofruit"
                   := orgNoFindResp ]})
             tt tt client
             (mkOrganization 0 "Videofruit" 0 {[ "name" := VString "Other" ]})
             (VString "Other")); scenario
      | vm_compute; reflexivity ].
Defined.

(** C8 fails: the error of [CreateDeal] carries the decoded envelope, and
    the error of [FindOrCreateOrganization] the body of the search
    response; neither carries the body of the create response. *)
Lemma creation_error_lacks_create_body :
  (run (fakeClient {[ "http://base/deals?api_token=abc123" := createFailedResp ]})
       (CreateDeal client (mkDeal 0 "Close this deal!" 1000 0 1 2 ∅)) tt).1.1.2
  = Returns (Some (fmt_Errorf "Error creating Pipedrive deal: %+v"
                     [VMap {[ "success" := VBool false; "data" := VNil;
                              "error" := VString "Name must be given." ]}]))
  /\ (run (fakeClient
             {[ "http://base/organizations/find?api_token=abc123&term=Videofruit"
                := orgNoFindResp;
                "http://base/organizations?api_token=abc123" := createFailedResp ]})
          (FindOrCreateOrganization client (mkOrganization 0 "Videofruit" 0 ∅)) tt).1.1.2
     = Returns (Some (fmt_Errorf "Error creating Pipedrive org: %s" [VString orgNoFindResp]))
  /\ orgNoFindResp <> createFailedResp.
Proof.
  split; [vm_compute; reflexivity |]. split; [vm_compute; reflexivity |].
  vm_compute. discriminate.
Qed.

(** The two failed creations, as [create_without_data_fails] has them. *)
Lemma create_without_data_fails_witness :
  run (fakeClient {[ "http://base/deals?api_token=abc123" := createFailedResp ]})
      (CreateDeal client (mkDeal 0 "Close this deal!" 1000 0 1 2 ∅)) tt
  = ((mkDeal 0 "Close this deal!" 1000 0 1 2 ∅,
      Returns (Some (fmt_Errorf "Error creating Pipedrive deal: %+v"
                       [VMap {[ "success" := VBool false; "data" := VNil;
                                "error" := VString "Name must be given." ]}]))),
     [POST "http://base/deals?api_token=abc123" "application/json"
           (json "{'org_id':2,'person_id':1,'title':'Close this deal!','user_id':0,'value':1000}")],
     tt)
  /\ (exists operands : list value,
         run (fakeClient
                {[ "http://base/organizations/find?api_token=abc123&term=Videofruit"
                   := orgNoFindResp;
                   "http://base/organizations?api_token=abc123" := createFailedResp ]})
             (FindOrCreateOrganization client (mkOrganization 0 "Videofruit" 0 ∅)) tt
         = ((mkOrganization 0 "Videofruit" 0 ∅,
             Returns (Some (fmt_Errorf "Error creating Pipedrive org: %s" operands))),
            [GET "http://base/organizations/find?api_token=abc123&term=Videofruit";
             POST "http://base/organizations?api_token=abc123" "application/json"
                  (json "{'name':'Videofruit'}")], tt)).
Proof.
  split.
  - eapply eq_trans;
      [ eapply proj1, (proj2 (proj2 create_without_data_fails)); scenario
      | vm_compute; reflexivity ].
  - edestruct (proj1 create_without_data_fails unit
                 (fakeClient
                    {[ "http://base/organizations/find?api_token=abc123&term=Videofruit"
                       := orgNoFindResp;
                       "http://base/organizations?api_token=abc123" := createFailedResp ]})
                 tt tt tt client (mkOrganization 0 "Videofruit" 0 ∅))
      as [operands [Hrun _]]; [scenario .. |].
    exists operands. eapply eq_trans; [exact Hrun | vm_compute; reflexivity].
Defined.

(** C9 fails: [CreateDeal] writes the [UserID] of the deal, here even
    though the request fails. *)
Lemma CreateDeal_writes_UserID :
  Deal_UserID (mkDeal 0 "Close this deal!" 1000 0 1 2 ∅) = 0%Z
  /\ run (fakeClient ∅) (CreateDeal client7 (mkDeal 0 "Close this deal!" 1000 0 1 2 ∅)) tt
     = ((mkDeal 0 "Close this deal!" 1000 7 1 2 ∅,
         Returns (Some (foreign_error
                          "URL not mocked out: http://base/deals?api_token=abc123"))),
        [POST "http://base/deals?api_token=abc123" "application/json"
              (json "{'org_id':2,'person_id':1,'title':'Close this deal!','user_id':7,'value':1000}")],
        tt).
Proof. split; [reflexivity | vm_compute; reflexivity]. Qed.

End Scenarios.

(** ** The calls an operation can issue *)

Module CallFacts.
Import GoStrings NetURL Pipedrive Views StringFacts QueryFacts ParseFacts ClientFacts.
Import UpsertSpec FrameSpec.

Section WithJSON.
Context `{JSON}.

(** What [createEntitiy] issues: nothing when the body cannot be encoded
    or the URL not built, else the one [Post]. *)
Lemma run_createEntitiy_calls {W} (h : Requestor W) (w : W) (c : Client) (path : string)
      (bodyData : fields) :
  ((run h (createEntitiy c path bodyData) w).1.2 = []
   /\ (run h (createEntitiy c path bodyData) w).2 = w
   /\ exists err, (run h (createEntitiy c path bodyData) w).1.1 = inr (∅, Some err))
  \/ (exists u body,
        json_Marshal bodyData = inr body
        /\ authenticatedURL c path = inr u
        /\ (run h (createEntitiy c path bodyData) w).1.2
           = [POST (URL_String u) "application/json" body]).
Proof.
  unfold createEntitiy.
  destruct (json_Marshal bodyData) as [e | body]; [left; simpl; eauto |].
  destruct (authenticatedURL c path) as [e | u]; [left; simpl; eauto |].
  right. exists u, body. do 2 (split; [done |]). simpl.
  destruct (Post h (URL_String u) "application/json" body w) as [[resp err] w1].
  repeat case_match; by simplify_eq/=.
Qed.

(** After [createEntitiy] an operation only inspects the result. *)
Ltac finish := repeat (simpl; case_match); simplify_eq/=.

Lemma organization_call_shape {W} (h : Requestor W) (w : W) (c : Client)
      (org : Organization) :
  search_then_create (run h (FindOrCreateOrganization c org) w).1.2.
Proof.
  unfold FindOrCreateOrganization.
  destruct (authenticatedURL c _) as [e | u]; [by left |]. simpl.
  destruct (Get h (URL_String u) w) as [[resp err] w1].
  destruct err as [err |]; [right; left; by eexists |].
  destruct resp as [resp |]; [| right; left; by eexists].
  destruct (ReadErr resp); [right; left; by eexists |].
  destruct (json_Unmarshal (Body resp)) as [e | data]; [right; left; by eexists |].
  destruct (negb (is_nil (index data "data"))).
  { destruct (first_id _); right; left; by eexists. }
  rewrite run_bind.
  destruct (run_createEntitiy_calls h w1 c "/organizations" (organization_postStruct c org))
    as [[Hc _] | [u2 [body [_ [_ Hc]]]]];
    destruct (run h (createEntitiy c "/organizations" _) w1) as [[r calls1] w2];
    simpl in Hc; subst calls1.
  - right; left. exists (URL_String u).
    destruct r as [p | [data2 [e |]]]; finish; done.
  - right; right. exists (URL_String u), (URL_String u2), body.
    destruct r as [p | [data2 [e |]]]; finish; done.
Qed.

Lemma person_call_shape {W} (h : Requestor W) (w : W) (c : Client) (newPerson : Person) :
  search_then_create (run h (FindOrCreatePerson c newPerson) w).1.2.
Proof.
  unfold FindOrCreatePerson.
  destruct (Person_Email newPerson) as [| email0 others]; [by left |].
  destruct (authenticatedURL c _) as [e | u]; [by left |]. simpl.
  destruct (Get h (URL_String u) w) as [[resp err] w1].
  destruct err as [err |]; [right; left; by eexists |].
  destruct resp as [resp |]; [| right; left; by eexists].
  destruct (ReadErr resp); [right; left; by eexists |].
  destruct (json_Unmarshal (Body resp)) as [e | data]; [right; left; by eexists |].
  destruct (negb (is_nil (index data "data"))).
  { destruct (first_id _); right; left; by eexists. }
  rewrite run_bind.
  destruct (run_createEntitiy_calls h w1 c "/persons" (person_postStruct c newPerson))
    as [[Hc _] | [u2 [body [_ [_ Hc]]]]];
    destruct (run h (createEntitiy c "/persons" _) w1) as [[r calls1] w2];
    simpl in Hc; subst calls1.
  - right; left. exists (URL_String u).
    destruct r as [p | [data2 [e |]]]; finish; done.
  - right; right. exists (URL_String u), (URL_String u2), body.
    destruct r as [p | [data2 [e |]]]; finish; done.
Qed.

Lemma deal_call_shape {W} (h : Requestor W) (w : W) (c : Client) (newDeal : Deal) :
  create_only (run h (CreateDeal c newDeal) w).1.2.
Proof.
  unfold CreateDeal. rewrite run_bind.
  destruct (run_createEntitiy_calls h w c "/deals" (deal_bodyData (default_UserID c newDeal)))
    as [[Hc _] | [u2 [body [_ [_ Hc]]]]];
    destruct (run h (createEntitiy c "/deals" _) w) as [[r calls1] w2];
    simpl in Hc; subst calls1.
  - left. destruct r as [p | [data2 [e |]]]; finish; done.
  - right. exists (URL_String u2), body.
    destruct r as [p | [data2 [e |]]]; finish; done.
Qed.

End WithJSON.
End CallFacts.

(** ** Searches: failures, matches and malformed answers *)

Module FailureSpec.
Import GoStrings NetURL Pipedrive Views StringFacts QueryFacts ParseFacts ClientFacts.
Import UpsertSpec FrameSpec CallFacts.

(** A value that is no object with a [float64] under [id] fails the
    assertions of the create path. *)
Lemma object_id_TypeAssertion (v : value) :
  (forall o f, v = VMap o -> index o "id" <> VFloat64 f) ->
  object_id v = inl TypeAssertion.
Proof.
  intros Hv. destruct v as [| | | | | | | o]; try done. simpl.
  destruct (index o "id") eqn:E; try done. by destruct (Hv o f eq_refl).
Qed.

(** The panics of the search path. *)
Lemma first_id_panics (v : value) :
  (forall o rest f, v = VSlice (VMap o :: rest) -> index o "id" <> VFloat64 f) ->
  first_id v = inl (if is_empty_slice v then IndexOutOfRange else TypeAssertion).
Proof.
  intros Hv. destruct v as [| | | | | | l |]; try done.
  destruct l as [| x l]; [done |]. simpl. apply object_id_TypeAssertion.
  intros o f ->. by apply (Hv o l f).
Qed.

(** The search path yields an id only from a list that starts with an
    object with a number under [id]. *)
Lemma first_id_inv (v : value) :
  (exists p, first_id v = inl p)
  \/ (exists o rest f, v = VSlice (VMap o :: rest) /\ index o "id" = VFloat64 f
                       /\ first_id v = inr (int_of_float64 f)).
Proof.
  destruct v as [| | | | | | l |]; try (left; by eexists).
  destruct l as [| x l]; [left; by eexists |].
  destruct x as [| | | | | | | o]; try (left; by eexists).
  simpl. destruct (index o "id") as [| | f | | | | |] eqn:Hid; try (left; by eexists).
  right. by exists o, l, f.
Qed.

Section WithJSON.
Context `{JSON}.

Ltac searched Hs :=
  let u := fresh "u" in
  let resp := fresh "resp" in
  let Hu := fresh "Hu" in
  let Hg := fresh "Hg" in
  let Hr := fresh "Hr" in
  let Hd := fresh "Hd" in
  destruct Hs as (u & resp & Hu & -> & Hg & Hr & Hd);
  rewrite Hu; simpl; rewrite Hg, Hr, Hd; simpl.

Ltac created Hc :=
  let u := fresh "u" in
  let resp := fresh "resp" in
  let Hm := fresh "Hm" in
  let Hu := fresh "Hu" in
  let Hp := fresh "Hp" in
  let Hr := fresh "Hr" in
  let Hd := fresh "Hd" in
  destruct Hc as (u & resp & Hm & Hu & -> & Hp & Hr & Hd);
  rewrite run_bind, (run_createEntitiy _ _ _ _ _ _ _ _ _ _ Hm Hu Hp Hr Hd); simpl.

(** X1.  An operation asks the transport at most twice and never
    repeats a call: the find-or-create operations issue nothing, the
    search, or the search followed by one creation; [CreateDeal] issues
    nothing or one creation.  A creation is posted as
    [application/json]. *)
Theorem calls_are_search_then_create {W} (h : Requestor W) (w : W) (c : Client) :
  (forall org : Organization,
      search_then_create (run h (FindOrCreateOrganization c org) w).1.2)
  /\ (forall newPerson : Person,
         search_then_create (run h (FindOrCreatePerson c newPerson) w).1.2)
  /\ (forall newDeal : Deal, create_only (run h (CreateDeal c newDeal) w).1.2).
Proof.
  split; [| split]; intros.
  - apply organization_call_shape.
  - apply person_call_shape.
  - apply deal_call_shape.
Qed.

(** X2.  A search that fails is returned as it failed: when the
    transport returns an error (with whatever response), or the body
    cannot be read to its end, or [json.Unmarshal] refuses it, the
    operation returns that very error after the one [Get], leaves the
    entity untouched and creates nothing. *)
Theorem failed_search_is_returned :
  (forall W (h : Requestor W) (w w' : W) (c : Client) (org : Organization) (u : URL)
          (answer : reply) (err : error),
      authenticatedURL c ("/organizations/find?term=" +:+ Organization_Name org) = inr u ->
      Get h (URL_String u) w = (answer, w') ->
      answer_fails answer err ->
      run h (FindOrCreateOrganization c org) w
      = ((org, Returns (Some err)), [GET (URL_String u)], w'))
  /\ (forall W (h : Requestor W) (w w' : W) (c : Client) (newPerson : Person)
             (email : string) (others : list string) (u : URL)
             (answer : reply) (err : error),
         Person_Email newPerson = email :: others ->
         authenticatedURL c ("/persons/find?search_by_email=1&term=" +:+ email) = inr u ->
         Get h (URL_String u) w = (answer, w') ->
         answer_fails answer err ->
         run h (FindOrCreatePerson c newPerson) w
         = ((newPerson, Returns (Some err)), [GET (URL_String u)], w')).
Proof.
  split.
  - intros * Hu Hg Hf. unfold FindOrCreateOrganization. rewrite Hu. simpl. rewrite Hg.
    destruct Hf as [[resp ->] | [resp [-> [-> | [-> ->]]]]]; done.
  - intros * He Hu Hg Hf. unfold FindOrCreatePerson. rewrite He, Hu. simpl. rewrite Hg.
    destruct Hf as [[resp ->] | [resp [-> [-> | [-> ->]]]]]; done.
Qed.

(** X3.  Whenever the search envelope has a [data] that is not null,
    nothing is posted and no error is returned: after the one [Get] the
    operation either has stored the id of the first match, [data]
    being a list that starts with an object with a number under [id],
    and returns nil, or panics with the entity untouched. *)
Theorem found_data_never_creates :
  (forall W (h : Requestor W) (w w' : W) (c : Client) (org : Organization)
          (url : string) (data : fields),
      search_answered h c ("/organizations/find?term=" +:+ Organization_Name org)
                      url w w' data ->
      is_nil (index data "data") = false ->
      (exists (o : fields) (rest : list value) (f : Q),
          index data "data" = VSlice (VMap o :: rest)
          /\ index o "id" = VFloat64 f
          /\ run h (FindOrCreateOrganization c org) w
             = ((set_Organization_ID org (int_of_float64 f), Returns None), [GET url], w'))
      \/ (exists p : panic,
             run h (FindOrCreateOrganization c org) w = ((org, Panics p), [GET url], w')))
  /\ (forall W (h : Requestor W) (w w' : W) (c : Client) (newPerson : Person)
             (email : string) (others : list string) (url : string) (data : fields),
         Person_Email newPerson = email :: others ->
         search_answered h c ("/persons/find?search_by_email=1&term=" +:+ email)
                         url w w' data ->
         is_nil (index data "data") = false ->
         (exists (o : fields) (rest : list value) (f : Q),
             index data "data" = VSlice (VMap o :: rest)
             /\ index o "id" = VFloat64 f
             /\ run h (FindOrCreatePerson c newPerson) w
                = ((set_Person_ID newPerson (int_of_float64 f), Returns None),
                   [GET url], w'))
         \/ (exists p : panic,
                run h (FindOrCreatePerson c newPerson) w
                = ((newPerson, Panics p), [GET url], w'))).
Proof.
  split.
  - intros * Hs Hn. unfold FindOrCreateOrganization. searched Hs.
    rewrite Hn. simpl. destruct (first_id_inv (index data "data")) as [Hp | Hid].
    + destruct Hp as [p ->]. right. by exists p.
    + destruct Hid as (o & rest & f & Hdata & Hf & ->). left. by exists o, rest, f.
  - intros * He Hs Hn. unfold FindOrCreatePerson. rewrite He. searched Hs.
    rewrite Hn. simpl. destruct (first_id_inv (index data "data")) as [Hp | Hid].
    + destruct Hp as [p ->]. right. by exists p.
    + destruct Hid as (o & rest & f & Hdata & Hf & ->). left. by exists o, rest, f.
Qed.

(** X4.  A search envelope whose [data] is not null and is not a list
    that starts with an object with a number under [id] makes both
    operations panic after the one [Get], with the entity untouched: on
    [data[0]] with an index out of range when [data] is an empty list
    (an empty list is not read as "not found"), on a type assertion
    otherwise. *)
Theorem malformed_search_data_panics :
  (forall W (h : Requestor W) (w w' : W) (c : Client) (org : Organization)
          (url : string) (data : fields),
      search_answered h c ("/organizations/find?term=" +:+ Organization_Name org)
                      url w w' data ->
      is_nil (index data "data") = false ->
      (forall o rest f, index data "data" = VSlice (VMap o :: rest) ->
                        index o "id" <> VFloat64 f) ->
      run h (FindOrCreateOrganization c org) w
      = ((org, Panics (if is_empty_slice (index data "data") then IndexOutOfRange
                       else TypeAssertion)), [GET url], w'))
  /\ (forall W (h : Requestor W) (w w' : W) (c : Client) (newPerson : Person)
             (email : string) (others : list string) (url : string) (data : fields),
         Person_Email newPerson = email :: others ->
         search_answered h c ("/persons/find?search_by_email=1&term=" +:+ email)
                         url w w' data ->
         is_nil (index data "data") = false ->
         (forall o rest f, index data "data" = VSlice (VMap o :: rest) ->
                           index o "id" <> VFloat64 f) ->
         run h (FindOrCreatePerson c newPerson) w
         = ((newPerson, Panics (if is_empty_slice (index data "data") then IndexOutOfRange
                                else TypeAssertion)), [GET url], w')).
Proof.
  split.
  - intros * Hs Hn Hv. unfold FindOrCreateOrganization. searched Hs.
    rewrite Hn. simpl. by rewrite (first_id_panics _ Hv).
  - intros * He Hs Hn Hv. unfold FindOrCreatePerson. rewrite He. searched Hs.
    rewrite Hn. simpl. by rewrite (first_id_panics _ Hv).
Qed.

End WithJSON.
End FailureSpec.

(** ** Creations *)

Module CreateSpec.
Import GoStrings NetURL Pipedrive Views StringFacts QueryFacts ParseFacts ClientFacts.
Import UpsertSpec FrameSpec CallFacts FailureSpec.

Lemma quot_towards_zero (n d lo hi : Z) :
  (0 < d)%Z -> (lo <= 0 <= hi)%Z -> (lo * d <= n)%Z -> (n <= hi * d)%Z ->
  (lo <= Z.quot n d <= hi)%Z
  /\ ((0 <= n)%Z -> (Z.quot n d * d <= n < (Z.quot n d + 1) * d)%Z)
  /\ ((n <= 0)%Z -> ((Z.quot n d - 1) * d < n <= Z.quot n d * d)%Z).
Proof.
  intros Hd Hlh Hlo Hhi. pose proof (Z.quot_rem' n d) as Hqr.
  destruct (Z.le_gt_cases 0 n) as [Hn | Hn].
  - pose proof (Z.rem_bound_pos n d Hn Hd) as Hr.
    pose proof (Z.quot_pos n d Hn Hd) as Hq.
    revert Hqr Hr Hq. generalize (Z.quot n d) (Z.rem n d). intros q r Hqr Hr Hq.
    assert (q <= hi)%Z by (apply (Z.mul_le_mono_pos_r _ _ d); lia).
    split; [lia |]. split; intros; lia.
  - assert (n <= 0)%Z as Hn' by lia.
    pose proof (Z.rem_bound_pos_neg n d Hd Hn') as Hr.
    pose proof (Z.quot_le_mono n 0 d Hd Hn') as Hq. rewrite Z.quot_0_l in Hq by lia.
    revert Hqr Hr Hq. generalize (Z.quot n d) (Z.rem n d). intros q r Hqr Hr Hq.
    assert (lo <= q)%Z by (apply (Z.mul_le_mono_pos_r _ _ d); lia).
    split; [lia |]. split; intros; lia.
Qed.

(** [int(f)] discards the fraction: the result is the integer next to
    [f] towards zero. *)
Lemma int_of_float64_truncates (f : Q) :
  (inject_Z minInt <= f)%Q -> (f <= inject_Z maxInt)%Q ->
  (minInt <= int_of_float64 f <= maxInt)%Z
  /\ ((0 <= f)%Q ->
      (inject_Z (int_of_float64 f) <= f)%Q /\ (f < inject_Z (int_of_float64 f) + 1)%Q)
  /\ ((f <= 0)%Q ->
      (inject_Z (int_of_float64 f) - 1 < f)%Q /\ (f <= inject_Z (int_of_float64 f))%Q).
Proof.
  destruct f as [n d]. unfold int_of_float64.
  cbn [Qnum Qden]. intros Hlo Hhi.
  unfold Qle in Hlo, Hhi. cbn [Qnum Qden inject_Z] in Hlo, Hhi.
  rewrite Z.mul_1_r in Hlo, Hhi.
  assert (minInt <= 0 <= maxInt)%Z as Hmm by (split; discriminate).
  destruct (quot_towards_zero n (Z.pos d) minInt maxInt) as [[H1 H2] [Hpos Hneg]];
    [lia | done | done | done |].
  apply Z.leb_le in H1 as H1', H2 as H2'. rewrite H1', H2'. cbn [andb].
  split; [done |].
  clear - Hpos Hneg. revert Hpos Hneg. generalize (Z.quot n (Z.pos d)). intros q Hpos Hneg.
  unfold Qminus, Qopp, Qplus, Qle, Qlt. cbn [Qnum Qden inject_Z].
  change (Z.pos (1 * 1)) with 1%Z. change (Z.pos 1) with 1%Z.
  split; intros Hn; [specialize (Hpos ltac:(lia)) | specialize (Hneg ltac:(lia))]; lia.
Qed.

Lemma default_UserID_UserID (c : Client) (newDeal : Deal) :
  Deal_UserID (default_UserID c newDeal)
  = if Z.eqb (Deal_UserID newDeal) 0 then DefaultUserID c else Deal_UserID newDeal.
Proof.
  unfold default_UserID.
  destruct (Z.eqb_spec (DefaultUserID c) 0) as [Hd | Hd];
    destruct (Z.eqb_spec (Deal_UserID newDeal) 0) as [Hu | Hu]; simpl; congruence.
Qed.

Section WithJSON.
Context `{JSON}.

Ltac searched Hs :=
  let u := fresh "u" in
  let resp := fresh "resp" in
  let Hu := fresh "Hu" in
  let Hg := fresh "Hg" in
  let Hr := fresh "Hr" in
  let Hd := fresh "Hd" in
  destruct Hs as (u & resp & Hu & -> & Hg & Hr & Hd);
  rewrite Hu; simpl; rewrite Hg, Hr, Hd; simpl.

Ltac created Hc :=
  let u := fresh "u" in
  let resp := fresh "resp" in
  let Hm := fresh "Hm" in
  let Hu := fresh "Hu" in
  let Hp := fresh "Hp" in
  let Hr := fresh "Hr" in
  let Hd := fresh "Hd" in
  destruct Hc as (u & resp & Hm & Hu & -> & Hp & Hr & Hd);
  rewrite run_bind, (run_createEntitiy _ _ _ _ _ _ _ _ _ _ Hm Hu Hp Hr Hd); simpl.

(** X5.  An id with a fraction is cut, not rounded: when the first
    match of the search carries the number [f], within the range of
    [int], the [ID] stored is the integer next to [f] towards zero. *)
Theorem fractional_id_is_truncated :
  (forall W (h : Requestor W) (w w' : W) (c : Client) (org : Organization)
          (url : string) (data o : fields) (rest : list value) (f : Q),
      search_answered h c ("/organizations/find?term=" +:+ Organization_Name org)
                      url w w' data ->
      index data "data" = VSlice (VMap o :: rest) ->
      index o "id" = VFloat64 f ->
      (inject_Z minInt <= f)%Q -> (f <= inject_Z maxInt)%Q ->
      exists id : Z,
        run h (FindOrCreateOrganization c org) w
        = ((set_Organization_ID org id, Returns None), [GET url], w')
        /\ ((0 <= f)%Q -> (inject_Z id <= f)%Q /\ (f < inject_Z id + 1)%Q)
        /\ ((f <= 0)%Q -> (inject_Z id - 1 < f)%Q /\ (f <= inject_Z id)%Q))
  /\ (forall W (h : Requestor W) (w w' : W) (c : Client) (newPerson : Person)
             (email : string) (others : list string) (url : string) (data o : fields)
             (rest : list value) (f : Q),
         Person_Email newPerson = email :: others ->
         search_answered h c ("/persons/find?search_by_email=1&term=" +:+ email)
                         url w w' data ->
         index data "data" = VSlice (VMap o :: rest) ->
         index o "id" = VFloat64 f ->
         (inject_Z minInt <= f)%Q -> (f <= inject_Z maxInt)%Q ->
         exists id : Z,
           run h (FindOrCreatePerson c newPerson) w
           = ((set_Person_ID newPerson id, Returns None), [GET url], w')
           /\ ((0 <= f)%Q -> (inject_Z id <= f)%Q /\ (f < inject_Z id + 1)%Q)
           /\ ((f <= 0)%Q -> (inject_Z id - 1 < f)%Q /\ (f <= inject_Z id)%Q)).
Proof.
  split.
  - intros * Hs Hdata Hid Hlo Hhi. exists (int_of_float64 f).
    split; [| apply (int_of_float64_truncates f Hlo Hhi)].
    unfold FindOrCreateOrganization. searched Hs. rewrite Hdata. simpl. by rewrite Hid.
  - intros * He Hs Hdata Hid Hlo Hhi. exists (int_of_float64 f).
    split; [| apply (int_of_float64_truncates f Hlo Hhi)].
    unfold FindOrCreatePerson. rewrite He. searched Hs. rewrite Hdata. simpl. by rewrite Hid.
Qed.

(** X6.  A creation that fails is returned as it failed: when the
    transport returns an error on the [Post], or the body of the
    response cannot be read to its end, or [json.Unmarshal] refuses it,
    the operation returns that very error after the calls made so far;
    the entity keeps its [ID]. *)
Theorem failed_creation_is_returned :
  (forall W (h : Requestor W) (w w1 w2 : W) (c : Client) (org : Organization)
          (url body : string) (data : fields) (u2 : URL) (answer : reply) (err : error),
      search_answered h c ("/organizations/find?term=" +:+ Organization_Name org)
                      url w w1 data ->
      index data "data" = VNil ->
      json_Marshal (organization_postStruct c org) = inr body ->
      authenticatedURL c "/organizations" = inr u2 ->
      Post h (URL_String u2) "application/json" body w1 = (answer, w2) ->
      answer_fails answer err ->
      run h (FindOrCreateOrganization c org) w
      = ((org, Returns (Some err)),
         [GET url; POST (URL_String u2) "application/json" body], w2))
  /\ (forall W (h : Requestor W) (w w1 w2 : W) (c : Client) (newPerson : Person)
             (email : string) (others : list string) (url body : string) (data : fields)
             (u2 : URL) (answer : reply) (err : error),
         Person_Email newPerson = email :: others ->
         search_answered h c ("/persons/find?search_by_email=1&term=" +:+ email)
                         url w w1 data ->
         index data "data" = VNil ->
         json_Marshal (person_postStruct c newPerson) = inr body ->
         authenticatedURL c "/persons" = inr u2 ->
         Post h (URL_String u2) "application/json" body w1 = (answer, w2) ->
         answer_fails answer err ->
         run h (FindOrCreatePerson c newPerson) w
         = ((newPerson, Returns (Some err)),
            [GET url; POST (URL_String u2) "application/json" body], w2))
  /\ (forall W (h : Requestor W) (w w2 : W) (c : Client) (newDeal : Deal)
             (body : string) (u2 : URL) (answer : reply) (err : error),
         json_Marshal (deal_bodyData (default_UserID c newDeal)) = inr body ->
         authenticatedURL c "/deals" = inr u2 ->
         Post h (URL_String u2) "application/json" body w = (answer, w2) ->
         answer_fails answer err ->
         run h (CreateDeal c newDeal) w
         = ((default_UserID c newDeal, Returns (Some err)),
            [POST (URL_String u2) "application/json" body], w2)).
Proof.
  split; [| split].
  - intros * Hs Hdata Hm Hu2 Hp Hf. unfold FindOrCreateOrganization. searched Hs.
    rewrite Hdata. simpl. rewrite run_bind. unfold createEntitiy.
    rewrite Hm, Hu2. simpl. rewrite Hp.
    destruct Hf as [[resp2 ->] | [resp2 [-> [-> | [-> ->]]]]]; done.
  - intros * He Hs Hdata Hm Hu2 Hp Hf. unfold FindOrCreatePerson. rewrite He. searched Hs.
    rewrite Hdata. simpl. rewrite run_bind. unfold createEntitiy.
    rewrite Hm, Hu2. simpl. rewrite Hp.
    destruct Hf as [[resp2 ->] | [resp2 [-> [-> | [-> ->]]]]]; done.
  - intros * Hm Hu2 Hp Hf. unfold CreateDeal. rewrite run_bind. unfold createEntitiy.
    rewrite Hm, Hu2. simpl. rewrite Hp.
    destruct Hf as [[resp2 ->] | [resp2 [-> [-> | [-> ->]]]]]; done.
Qed.

(** X8.  [CreateDeal] never searches: when the create response decodes
    to an envelope whose [data] is an object of numeric id [M], the deal
    gets [ID = M] (and the default user id, if its own was zero), no
    error is returned, and the one call is the [Post]. *)
Theorem deal_created_with_one_post {W} (h : Requestor W) (w w' : W) (c : Client)
        (newDeal : Deal) (url body : string) (data o : fields) (M : Z) :
  create_answered h c "/deals" (deal_bodyData (default_UserID c newDeal))
                  url body w w' data ->
  index data "data" = VMap o ->
  index o "id" = VFloat64 (inject_Z M) ->
  (minInt <= M <= maxInt)%Z ->
  run h (CreateDeal c newDeal) w
  = ((set_Deal_ID (default_UserID c newDeal) M, Returns None),
     [POST url "application/json" body], w').
Proof.
  intros Hc Hdata Hid HM. unfold CreateDeal. created Hc.
  rewrite Hdata. simpl. by rewrite Hid, int_of_float64_inject_Z.
Qed.

(** X9.  What [CreateDeal] sends.  When the mapping can be encoded and
    the URL built, the one call of the operation, whatever the answer,
    is the [Post] of the encoding of the mapping that has each key of
    the deal's [Fields] with its value, and under the other keys the
    title, the value, the person and the organization of the deal, and
    as [user_id] the deal's own user id, or the client's default when
    the deal's is zero. *)
Theorem deal_payload {W} (h : Requestor W) (w : W) (c : Client) (newDeal : Deal)
        (u : URL) (postBody : string) :
  json_Marshal (deal_bodyData (default_UserID c newDeal)) = inr postBody ->
  authenticatedURL c "/deals" = inr u ->
  (run h (CreateDeal c newDeal) w).1.2
  = [POST (URL_String u) "application/json" postBody]
  /\ forall k : string,
      deal_bodyData (default_UserID c newDeal) !! k
      = match Deal_Fields newDeal !! k with
        | Some v => Some v
        | None =>
            if String.eqb k "title" then Some (VString (Deal_Title newDeal))
            else if String.eqb k "value" then Some (VInt (Deal_Value newDeal))
            else if String.eqb k "user_id" then
              Some (VInt (if Z.eqb (Deal_UserID newDeal) 0 then DefaultUserID c
                          else Deal_UserID newDeal))
            else if String.eqb k "person_id" then Some (VInt (Deal_PersonID newDeal))
            else if String.eqb k "org_id" then Some (VInt (Deal_OrganizationID newDeal))
            else None
        end.
Proof.
  intros Hm Hu. split; [by apply CreateDeal_posts |]. intros k.
  unfold deal_bodyData. rewrite merge_fields_lookup.
  assert (Deal_Fields (default_UserID c newDeal) = Deal_Fields newDeal) as ->
    by (unfold default_UserID; by case_match).
  destruct (Deal_Fields newDeal !! k); [done |].
  rewrite default_UserID_UserID.
  assert (Deal_Title (default_UserID c newDeal) = Deal_Title newDeal
          /\ Deal_Value (default_UserID c newDeal) = Deal_Value newDeal
          /\ Deal_PersonID (default_UserID c newDeal) = Deal_PersonID newDeal
          /\ Deal_OrganizationID (default_UserID c newDeal) = Deal_OrganizationID newDeal)
    as (-> & -> & -> & ->) by (unfold default_UserID; by case_match).
  repeat (rewrite lookup_insert; case_decide;
          [ subst; reflexivity
          | match goal with
            | Hne : _ <> ?k |- _ =>
                apply not_eq_sym, String.eqb_neq in Hne; rewrite Hne; clear Hne
            end ]).
  by rewrite lookup_empty.
Qed.

(** X10.  A create response whose [data] is neither null nor an object
    with a number under [id] (a list, say, or an object without id)
    makes the operation panic on its type assertions, after the
    creation was posted; the entity keeps its [ID]. *)
Theorem create_answer_without_id_panics :
  (forall W (h : Requestor W) (w w1 w2 : W) (c : Client) (org : Organization)
          (url url2 body : string) (data data2 : fields),
      search_answered h c ("/organizations/find?term=" +:+ Organization_Name org)
                      url w w1 data ->
      index data "data" = VNil ->
      create_answered h c "/organizations" (organization_postStruct c org)
                      url2 body w1 w2 data2 ->
      is_nil (index data2 "data") = false ->
      (forall o f, index data2 "data" = VMap o -> index o "id" <> VFloat64 f) ->
      run h (FindOrCreateOrganization c org) w
      = ((org, Panics TypeAssertion), [GET url; POST url2 "application/json" body], w2))
  /\ (forall W (h : Requestor W) (w w1 w2 : W) (c : Client) (newPerson : Person)
             (email : string) (others : list string) (url url2 body : string)
             (data data2 : fields),
         Person_Email newPerson = email :: others ->
         search_answered h c ("/persons/find?search_by_email=1&term=" +:+ email)
                         url w w1 data ->
         index data "data" = VNil ->
         create_answered h c "/persons" (person_postStruct c newPerson)
                         url2 body w1 w2 data2 ->
         is_nil (index data2 "data") = false ->
         (forall o f, index data2 "data" = VMap o -> index o "id" <> VFloat64 f) ->
         run h (FindOrCreatePerson c newPerson) w
         = ((newPerson, Panics TypeAssertion),
            [GET url; POST url2 "application/json" body], w2))
  /\ (forall W (h : Requestor W) (w w2 : W) (c : Client) (newDeal : Deal)
             (url2 body : string) (data2 : fields),
         create_answered h c "/deals" (deal_bodyData (default_UserID c newDeal))
                         url2 body w w2 data2 ->
         is_nil (index data2 "data") = false ->
         (forall o f, index data2 "data" = VMap o -> index o "id" <> VFloat64 f) ->
         run h (CreateDeal c newDeal) w
         = ((default_UserID c newDeal, Panics TypeAssertion),
            [POST url2 "application/json" body], w2)).
Proof.
  split; [| split].
  - intros * Hs Hdata Hc Hn Hv. unfold FindOrCreateOrganization. searched Hs.
    rewrite Hdata. simpl. created Hc. rewrite Hn. simpl.
    by rewrite (object_id_TypeAssertion _ Hv).
  - intros * He Hs Hdata Hc Hn Hv. unfold FindOrCreatePerson. rewrite He. searched Hs.
    rewrite Hdata. simpl. created Hc. rewrite Hn. simpl.
    by rewrite (object_id_TypeAssertion _ Hv).
  - intros * Hc Hn Hv. unfold CreateDeal. created Hc. rewrite Hn. simpl.
    by rewrite (object_id_TypeAssertion _ Hv).
Qed.

End WithJSON.
End CreateSpec.

(** ** What the operations read of their input *)

Module InputSpec.
Import GoStrings NetURL Pipedrive Views StringFacts QueryFacts ParseFacts ClientFacts.
Import UpsertSpec FrameSpec CallFacts.

Lemma merge_fields_in_union (entries : list (string * value)) (postStruct : fields) :
  NoDup entries.*1 ->
  merge_fields_in entries postStruct = list_to_map entries ∪ postStruct.
Proof.
  unfold merge_fields_in. revert postStruct.
  induction entries as [| [k v] entries IH]; intros postStruct Hnd.
  - simpl. by rewrite (left_id_L ∅ (∪)).
  - apply NoDup_cons in Hnd as [Hk Hnd]. cbn [fold_left list_to_map foldr fst snd].
    rewrite IH by done. rewrite <- insert_union_l.
    apply eq_sym, insert_union_r. by apply not_elem_of_list_to_map_1.
Qed.

(** X11.  The creation payload does not depend on the order in which
    Go's map iteration yields the extra fields: whatever the order of
    the entries, the range loop builds the mapping the operations
    post, the extra fields over the built-in keys. *)
Theorem merge_fields_order_irrelevant (entries : list (string * value))
        (postStruct extra : fields) :
  entries ≡ₚ map_to_list extra ->
  merge_fields_in entries postStruct = merge_fields postStruct extra
  /\ merge_fields postStruct extra = extra ∪ postStruct.
Proof.
  intros Hp. split; [| apply merge_fields_union].
  rewrite merge_fields_union, merge_fields_in_union.
  - f_equal. rewrite <- (list_to_map_to_list extra).
    apply list_to_map_proper; [| done]. rewrite Hp. apply NoDup_fst_map_to_list.
  - rewrite Hp. apply NoDup_fst_map_to_list.
Qed.

Lemma all_bytes_app (p : ascii -> bool) (a b : string) :
  all_bytes p (a +:+ b) = all_bytes p a && all_bytes p b.
Proof.
  induction a as [| c a IH]; [done |].
  rewrite append_cons. simpl. rewrite IH. by rewrite andb_assoc.
Qed.

Lemma stringContainsCTLByte_app (a b : string) :
  stringContainsCTLByte (a +:+ b) = stringContainsCTLByte a || stringContainsCTLByte b.
Proof. unfold stringContainsCTLByte. rewrite all_bytes_app. apply negb_andb. Qed.

(** [url.Parse] refuses a URL with a control byte outside its fragment. *)
Lemma Parse_control_byte (rawURL : string) :
  stringContainsCTLByte rawURL = true -> mem_byte "#" rawURL = false ->
  Parse rawURL = inl (mkError "parse" rawURL ErrControlCharacter).
Proof.
  intros Hc Hf. unfold Parse, Cut. rewrite (cut_byte_none "#" rawURL Hf).
  unfold parse. by rewrite Hc.
Qed.

Section WithJSON.
Context `{JSON}.

(** X12.  A name or an email with an ASCII control byte (a tab, a line
    break) never reaches the network: the URL of the search is refused
    by [url.Parse], the operation returns that error without a call
    and leaves the entity as it was. *)
Theorem control_byte_in_search_key_rejected :
  (forall W (h : Requestor W) (w : W) (c : Client) (org : Organization),
      stringContainsCTLByte (Organization_Name org) = true ->
      mem_byte "#" (BaseURL c) = false ->
      mem_byte "#" (Organization_Name org) = false ->
      run h (FindOrCreateOrganization c org) w
      = ((org,
          Returns (Some (url_Error
            (mkError "parse"
               (BaseURL c +:+ "/organizations/find?term=" +:+ Organization_Name org)
               ErrControlCharacter)))), [], w))
  /\ (forall W (h : Requestor W) (w : W) (c : Client) (newPerson : Person)
             (email : string) (others : list string),
         Person_Email newPerson = email :: others ->
         stringContainsCTLByte email = true ->
         mem_byte "#" (BaseURL c) = false ->
         mem_byte "#" email = false ->
         run h (FindOrCreatePerson c newPerson) w
         = ((newPerson,
             Returns (Some (url_Error
               (mkError "parse"
                  (BaseURL c +:+ "/persons/find?search_by_email=1&term=" +:+ email)
                  ErrControlCharacter)))), [], w)).
Proof.
  split.
  - intros * Hc Hb Hn. unfold FindOrCreateOrganization, authenticatedURL.
    rewrite Parse_control_byte; [done | |].
    + rewrite !stringContainsCTLByte_app, Hc. by rewrite !orb_true_r.
    + by rewrite !mem_byte_app, Hb, Hn.
  - intros * He Hc Hb Hn. unfold FindOrCreatePerson, authenticatedURL. rewrite He.
    rewrite Parse_control_byte; [done | |].
    + rewrite !stringContainsCTLByte_app, Hc. by rewrite !orb_true_r.
    + by rewrite !mem_byte_app, Hb, Hn.
Qed.

Ltac finish := repeat (simpl; case_match); simplify_eq/=.

(** X13.  The fields the operations never read have no effect: the
    [OwnerID] of an organization, and the [OwnerID] and the [Phone] of a
    person, change neither the calls, nor the outcome, nor the [ID]
    stored; they come back as they were passed. *)
Theorem unread_fields_are_ignored {W} (h : Requestor W) (w : W) (c : Client) :
  (forall (org : Organization) (owner : Z),
      run h (FindOrCreateOrganization c (with_Organization_OwnerID org owner)) w
      = ((with_Organization_OwnerID
            (run h (FindOrCreateOrganization c org) w).1.1.1 owner,
          (run h (FindOrCreateOrganization c org) w).1.1.2),
         (run h (FindOrCreateOrganization c org) w).1.2,
         (run h (FindOrCreateOrganization c org) w).2))
  /\ (forall (newPerson : Person) (owner : Z) (phones : list string),
         run h (FindOrCreatePerson c (with_Person_unread newPerson owner phones)) w
         = ((with_Person_unread
               (run h (FindOrCreatePerson c newPerson) w).1.1.1 owner phones,
             (run h (FindOrCreatePerson c newPerson) w).1.1.2),
            (run h (FindOrCreatePerson c newPerson) w).1.2,
            (run h (FindOrCreatePerson c newPerson) w).2)).
Proof.
  split.
  - intros [id name owner0 extra] owner.
    unfold with_Organization_OwnerID, FindOrCreateOrganization. simpl.
    destruct (authenticatedURL c _) as [e | u]; [done |]. simpl.
    destruct (Get h (URL_String u) w) as [[resp err] w1].
    destruct err as [err |]; [done |]. destruct resp as [resp |]; [| done].
    destruct (ReadErr resp); [done |].
    destruct (json_Unmarshal (Body resp)) as [e | data]; [done |].
    destruct (negb (is_nil (index data "data"))); [by destruct (first_id _) |].
    rewrite !run_bind.
    change (organization_postStruct c (mkOrganization id name owner extra))
      with (organization_postStruct c (mkOrganization id name owner0 extra)).
    destruct (run h (createEntitiy c "/organizations" _) w1) as [[r calls1] w2].
    destruct r as [p | [data2 [e |]]]; finish; done.
  - intros [id owner0 orgid name emails phones0] owner phones.
    unfold with_Person_unread, FindOrCreatePerson. simpl.
    destruct emails as [| email0 others]; [done |].
    destruct (authenticatedURL c _) as [e | u]; [done |]. simpl.
    destruct (Get h (URL_String u) w) as [[resp err] w1].
    destruct err as [err |]; [done |]. destruct resp as [resp |]; [| done].
    destruct (ReadErr resp); [done |].
    destruct (json_Unmarshal (Body resp)) as [e | data]; [done |].
    destruct (negb (is_nil (index data "data"))); [by destruct (first_id _) |].
    rewrite !run_bind.
    change (person_postStruct c (mkPerson id owner orgid name (email0 :: others) phones))
      with (person_postStruct c (mkPerson id owner0 orgid name (email0 :: others) phones0)).
    destruct (run h (createEntitiy c "/persons" _) w1) as [[r calls1] w2].
    destruct r as [p | [data2 [e |]]]; finish; done.
Qed.

End WithJSON.
End InputSpec.

(** ** The search request on the wire *)

Module WireSpec.
Import GoStrings NetURL Pipedrive Views StringFacts QueryFacts ParseFacts ClientFacts.
Import UpsertSpec FrameSpec URLSpec InputSpec.

(** *** The query [url.Parse] finds *)

Lemma getScheme_from_rest (b q rawURL : string) (i : nat) (scheme rest : string) :
  mem_byte "?" b = false ->
  getScheme_from i rawURL (b +:+ String "?" q) = inr (scheme, rest) ->
  rest = rawURL \/ exists b', rest = b' +:+ String "?" q /\ mem_byte "?" b' = false.
Proof.
  revert i. induction b as [| c b IH]; intros i Hb.
  - rewrite append_nil_l.
    assert (getScheme_from i rawURL (String "?" q) = inr (EmptyString, rawURL)) as ->
      by reflexivity.
    intros ?; simplify_eq. by left.
  - rewrite append_cons. simpl in Hb. apply orb_false_elim in Hb as [Hc Hb].
    cbn [getScheme_from].
    destruct (is_lower c || is_upper c); [by apply IH |].
    destruct (is_digit c || mem_byte c "+-.").
    { destruct i; [intros ?; simplify_eq; by left | by apply IH]. }
    destruct (Ascii.eqb c ":").
    { destruct i; [done |]. intros ?; simplify_eq. right. by exists b. }
    intros ?; simplify_eq. by left.
Qed.

Lemma count_byte_app (c : ascii) (a b : string) :
  count_byte c (a +:+ b) = count_byte c a + count_byte c b.
Proof.
  induction a as [| x a IH]; [done |]. rewrite append_cons. simpl. rewrite IH. lia.
Qed.

Lemma strip_last_count (c : ascii) (s s' : string) :
  strip_last c s = Some s' -> 1 <= count_byte c s.
Proof.
  revert s'. induction s as [| d s IH]; intros s'; [done |]. simpl.
  destruct s as [| e s].
  - destruct (Ascii.eqb c d); [simpl; lia | done].
  - destruct (strip_last c (String e s)) as [t |]; [| done].
    intros _. specialize (IH t eq_refl). lia.
Qed.

Lemma strip_last_app (c : ascii) (a b : string) :
  b <> EmptyString ->
  strip_last c (a +:+ b) = (fun t => a +:+ t) <$> strip_last c b.
Proof.
  intros Hb. induction a as [| x a IH].
  - rewrite append_nil_l. by destruct (strip_last c b).
  - rewrite append_cons. cbn [strip_last]. rewrite IH.
    destruct (a +:+ b) eqn:E.
    + destruct a; [by rewrite append_nil_l in E | by rewrite append_cons in E].
    + by destruct (strip_last c b).
Qed.

(** The query is what follows the first [?]. *)
Lemma split_query_app (b q : string) :
  mem_byte "?" b = false -> q <> EmptyString ->
  split_query (b +:+ String "?" q) = (b, q, false).
Proof.
  intros Hb Hq. unfold split_query.
  assert ((let '(r, q', _) := Cut (b +:+ String "?" q) "?" in (r, q', false))
          = (b, q, false)) as Hcut by (unfold Cut; by rewrite cut_byte_app).
  destruct (strip_last "?" (b +:+ String "?" q)) as [rest' |] eqn:Hs; [| done].
  assert (2 <= count_byte "?" (b +:+ String "?" q)) as Hcount.
  { rewrite count_byte_app. simpl.
    change (String "?" q) with ("?" +:+ q) in Hs.
    rewrite <- append_assoc, strip_last_app in Hs by done.
    destruct (strip_last "?" q) as [t |] eqn:Hq'; [| done].
    apply strip_last_count in Hq'. lia. }
  destruct (Nat.eqb_spec (count_byte "?" (b +:+ String "?" q)) 1); [lia | done].
Qed.

Lemma setPath_RawQuery (u0 u : URL) (p : string) :
  setPath u0 p = inr u -> RawQuery u = RawQuery u0 /\ Fragment u = Fragment u0.
Proof. unfold setPath. destruct (unescape p encodePath); [done |]. by intros [= <-]. Qed.

Lemma parse_RawQuery (b q : string) (u : URL) :
  mem_byte "?" b = false -> q <> EmptyString ->
  parse (b +:+ String "?" q) = inr u -> RawQuery u = q /\ Fragment u = EmptyString.
Proof.
  intros Hb Hq. unfold parse.
  destruct (stringContainsCTLByte _); [done |].
  destruct (String.eqb_spec (b +:+ String "?" q) "*") as [Hstar | _].
  { exfalso. assert (mem_byte "?" (b +:+ String "?" q) = mem_byte "?" "*") as Hm
      by by rewrite Hstar.
    rewrite mem_byte_app in Hm. simpl in Hm. by rewrite orb_true_r in Hm. }
  destruct (getScheme (b +:+ String "?" q)) as [e | [scheme rest]] eqn:Hg; [done |].
  assert (exists b', rest = b' +:+ String "?" q /\ mem_byte "?" b' = false)
    as [b' [-> Hb']].
  { destruct (getScheme_from_rest b q _ 0 scheme rest Hb Hg) as [-> | Hr]; [| done].
    by exists b. }
  rewrite (split_query_app b' q Hb' Hq).
  repeat case_match; try done;
    try (intros [= <-]; done);
    try (intros [? ?]%setPath_RawQuery; done).
Qed.

(** For a base without [?] and [#] and a query without [#], the parsed
    URL has that query and no fragment. *)
Lemma Parse_RawQuery (b q : string) (u : URL) :
  mem_byte "?" b = false -> mem_byte "#" b = false ->
  mem_byte "#" q = false -> q <> EmptyString ->
  Parse (b +:+ String "?" q) = inr u -> RawQuery u = q /\ Fragment u = EmptyString.
Proof.
  intros Hb Hbf Hqf Hq. unfold Parse, Cut.
  rewrite cut_byte_none by (rewrite mem_byte_app; simpl; by rewrite Hbf, Hqf).
  destruct (parse (b +:+ String "?" q)) as [e | url] eqn:Hp; [done |].
  simpl. intros [= <-]. by apply (parse_RawQuery b q).
Qed.

(** *** The parameters of a search key *)

(** Without [%] nothing is refused, and each [+] is read as a space. *)
Lemma QueryUnescape_no_percent (s : string) :
  mem_byte "%" s = false -> QueryUnescape s = inr (ReplaceByte "+" " " s).
Proof.
  intros Hs.
  assert (unescape_check s encodeQueryComponent = None
          /\ unescape_bytes s encodeQueryComponent = ReplaceByte "+" " " s) as [Hc Hb].
  { induction s as [| c s IH]; [done |]. cbn [mem_byte] in Hs.
    apply orb_false_elim in Hs as [Hc Hs]. destruct (IH Hs) as [IHc IHb].
    rewrite Ascii.eqb_sym in Hc.
    cbn [unescape_check unescape_bytes ReplaceByte is_query]. rewrite Hc.
    destruct (Ascii.eqb c "+"); cbn [andb]; by rewrite ?IHc, ?IHb. }
  unfold QueryUnescape, unescape. by rewrite Hc, Hb.
Qed.

Lemma ReplaceByte_absent (old new : ascii) (s : string) :
  mem_byte old s = false -> ReplaceByte old new s = s.
Proof.
  induction s as [| c s IH]; [done |]. cbn [mem_byte ReplaceByte].
  intros [Hc Hs]%orb_false_elim. rewrite Ascii.eqb_sym in Hc. rewrite Hc. by rewrite IH.
Qed.

Lemma query_safe_bytes (s : string) (c : ascii) :
  query_safe s = true -> mem_byte c "#&;%" = true -> mem_byte c s = false.
Proof.
  unfold query_safe. intros Hs Hc. induction s as [| d s IH]; [done |].
  cbn [all_bytes] in Hs. apply andb_prop in Hs as [Hd Hs].
  cbn [mem_byte]. rewrite (IH Hs), orb_false_r.
  destruct (Ascii.eqb_spec c d) as [-> | _]; [| done]. by rewrite Hc in Hd.
Qed.

(** The one parameter of [term=key]. *)
Lemma parseQuery_step_term (m : Values) (err : option url_err) (key : string) :
  query_safe key = true ->
  parseQuery_step (m, err) ("term=" +:+ key)
  = (Values_Add m "term" (ReplaceByte "+" " " key), err).
Proof.
  intros Hk. unfold parseQuery_step.
  rewrite mem_byte_app, (query_safe_bytes key ";" Hk) by done. simpl orb.
  change (is_empty ("term=" +:+ key)) with false. cbv iota.
  change (Cut ("term=" +:+ key) "=") with ("term", key, true).
  cbv beta iota zeta.
  change (QueryUnescape "term") with (@inr url_err string "term").
  by rewrite QueryUnescape_no_percent by (by apply query_safe_bytes).
Qed.


(** *** What [Encode] writes for distinct keys in order *)

Lemma params_ext (ks : list string) (m1 m2 : Values) :
  (forall k, k ∈ ks -> m1 !! k = m2 !! k) -> params ks m1 = params ks m2.
Proof.
  induction ks as [| k ks IH]; intros Hm; [done |].
  rewrite !params_cons, (Hm k) by apply list_elem_of_here.
  f_equal. apply IH. intros k' Hk'. by apply Hm, list_elem_of_further.
Qed.

Lemma params_list_to_map (kvs : list (string * list string)) :
  NoDup kvs.*1 ->
  params kvs.*1 (list_to_map kvs) = concat ((fun kv : string * list string => pair kv.1 <$> kv.2) <$> kvs).
Proof.
  induction kvs as [| [k vs] kvs IH]; intros Hnd; [done |].
  apply NoDup_cons in Hnd as [Hk Hnd].
  cbn [fmap list_fmap fst snd list_to_map foldr concat].
  rewrite params_cons, lookup_insert_eq. cbn [default]. f_equal.
  rewrite <- IH by done. apply params_ext.
  intros k' Hk'. apply lookup_insert_ne. by intros ->.
Qed.

Lemma Values_Encode_sorted (kvs : list (string * list string)) :
  StronglySorted String.le kvs.*1 -> NoDup kvs.*1 ->
  Values_Encode (list_to_map kvs)
  = join "&" (render <$> concat ((fun kv : string * list string => pair kv.1 <$> kv.2) <$> kvs)).
Proof.
  intros Hs Hnd. unfold Values_Encode. rewrite Values_Encode_from_join.
  assert (merge_sort String.le (map_to_list (list_to_map kvs : Values)).*1 = kvs.*1) as ->.
  { apply (StronglySorted_unique String.le); [| done |].
    - apply StronglySorted_merge_sort; apply _.
    - by rewrite merge_sort_Permutation, map_to_list_to_map. }
  by rewrite params_list_to_map.
Qed.

Lemma QueryEscape_api_token : QueryEscape "api_token" = "api_token".
Proof. reflexivity. Qed.

Section WithJSON.
Context `{JSON}.

Lemma first_call_is_the_search {W A} (h : Requestor W) (w : W) (url : string)
      (k : reply -> Prog A) :
  exists calls, (run h (DoGet url k) w).1.2 = GET url :: calls.
Proof.
  simpl. destruct (Get h url w) as [r w1].
  destruct (run h (k r) w1) as [[a calls] w2]. by exists calls.
Qed.

(** X14.  What the search asks the server.  For a base URL without [?]
    and [#] and a name (an email) without [#], [&], [;] and [%], the
    query of the search URL is [api_token], then for a person
    [search_by_email=1], then [term], escaped; the URL has no fragment
    and the first call is the [Get] of that URL.  The term is the name
    (the first email) with each [+] turned into a space: the key as it
    is when it has no [+]. *)
Theorem search_query_on_the_wire :
  (forall W (h : Requestor W) (w : W) (c : Client) (org : Organization) (u : URL),
      authenticatedURL c ("/organizations/find?term=" +:+ Organization_Name org) = inr u ->
      mem_byte "?" (BaseURL c) = false -> mem_byte "#" (BaseURL c) = false ->
      query_safe (Organization_Name org) = true ->
      RawQuery u
      = "api_token=" +:+ QueryEscape (APIToken c)
        +:+ "&term=" +:+ QueryEscape (ReplaceByte "+" " " (Organization_Name org))
      /\ URL_Query u !! "term" = Some [ReplaceByte "+" " " (Organization_Name org)]
      /\ Fragment u = EmptyString
      /\ exists calls,
          (run h (FindOrCreateOrganization c org) w).1.2 = GET (URL_String u) :: calls)
  /\ (forall W (h : Requestor W) (w : W) (c : Client) (newPerson : Person)
             (email : string) (others : list string) (u : URL),
         Person_Email newPerson = email :: others ->
         authenticatedURL c ("/persons/find?search_by_email=1&term=" +:+ email) = inr u ->
         mem_byte "?" (BaseURL c) = false -> mem_byte "#" (BaseURL c) = false ->
         query_safe email = true ->
         RawQuery u
         = "api_token=" +:+ QueryEscape (APIToken c)
           +:+ "&search_by_email=1&term=" +:+ QueryEscape (ReplaceByte "+" " " email)
         /\ URL_Query u !! "term" = Some [ReplaceByte "+" " " email]
         /\ Fragment u = EmptyString
         /\ exists calls,
             (run h (FindOrCreatePerson c newPerson) w).1.2 = GET (URL_String u) :: calls)
  /\ (forall key : string, mem_byte "+" key = false -> ReplaceByte "+" " " key = key).
Proof.
  split; [| split]; [| | intros; by apply ReplaceByte_absent].
  - intros W h w c org u Hu Hq Hf Hsafe.
    destruct (authenticatedURL_inv c _ u Hu) as [u0 [Hp ->]].
    change ("/organizations/find?term=" +:+ Organization_Name org)
      with ("/organizations/find" +:+ String "?" ("term=" +:+ Organization_Name org)) in Hp.
    rewrite <- append_assoc in Hp.
    apply Parse_RawQuery in Hp as [Hraw Hfrag]; [| | | | done].
    2: { by rewrite mem_byte_app, Hq. }
    2: { by rewrite mem_byte_app, Hf. }
    2: { rewrite mem_byte_app. by rewrite (query_safe_bytes _ "#" Hsafe). }
    set (name' := ReplaceByte "+" " " (Organization_Name org)).
    assert (Values_Add (URL_Query u0) "api_token" (APIToken c)
            = list_to_map [("api_token", [APIToken c]); ("term", [name'])]) as Hquery.
    { unfold URL_Query, ParseQuery. rewrite Hraw.
      rewrite Split_no_sep
        by (rewrite mem_byte_app; by rewrite (query_safe_bytes _ "&" Hsafe)).
      cbn [fold_left]. rewrite parseQuery_step_term by done. cbn [fst].
      unfold Values_Add. rewrite lookup_empty. cbn [default app].
      by rewrite lookup_insert_ne, lookup_empty. }
    split; [| split; [| split]].
    + simpl RawQuery. rewrite Hquery, Values_Encode_sorted.
      * cbn [fmap list_fmap concat app fst snd join]. unfold render. cbn [fst snd].
        rewrite QueryEscape_api_token.
        change (QueryEscape "term") with "term".
        by rewrite !append_assoc.
      * repeat constructor.
      * by apply (bool_decide_unpack _).
    + rewrite URL_Query_set_RawQuery by apply token_query_no_empty_list.
      rewrite Hquery. cbn [list_to_map foldr fst snd].
      by rewrite lookup_insert_ne, lookup_insert_eq.
    + done.
    + unfold FindOrCreateOrganization. rewrite Hu. apply first_call_is_the_search.
  - intros W h w c newPerson email others u He Hu Hq Hf Hsafe.
    destruct (authenticatedURL_inv c _ u Hu) as [u0 [Hp ->]].
    change ("/persons/find?search_by_email=1&term=" +:+ email)
      with ("/persons/find" +:+ String "?" ("search_by_email=1&term=" +:+ email)) in Hp.
    rewrite <- append_assoc in Hp.
    apply Parse_RawQuery in Hp as [Hraw Hfrag]; [| | | | done].
    2: { by rewrite mem_byte_app, Hq. }
    2: { by rewrite mem_byte_app, Hf. }
    2: { rewrite mem_byte_app. by rewrite (query_safe_bytes _ "#" Hsafe). }
    set (email' := ReplaceByte "+" " " email).
    assert (Values_Add (URL_Query u0) "api_token" (APIToken c)
            = list_to_map [("api_token", [APIToken c]); ("search_by_email", ["1"]);
                           ("term", [email'])]) as Hquery.
    { unfold URL_Query, ParseQuery. rewrite Hraw.
      change ("search_by_email=1&term=" +:+ email)
        with ("search_by_email=1" +:+ String "&" ("term=" +:+ email)).
      rewrite Split_app by done.
      rewrite Split_no_sep
        by (rewrite mem_byte_app; by rewrite (query_safe_bytes _ "&" Hsafe)).
      cbn [fold_left].
      change (parseQuery_step (∅, None) "search_by_email=1")
        with (Values_Add ∅ "search_by_email" "1", @None url_err).
      rewrite parseQuery_step_term by done. cbn [fst].
      unfold Values_Add. rewrite lookup_empty. cbn [default app].
      rewrite (lookup_insert_ne _ "search_by_email" "term") by done.
      rewrite lookup_empty. cbn [default app].
      rewrite !lookup_insert_ne, lookup_empty by done. cbn [default app].
      cbn [list_to_map foldr fst snd]. by rewrite (insert_insert_ne _ "term"). }
    split; [| split; [| split]].
    + simpl RawQuery. rewrite Hquery, Values_Encode_sorted.
      * cbn [fmap list_fmap concat app fst snd join]. unfold render. cbn [fst snd].
        rewrite QueryEscape_api_token.
        change (QueryEscape "term") with "term".
        change (QueryEscape "search_by_email") with "search_by_email".
        change (QueryEscape "1") with "1".
        by rewrite !append_assoc.
      * repeat constructor.
      * by apply (bool_decide_unpack _).
    + rewrite URL_Query_set_RawQuery by apply token_query_no_empty_list.
      rewrite Hquery. cbn [list_to_map foldr fst snd].
      do 2 rewrite lookup_insert_ne by done. by rewrite lookup_insert_eq.
    + done.
    + unfold FindOrCreatePerson. rewrite He, Hu. apply first_call_is_the_search.
Qed.

End WithJSON.
End WireSpec.

(** ** Unescaped names, and the create request on the wire *)

Module QuerySpec.
Import GoStrings NetURL Pipedrive Views StringFacts QueryFacts ParseFacts ClientFacts.
Import UpsertSpec FrameSpec URLSpec CallFacts InputSpec WireSpec.

(** [ParseQuery] only ever appends to the values of a key. *)
Lemma parseQuery_step_extends (acc : Values * option url_err) (piece k : string)
      (vs : list string) :
  acc.1 !! k = Some vs ->
  exists more, (parseQuery_step acc piece).1 !! k = Some (vs ++ more)%list.
Proof.
  destruct acc as [m err]. unfold parseQuery_step. simpl. intros Hk.
  assert (m !! k = Some (vs ++ [])%list) as Hsame by by rewrite app_nil_r.
  repeat case_match; simpl; eauto.
  unfold Values_Add. rewrite lookup_insert. case_decide; [| eauto].
  subst. rewrite Hk. simpl. eauto.
Qed.

Lemma fold_parseQuery_step_extends (pieces : list string) (acc : Values * option url_err)
      (k : string) (vs : list string) :
  acc.1 !! k = Some vs ->
  exists more, (fold_left parseQuery_step pieces acc).1 !! k = Some (vs ++ more)%list.
Proof.
  revert acc vs. induction pieces as [| piece pieces IH]; intros acc vs Hk.
  - exists []. by rewrite app_nil_r.
  - destruct (parseQuery_step_extends acc piece k vs Hk) as [more1 H1].
    destruct (IH _ _ H1) as [more2 H2]. exists (more1 ++ more2)%list.
    simpl. by rewrite H2, app_assoc.
Qed.

(** Without [?] there is no query. *)
Lemma strip_last_absent (c : ascii) (s : string) :
  mem_byte c s = false -> strip_last c s = None.
Proof.
  induction s as [| d s IH]; [done |]. cbn [mem_byte].
  intros [Hd Hs]%orb_false_elim. cbn [strip_last]. rewrite (IH Hs), Hd.
  by destruct s.
Qed.

Lemma getScheme_from_no_query (s rawURL : string) (i : nat) (scheme rest : string) :
  mem_byte "?" s = false -> mem_byte "?" rawURL = false ->
  getScheme_from i rawURL s = inr (scheme, rest) -> mem_byte "?" rest = false.
Proof.
  revert i. induction s as [| c s IH]; intros i Hs Hraw.
  - simpl. intros ?; by simplify_eq.
  - cbn [mem_byte] in Hs. apply orb_false_elim in Hs as [Hc Hs]. cbn [getScheme_from].
    destruct (is_lower c || is_upper c); [by apply IH |].
    destruct (is_digit c || mem_byte c "+-.").
    { destruct i; [intros ?; by simplify_eq | by apply IH]. }
    destruct (Ascii.eqb c ":").
    { destruct i; [done |]. intros ?; by simplify_eq. }
    intros ?; by simplify_eq.
Qed.

Lemma Parse_no_query (rawURL : string) (u : URL) :
  mem_byte "?" rawURL = false -> mem_byte "#" rawURL = false ->
  Parse rawURL = inr u -> RawQuery u = EmptyString /\ Fragment u = EmptyString.
Proof.
  intros Hq Hf. unfold Parse, Cut. rewrite (cut_byte_none "#" rawURL Hf).
  destruct (parse rawURL) as [e | url] eqn:Hp; [done |]. simpl.
  intros ?; simplify_eq. revert Hp. unfold parse.
  destruct (stringContainsCTLByte rawURL); [done |].
  destruct (String.eqb rawURL "*"); [intros ?; by simplify_eq |].
  destruct (getScheme rawURL) as [e | [scheme rest]] eqn:Hg; [done |].
  pose proof (getScheme_from_no_query rawURL rawURL 0 scheme rest Hq Hq Hg) as Hrest.
  unfold split_query, Cut.
  rewrite (strip_last_absent "?" rest Hrest), (cut_byte_none "?" rest Hrest).
  repeat case_match; try done;
    try (intros [= <-]; done);
    try (intros [? ?]%setPath_RawQuery; done).
Qed.

Section WithJSON.
Context `{JSON}.

(** X15.  The name is put into the search URL as it is, so an [&] in it
    ends the term: for a base URL without [?] and [#], a name
    [before&after] with [before] free of [#], [&], [;] and [%] and
    [after] free of [#], the first value of [term] in the search URL is
    [before] (each [+] a space), not the name.  The same for the first
    email of a person. *)
Theorem ampersand_cuts_the_search_term :
  (forall (c : Client) (org : Organization) (before after : string) (u : URL),
      Organization_Name org = before +:+ String "&" after ->
      authenticatedURL c ("/organizations/find?term=" +:+ Organization_Name org) = inr u ->
      mem_byte "?" (BaseURL c) = false -> mem_byte "#" (BaseURL c) = false ->
      query_safe before = true -> mem_byte "#" after = false ->
      exists more, URL_Query u !! "term" = Some (ReplaceByte "+" " " before :: more))
  /\ (forall (c : Client) (newPerson : Person) (before after : string)
             (others : list string) (u : URL),
         Person_Email newPerson = (before +:+ String "&" after) :: others ->
         authenticatedURL c ("/persons/find?search_by_email=1&term="
                             +:+ (before +:+ String "&" after)) = inr u ->
         mem_byte "?" (BaseURL c) = false -> mem_byte "#" (BaseURL c) = false ->
         query_safe before = true -> mem_byte "#" after = false ->
         exists more, URL_Query u !! "term" = Some (ReplaceByte "+" " " before :: more)).
Proof.
  split.
  - intros c org before after u Hname Hu Hq Hf Hsafe Hafter.
    destruct (authenticatedURL_inv c _ u Hu) as [u0 [Hp ->]].
    rewrite Hname in Hp.
    change ("/organizations/find?term=" +:+ (before +:+ String "&" after))
      with ("/organizations/find"
            +:+ String "?" ("term=" +:+ (before +:+ String "&" after))) in Hp.
    rewrite <- append_assoc in Hp.
    apply Parse_RawQuery in Hp as [Hraw Hfrag]; [| | | | done].
    2: { by rewrite mem_byte_app, Hq. }
    2: { by rewrite mem_byte_app, Hf. }
    2: { rewrite !mem_byte_app. rewrite (query_safe_bytes _ "#" Hsafe) by done.
         simpl. by rewrite Hafter. }
    rewrite URL_Query_set_RawQuery by apply token_query_no_empty_list.
    unfold Values_Add at 1. rewrite lookup_insert_ne by done.
    unfold URL_Query, ParseQuery. rewrite Hraw.
    rewrite <- append_assoc.
    rewrite Split_app
      by (rewrite mem_byte_app; by rewrite (query_safe_bytes _ "&" Hsafe)).
    cbn [fold_left]. rewrite parseQuery_step_term by done.
    apply (fold_parseQuery_step_extends _ _ "term" [ReplaceByte "+" " " before]).
    cbn [fst]. unfold Values_Add. by rewrite lookup_empty, lookup_insert_eq.
  - intros c newPerson before after others u _ Hu Hq Hf Hsafe Hafter.
    destruct (authenticatedURL_inv c _ u Hu) as [u0 [Hp ->]].
    change ("/persons/find?search_by_email=1&term=" +:+ (before +:+ String "&" after))
      with ("/persons/find"
            +:+ String "?" ("search_by_email=1&term="
                            +:+ (before +:+ String "&" after))) in Hp.
    rewrite <- append_assoc in Hp.
    apply Parse_RawQuery in Hp as [Hraw Hfrag]; [| | | | done].
    2: { by rewrite mem_byte_app, Hq. }
    2: { by rewrite mem_byte_app, Hf. }
    2: { rewrite !mem_byte_app. rewrite (query_safe_bytes _ "#" Hsafe) by done.
         simpl. by rewrite Hafter. }
    rewrite URL_Query_set_RawQuery by apply token_query_no_empty_list.
    unfold Values_Add at 1. rewrite lookup_insert_ne by done.
    unfold URL_Query, ParseQuery. rewrite Hraw.
    change ("search_by_email=1&term=" +:+ (before +:+ String "&" after))
      with ("search_by_email=1"
            +:+ String "&" ("term=" +:+ (before +:+ String "&" after))).
    rewrite Split_app by done.
    rewrite <- append_assoc.
    rewrite Split_app
      by (rewrite mem_byte_app; by rewrite (query_safe_bytes _ "&" Hsafe)).
    cbn [fold_left].
    change (parseQuery_step (∅, None) "search_by_email=1")
      with (Values_Add ∅ "search_by_email" "1", @None url_err).
    rewrite parseQuery_step_term by done.
    apply (fold_parseQuery_step_extends _ _ "term" [ReplaceByte "+" " " before]).
    cbn [fst]. unfold Values_Add.
    rewrite (lookup_insert_ne _ "search_by_email" "term") by done.
    by rewrite lookup_empty, lookup_insert_eq.
Qed.

(** X16.  What a create puts on the wire.  For a base URL and a path
    without [?] and [#], [createEntitiy] issues no call, or the one
    [Post] of the encoded fields as [application/json] to the URL of
    the path whose query is the escaped token alone and which has no
    fragment. *)
Theorem create_request_on_the_wire {W} (h : Requestor W) (w : W) (c : Client)
        (path : string) (bodyData : fields) :
  mem_byte "?" (BaseURL c +:+ path) = false ->
  mem_byte "#" (BaseURL c +:+ path) = false ->
  (run h (createEntitiy c path bodyData) w).1.2 = []
  \/ exists u body,
      json_Marshal bodyData = inr body
      /\ authenticatedURL c path = inr u
      /\ RawQuery u = "api_token=" +:+ QueryEscape (APIToken c)
      /\ URL_Query u = {[ "api_token" := [APIToken c] ]}
      /\ Fragment u = EmptyString
      /\ (run h (createEntitiy c path bodyData) w).1.2
         = [POST (URL_String u) "application/json" body].
Proof.
  intros Hq Hf.
  destruct (run_createEntitiy_calls h w c path bodyData)
    as [[Hc _] | [u [body [Hm [Hu Hc]]]]]; [by left |].
  right. exists u, body. split; [done |]. split; [done |].
  destruct (authenticatedURL_inv c _ u Hu) as [u0 [Hp Heq]].
  apply Parse_no_query in Hp as [Hraw Hfrag]; [| done | done].
  assert (Values_Add (URL_Query u0) "api_token" (APIToken c)
          = list_to_map [("api_token", [APIToken c])]) as Hquery.
  { unfold URL_Query. rewrite Hraw.
    change (ParseQuery EmptyString) with (∅ : Values, @None url_err). cbn [fst].
    unfold Values_Add. by rewrite lookup_empty. }
  split; [| split; [| split]]; [| | | done].
  - rewrite Heq. simpl RawQuery. rewrite Hquery, Values_Encode_sorted.
    + cbn [fmap list_fmap concat app fst snd join]. unfold render. cbn [fst snd].
      by rewrite QueryEscape_api_token.
    + repeat constructor.
    + by apply (bool_decide_unpack _).
  - rewrite Heq, URL_Query_set_RawQuery by apply token_query_no_empty_list.
    rewrite Hquery. cbn [list_to_map foldr fst snd]. by rewrite insert_empty.
  - by rewrite Heq.
Qed.

End WithJSON.
End QuerySpec.

(** ** The properties above at the responses of the tests *)

Module Cases.
Import GoStrings NetURL Pipedrive Views StringFacts QueryFacts ParseFacts ClientFacts.
Import UpsertSpec FrameSpec URLSpec Fixtures.
Import CallFacts FailureSpec CreateSpec InputSpec WireSpec QuerySpec.

#[local] Existing Instance RefJSON.codec.

Ltac scenario :=
  first [ reflexivity | vm_compute; reflexivity | vm_compute; split; discriminate ].

(** The hypotheses on an answered call, at a canned response. *)
Ltac answered := do 2 eexists; repeat split; scenario.

(** The first match of a canned response, and its id. *)
Ltac first_match Hdata Hid :=
  let Ho := fresh "Ho" in
  vm_compute in Hdata; injection Hdata as Ho _;
  rewrite <- Ho in Hid; vm_compute in Hid; injection Hid as <-.

(** No list that starts with an object with a number under [id]. *)
Ltac no_id :=
  let Hd := fresh "Hd" in
  intros ? ? ? Hd; vm_compute in Hd; first [discriminate | simplify_eq; discriminate].

(** A transport that knows no URL, and a search answered with a page
    that is no JSON text. *)
Lemma failed_search_is_returned_witness :
  run (fakeClient ∅) (FindOrCreateOrganization client sampleOrganization) tt
  = ((sampleOrganization,
      Returns (Some (foreign_error ("URL not mocked out: " +:+ organizationSearch)))),
     [GET organizationSearch], tt)
  /\ run (fakeClient {[ personSearch := "<html>Bad gateway</html>" ]})
         (FindOrCreatePerson client samplePerson) tt
     = ((samplePerson, Returns (Some RefJSON.syntax_error)), [GET personSearch], tt).
Proof.
  split.
  - eapply eq_trans;
      [ eapply (proj1 failed_search_is_returned);
        [scenario | scenario | left; eexists; reflexivity]
      | vm_compute; reflexivity ].
  - eapply eq_trans;
      [ eapply (proj2 failed_search_is_returned);
        [scenario | scenario | scenario
        | right; eexists; split; [reflexivity | right; split; scenario] ]
      | vm_compute; reflexivity ].
Defined.

(** The two "found" tests of [pipedrive_test.go]: the id of the match
    is stored. *)
Lemma found_data_never_creates_witness :
  run (fakeClient {[ organizationSearch := orgFindResp 1 "Videofruit" ]})
      (FindOrCreateOrganization client sampleOrganization) tt
  = ((set_Organization_ID sampleOrganization 1, Returns None), [GET organizationSearch], tt)
  /\ run (fakeClient {[ personSearch := personFindResp 1 "t@x.org" ]})
         (FindOrCreatePerson client samplePerson) tt
     = ((set_Person_ID samplePerson 1, Returns None), [GET personSearch], tt).
Proof.
  split.
  - edestruct (proj1 found_data_never_creates unit
                 (fakeClient {[ organizationSearch := orgFindResp 1 "Videofruit" ]})
                 tt tt client sampleOrganization organizationSearch)
      as [(o & rest & f & Hdata & Hf & Hrun) | [p Hrun]]; [answered | scenario | |].
    + eapply eq_trans; [exact Hrun |]. first_match Hdata Hf. vm_compute. reflexivity.
    + vm_compute in Hrun. discriminate.
  - edestruct (proj2 found_data_never_creates unit
                 (fakeClient {[ personSearch := personFindResp 1 "t@x.org" ]})
                 tt tt client samplePerson "t@x.org" [] personSearch)
      as [(o & rest & f & Hdata & Hf & Hrun) | [p Hrun]];
      [scenario | answered | scenario | |].
    + eapply eq_trans; [exact Hrun |]. first_match Hdata Hf. vm_compute. reflexivity.
    + vm_compute in Hrun. discriminate.
Defined.

(** An empty list of matches, and an object where the list should be. *)
Lemma malformed_search_data_panics_witness :
  run (fakeClient {[ organizationSearch := json "{ 'success': true, 'data': [] }" ]})
      (FindOrCreateOrganization client sampleOrganization) tt
  = ((sampleOrganization, Panics IndexOutOfRange), [GET organizationSearch], tt)
  /\ run (fakeClient {[ personSearch := json "{ 'success': true, 'data': { 'id': 1 } }" ]})
         (FindOrCreatePerson client samplePerson) tt
     = ((samplePerson, Panics TypeAssertion), [GET personSearch], tt).
Proof.
  split.
  - eapply eq_trans;
      [ eapply (proj1 malformed_search_data_panics); [answered | scenario | no_id]
      | vm_compute; reflexivity ].
  - eapply eq_trans;
      [ eapply (proj2 malformed_search_data_panics);
        [scenario | answered | scenario | no_id]
      | vm_compute; reflexivity ].
Defined.

(** A first match with the id [2.5]. *)
Lemma fractional_id_is_truncated_witness :
  exists id : Z,
    run (fakeClient
           {[ organizationSearch
              := json "{ 'success': true, 'data': [ { 'id': 2.5, 'name': 'Videofruit' } ] }" ]})
        (FindOrCreateOrganization client sampleOrganization) tt
    = ((set_Organization_ID sampleOrganization id, Returns None), [GET organizationSearch], tt)
    /\ (inject_Z id <= 5 # 2)%Q /\ (5 # 2 < inject_Z id + 1)%Q.
Proof.
  edestruct (proj1 fractional_id_is_truncated unit
               (fakeClient
                  {[ organizationSearch
                     := json "{ 'success': true, 'data': [ { 'id': 2.5, 'name': 'Videofruit' } ] }" ]})
               tt tt client sampleOrganization organizationSearch)
    as [id [Hrun [Hpos _]]];
    [answered | scenario | scenario | vm_compute; discriminate | vm_compute; discriminate |].
  exists id. split; [exact Hrun |]. apply Hpos. discriminate.
Defined.

(** A creation at a URL the transport does not know. *)
Lemma failed_creation_is_returned_witness :
  run (fakeClient {[ organizationSearch := orgNoFindResp ]})
      (FindOrCreateOrganization client sampleOrganization) tt
  = ((sampleOrganization,
      Returns (Some (foreign_error
                       "URL not mocked out: http://base/organizations?api_token=abc123"))),
     [GET organizationSearch;
      POST "http://base/organizations?api_token=abc123" "application/json"
           (json "{'name':'Videofruit'}")], tt)
  /\ run (fakeClient {[ "http://base/deals?api_token=abc123" := "<html>Bad gateway</html>" ]})
         (CreateDeal client sampleDeal) tt
     = ((sampleDeal, Returns (Some RefJSON.syntax_error)),
        [POST "http://base/deals?api_token=abc123" "application/json"
              (json "{'org_id':2,'person_id':1,'title':'Close this deal!','user_id':0,'value':1000}")],
        tt).
Proof.
  split.
  - eapply eq_trans;
      [ eapply (proj1 failed_creation_is_returned);
        [answered | scenario | scenario | scenario | scenario
        | left; eexists; reflexivity]
      | vm_compute; reflexivity ].
  - eapply eq_trans;
      [ eapply (proj2 (proj2 failed_creation_is_returned));
        [scenario | scenario | scenario
        | right; eexists; split; [reflexivity | right; split; scenario] ]
      | vm_compute; reflexivity ].
Defined.

(** A deal created under the id 3, by a client with the default user 7. *)
Lemma deal_created_with_one_post_witness :
  run (fakeClient
         {[ "http://base/deals?api_token=abc123"
            := json "{ 'success': true, 'data': { 'id': 3, 'title': 'Close this deal!' } }" ]})
      (CreateDeal client7 sampleDeal) tt
  = ((mkDeal 3 "Close this deal!" 1000 7 1 2 ∅, Returns None),
     [POST "http://base/deals?api_token=abc123" "application/json"
           (json "{'org_id':2,'person_id':1,'title':'Close this deal!','user_id':7,'value':1000}")],
     tt).
Proof.
  eapply eq_trans;
    [ eapply deal_created_with_one_post; [answered | scenario | scenario | scenario]
    | vm_compute; reflexivity ].
Defined.

(** A deal with an extra field and no user id, by a client with the
    default user 7, against a transport that knows no URL. *)
Lemma deal_payload_witness :
  (run (fakeClient ∅)
       (CreateDeal client7
          (mkDeal 0 "Close this deal!" 1000 0 1 2 {[ "stage_id" := VInt 4 ]})) tt).1.2
  = [POST "http://base/deals?api_token=abc123" "application/json"
          (json "{'org_id':2,'person_id':1,'stage_id':4,'title':'Close this deal!','user_id':7,'value':1000}")]
  /\ deal_bodyData
       (default_UserID client7
          (mkDeal 0 "Close this deal!" 1000 0 1 2 {[ "stage_id" := VInt 4 ]})) !! "user_id"
     = Some (VInt 7).
Proof.
  edestruct (deal_payload (fakeClient ∅) tt client7
               (mkDeal 0 "Close this deal!" 1000 0 1 2 {[ "stage_id" := VInt 4 ]}))
    as [Hrun Hpayload]; [scenario | scenario |].
  split; [eapply eq_trans; [exact Hrun | vm_compute; reflexivity] |].
  exact (Hpayload "user_id").
Defined.

(** A create response whose [data] has no id. *)
Lemma create_answer_without_id_panics_witness :
  run (fakeClient
         {[ "http://base/deals?api_token=abc123"
            := json "{ 'success': true, 'data': { 'title': 'Close this deal!' } }" ]})
      (CreateDeal client sampleDeal) tt
  = ((sampleDeal, Panics TypeAssertion),
     [POST "http://base/deals?api_token=abc123" "application/json"
           (json "{'org_id':2,'person_id':1,'title':'Close this deal!','user_id':0,'value':1000}")],
     tt)
  /\ run (fakeClient
            {[ organizationSearch := orgNoFindResp;
               "http://base/organizations?api_token=abc123" := orgFindResp 1 "Videofruit" ]})
         (FindOrCreateOrganization client sampleOrganization) tt
     = ((sampleOrganization, Panics TypeAssertion),
        [GET organizationSearch;
         POST "http://base/organizations?api_token=abc123" "application/json"
              (json "{'name':'Videofruit'}")], tt).
Proof.
  split.
  - eapply eq_trans;
      [ eapply (proj2 (proj2 create_answer_without_id_panics));
        [answered | scenario | intros ? ? Hd; vm_compute in Hd; simplify_eq; discriminate]
      | vm_compute; reflexivity ].
  - eapply eq_trans;
      [ eapply (proj1 create_answer_without_id_panics);
        [answered | scenario | answered | scenario
        | intros ? ? Hd; vm_compute in Hd; discriminate]
      | vm_compute; reflexivity ].
Defined.

(** Two extra fields, yielded in either order, over a mapping that has
    one of the keys. *)
Lemma merge_fields_order_irrelevant_witness :
  merge_fields_in [("b", VInt 2); ("a", VInt 1)] {[ "name" := VString "x"; "a" := VInt 0 ]}
  = merge_fields {[ "name" := VString "x"; "a" := VInt 0 ]} {[ "a" := VInt 1; "b" := VInt 2 ]}
  /\ merge_fields_in [("a", VInt 1); ("b", VInt 2)] {[ "name" := VString "x"; "a" := VInt 0 ]}
     = merge_fields {[ "name" := VString "x"; "a" := VInt 0 ]} {[ "a" := VInt 1; "b" := VInt 2 ]}.
Proof.
  assert (map_to_list ({[ "a" := VInt 1; "b" := VInt 2 ]} : fields)
          = [("a", VInt 1); ("b", VInt 2)]) as Hl by (vm_compute; reflexivity).
  split.
  - apply (proj1 (merge_fields_order_irrelevant _ _ _
                    (eq_ind_r (fun l => _ ≡ₚ l) (perm_swap _ _ []) Hl))).
  - apply (proj1 (merge_fields_order_irrelevant _ _ _
                    (eq_ind_r (fun l => _ ≡ₚ l) (Permutation_refl _) Hl))).
Defined.

(** A name with a tab. *)
Lemma control_byte_in_search_key_rejected_witness :
  run (fakeClient ∅)
      (FindOrCreateOrganization client
         (mkOrganization 0 ("Video" +:+ String (ascii_of_N 9) "fruit") 0 ∅)) tt
  = ((mkOrganization 0 ("Video" +:+ String (ascii_of_N 9) "fruit") 0 ∅,
      Returns (Some (url_Error
        (mkError "parse"
           ("http://base/organizations/find?term=Video" +:+ String (ascii_of_N 9) "fruit")
           ErrControlCharacter)))), [], tt).
Proof.
  eapply eq_trans;
    [ eapply (proj1 control_byte_in_search_key_rejected); scenario
    | vm_compute; reflexivity ].
Defined.

(** The name of the README, and an email with a [+]: the term the
    server reads has a space there. *)
Lemma search_query_on_the_wire_witness :
  (exists u : URL,
      authenticatedURL client "/organizations/find?term=My fav org" = inr u
      /\ RawQuery u = "api_token=abc123&term=My+fav+org"
      /\ URL_Query u !! "term" = Some ["My fav org"])
  /\ (exists u : URL,
         authenticatedURL client
           "/persons/find?search_by_email=1&term=chris+test@videofruit.com" = inr u
         /\ RawQuery u = "api_token=abc123&search_by_email=1&term=chris+test%40videofruit.com"
         /\ URL_Query u !! "term" = Some ["chris test@videofruit.com"]).
Proof.
  split.
  - eexists. split; [reflexivity |].
    edestruct (proj1 search_query_on_the_wire unit (fakeClient ∅) tt client
                 (mkOrganization 0 "My fav org" 0 ∅))
      as [Hraw [Hterm _]]; [reflexivity | scenario | scenario | scenario |].
    split; [eapply eq_trans; [exact Hraw | vm_compute; reflexivity] |].
    eapply eq_trans; [exact Hterm | vm_compute; reflexivity].
  - eexists. split; [reflexivity |].
    edestruct (proj1 (proj2 search_query_on_the_wire) unit (fakeClient ∅) tt client
                 (mkPerson 0 0 0 "Chris" ["chris+test@videofruit.com"] [])
                 "chris+test@videofruit.com" [])
      as [Hraw [Hterm _]]; [reflexivity | reflexivity | scenario | scenario | scenario |].
    split; [eapply eq_trans; [exact Hraw | vm_compute; reflexivity] |].
    eapply eq_trans; [exact Hterm | vm_compute; reflexivity].
Defined.

(** The name [AT&T] is searched as [AT]. *)
Lemma ampersand_cuts_the_search_term_witness :
  exists (u : URL) (more : list string),
    authenticatedURL client "/organizations/find?term=AT&T" = inr u
    /\ URL_Query u !! "term" = Some ("AT" :: more).
Proof.
  eexists.
  edestruct (proj1 ampersand_cuts_the_search_term client
               (mkOrganization 0 "AT&T" 0 ∅) "AT" "T")
    as [more Hterm]; [reflexivity | reflexivity | scenario | scenario | scenario | scenario |].
  exists more. split; [reflexivity | exact Hterm].
Defined.

(** The creation of a deal, against a transport that knows no URL. *)
Lemma create_request_on_the_wire_witness :
  (run (fakeClient ∅) (createEntitiy client "/deals" (deal_bodyData sampleDeal)) tt).1.2 = []
  \/ exists (u : URL) (body : string),
      json_Marshal (deal_bodyData sampleDeal) = inr body
      /\ authenticatedURL client "/deals" = inr u
      /\ RawQuery u = "api_token=" +:+ QueryEscape "abc123"
      /\ URL_Query u = {[ "api_token" := ["abc123"] ]}
      /\ Fragment u = EmptyString
      /\ (run (fakeClient ∅) (createEntitiy client "/deals" (deal_bodyData sampleDeal)) tt).1.2
         = [POST (URL_String u) "application/json" body].
Proof.
  apply (create_request_on_the_wire (fakeClient ∅) tt client "/deals" (deal_bodyData sampleDeal));
    reflexivity.
Defined.

End Cases.
